(** * Verification of trusttunel_bot: credential store, user management,
    reload notifier, client-config rendering, connection profiles,
    pagination, rules files and the handlers of the chat bot.

    Python [str] values are modelled as Rocq [string] holding their UTF-8
    bytes. A non-ASCII character is a run of bytes >= 0x80. [strip] and
    [splitlines] recognise the byte runs of the non-ASCII whitespace and
    line breaks; everywhere else (TOML's control characters and escapes,
    quotes, the separators given to [split]) only ASCII characters matter.
    Python [int] is [Z]. Exceptions are values of [exc]. *)

From Stdlib Require Import String Ascii ZArith List Lia Bool.
From Stdlib Require Import Numbers.DecimalString Numbers.DecimalZ.
From stdpp Require Import base gmap strings.
Import ListNotations.

Open Scope string_scope.
Set Warnings "-register-all".
#[local] Arguments String.append : simpl nomatch.

(* ------------------------------------------------------------------ *)
(** ** Python builtins on strings *)

Module Py.

Definition nl : ascii := Ascii.ascii_of_nat 10.
Definition cr : ascii := Ascii.ascii_of_nat 13.
Definition tab : ascii := Ascii.ascii_of_nat 9.
Definition dq : ascii := Ascii.ascii_of_nat 34.
Definition bs : ascii := Ascii.ascii_of_nat 92.
Definition sq : ascii := Ascii.ascii_of_nat 39.

(** [str.isspace] on a one-byte (ASCII) character: space, \t \n \v \f \r
    and \x1c..\x1f. *)
Definition is_space (c : ascii) : bool :=
  let n := nat_of_ascii c in
  (n =? 32)%nat || ((9 <=? n)%nat && (n <=? 13)%nat)
  || ((28 <=? n)%nat && (n <=? 31)%nat).

(** [str.isspace] on a two-byte UTF-8 character [c d]: U+0085, U+00A0. *)
Definition is_space2 (c d : ascii) : bool :=
  let n := nat_of_ascii c in
  let m := nat_of_ascii d in
  (n =? 194)%nat && ((m =? 133)%nat || (m =? 160)%nat).

(** [str.isspace] on a three-byte UTF-8 character [c d e]: U+1680,
    U+2000..U+200A, U+2028, U+2029, U+202F, U+205F and U+3000. *)
Definition is_space3 (c d e : ascii) : bool :=
  let n := nat_of_ascii c in
  let m := nat_of_ascii d in
  let k := nat_of_ascii e in
  ((n =? 225)%nat && (m =? 154)%nat && (k =? 128)%nat)
  || ((n =? 226)%nat && (m =? 128)%nat &&
      (((128 <=? k)%nat && (k <=? 138)%nat) || (k =? 168)%nat || (k =? 169)%nat
       || (k =? 175)%nat))
  || ((n =? 226)%nat && (m =? 129)%nat && (k =? 159)%nat)
  || ((n =? 227)%nat && (m =? 128)%nat && (k =? 128)%nat).

(** Characters at which [str.splitlines] breaks: the one-byte \n \r \v \f
    \x1c \x1d \x1e, the two-byte U+0085 and the three-byte U+2028 and
    U+2029. *)
Definition is_line_break (c : ascii) : bool :=
  let n := nat_of_ascii c in
  ((10 <=? n)%nat && (n <=? 13)%nat) || ((28 <=? n)%nat && (n <=? 30)%nat).

Definition is_line_break2 (c d : ascii) : bool :=
  (nat_of_ascii c =? 194)%nat && (nat_of_ascii d =? 133)%nat.

Definition is_line_break3 (c d e : ascii) : bool :=
  (nat_of_ascii c =? 226)%nat && (nat_of_ascii d =? 128)%nat &&
  ((nat_of_ascii e =? 168)%nat || (nat_of_ascii e =? 169)%nat).

(** A whitespace character [w] in front of the stripped rest [r]: it goes
    when nothing but whitespace follows it. *)
Definition keep_space (w r : string) : string :=
  match r with EmptyString => EmptyString | _ => w ++ r end.

(** [s.rstrip()]: a character is read at each byte where one starts (a
    continuation byte of UTF-8 starts none of the characters above). *)
Fixpoint rstrip (s : string) : string :=
  match s with
  | EmptyString => EmptyString
  | String c rest =>
      if is_space c then keep_space (String c EmptyString) (rstrip rest) else
      match rest with
      | String d rest2 =>
          if is_space2 c d then keep_space (String c (String d EmptyString)) (rstrip rest2) else
          match rest2 with
          | String e rest3 =>
              if is_space3 c d e
              then keep_space (String c (String d (String e EmptyString))) (rstrip rest3)
              else String c (rstrip rest)
          | EmptyString => String c (rstrip rest)
          end
      | EmptyString => String c EmptyString
      end
  end.

(** [s.lstrip()] *)
Fixpoint lstrip (s : string) : string :=
  match s with
  | EmptyString => EmptyString
  | String c rest =>
      if is_space c then lstrip rest else
      match rest with
      | String d rest2 =>
          if is_space2 c d then lstrip rest2 else
          match rest2 with
          | String e rest3 => if is_space3 c d e then lstrip rest3 else s
          | EmptyString => s
          end
      | EmptyString => s
      end
  end.

(** [s.strip()] *)
Definition strip (s : string) : string := lstrip (rstrip s).

(** [sep.join(xs)] *)
Fixpoint join (sep : string) (xs : list string) : string :=
  match xs with
  | [] => EmptyString
  | [x] => x
  | x :: rest => x ++ sep ++ join sep rest
  end.

(** [s.startswith(p)] *)
Definition startswith (s p : string) : bool := String.prefix p s.

(** [s.replace(old, new)] for a one-character [old]. *)
Fixpoint replace_char (c : ascii) (new : string) (s : string) : string :=
  match s with
  | EmptyString => EmptyString
  | String d rest =>
      if Ascii.eqb c d then new ++ replace_char c new rest
      else String d (replace_char c new rest)
  end.

(** [s.split(sep)] for a one-character separator. *)
Fixpoint split_char (c : ascii) (s : string) : list string :=
  match s with
  | EmptyString => [EmptyString]
  | String d rest =>
      match split_char c rest with
      | [] => []
      | cur :: others =>
          if Ascii.eqb c d then EmptyString :: cur :: others
          else String d cur :: others
      end
  end.

(** [s.splitlines()]: a "\r\n" pair is one break; no trailing empty line. *)
Fixpoint splitlines_aux (cur : string) (s : string) : list string :=
  match s with
  | EmptyString => match cur with EmptyString => [] | _ => [cur] end
  | String c rest =>
      if is_line_break c then
        let rest' := if Ascii.eqb c cr then
                       match rest with
                       | String d r' => if Ascii.eqb d nl then r' else rest
                       | EmptyString => rest
                       end
                     else rest in
        cur :: splitlines_aux EmptyString rest'
      else
      match rest with
      | String d rest2 =>
          if is_line_break2 c d then cur :: splitlines_aux EmptyString rest2 else
          match rest2 with
          | String e rest3 =>
              if is_line_break3 c d e then cur :: splitlines_aux EmptyString rest3
              else splitlines_aux (cur ++ String c EmptyString) rest
          | EmptyString => splitlines_aux (cur ++ String c EmptyString) rest
          end
      | EmptyString => splitlines_aux (cur ++ String c EmptyString) rest
      end
  end.

Definition splitlines (s : string) : list string := splitlines_aux EmptyString s.

(** [s.split(":", 1)[1]] when [s] is known to contain ":". *)
Fixpoint after_colon (s : string) : string :=
  match s with
  | EmptyString => EmptyString
  | String c rest => if Ascii.eqb c ":"%char then rest else after_colon rest
  end.

Fixpoint contains_char (c : ascii) (s : string) : bool :=
  match s with
  | EmptyString => false
  | String d rest => Ascii.eqb c d || contains_char c rest
  end.

(** Python's [str(int)]. *)
Definition str_int (z : Z) : string := NilEmpty.string_of_int (Z.to_int z).

End Py.

(* ------------------------------------------------------------------ *)
(** ** Python exceptions raised or caught by the code *)

Inductive exc :=
| ValueError (msg : string)
| TOMLDecodeError
| AttributeError
| TypeError
| URLError
| HTTPError (code : Z)
| TimeoutError
| ConnectionError
| FileNotFoundError.

(** [isinstance(e, ValueError)]: [tomllib.TOMLDecodeError] is a subclass of
    [ValueError]; the other exceptions are not. *)
Definition is_value_error (e : exc) : bool :=
  match e with
  | ValueError _ | TOMLDecodeError => true
  | _ => false
  end.

(** Values parsed by [tomllib]: strings, integers, booleans, arrays and
    tables (a table keeps insertion order, as a Python dict does). *)
Inductive tval :=
| TStr (s : string)
| TInt (z : Z)
| TBool (b : bool)
| TArr (l : list tval)
| TTable (kvs : list (string * tval)).

Fixpoint assoc (k : string) (kvs : list (string * tval)) : option tval :=
  match kvs with
  | [] => None
  | (k', v) :: rest => if String.eqb k k' then Some v else assoc k rest
  end.

Fixpoint update_assoc (k : string) (f : tval -> tval) (kvs : list (string * tval))
  : list (string * tval) :=
  match kvs with
  | [] => []
  | (k', v) :: rest =>
      if String.eqb k k' then (k', f v) :: rest else (k', v) :: update_assoc k f rest
  end.

(** Python truthiness, [bool(v)]. *)
Definition truthy (v : tval) : bool :=
  match v with
  | TStr s => negb (String.eqb s EmptyString)
  | TInt z => negb (Z.eqb z 0)
  | TBool b => b
  | TArr l => negb (Nat.eqb (length l) 0)
  | TTable kvs => negb (Nat.eqb (length kvs) 0)
  end.

(** Results of Python calls: a value, or a raised exception. *)
Inductive res (A : Type) :=
| Ok (a : A)
| Err (e : exc).
Arguments Ok {A} a.
Arguments Err {A} e.

(* ------------------------------------------------------------------ *)
(** ** TOML: the fragment that credential files are written in

    [tomllib.loads] on the documents built from: blank lines, comments,
    array-of-tables headers [[name]], and [key = value] lines with a bare
    key and a basic ("...") or literal ('...') string value. [parse]
    returns [None] (TOMLDecodeError) on every other input, including valid
    TOML outside the fragment (standard tables, inline values other than
    strings, \u escapes, CRLF line ends). *)

Module Toml.

Definition is_ws (c : ascii) : bool := Ascii.eqb c " "%char || Ascii.eqb c Py.tab.

(** TOML control characters: U+0000..U+0008, U+000A..U+001F, U+007F. *)
Definition is_control (c : ascii) : bool :=
  let n := nat_of_ascii c in
  (n <=? 8)%nat || ((10 <=? n)%nat && (n <=? 31)%nat) || (n =? 127)%nat.

Definition is_bare_key_char (c : ascii) : bool :=
  let n := nat_of_ascii c in
  ((65 <=? n)%nat && (n <=? 90)%nat) || ((97 <=? n)%nat && (n <=? 122)%nat)
  || ((48 <=? n)%nat && (n <=? 57)%nat) || (n =? 95)%nat || (n =? 45)%nat.

Fixpoint skip_ws (s : string) : string :=
  match s with
  | String c rest => if is_ws c then skip_ws rest else s
  | EmptyString => EmptyString
  end.

Fixpoint bare_key (s : string) : string * string :=
  match s with
  | String c rest =>
      if is_bare_key_char c then let (k, r) := bare_key rest in (String c k, r)
      else (EmptyString, s)
  | EmptyString => (EmptyString, EmptyString)
  end.

(** The character denoted by the escape sequence [\e]. *)
Definition escape_char (e : ascii) : option ascii :=
  match nat_of_ascii e with
  | 98 => Some (ascii_of_nat 8)
  | 116 => Some (ascii_of_nat 9)
  | 110 => Some (ascii_of_nat 10)
  | 102 => Some (ascii_of_nat 12)
  | 114 => Some (ascii_of_nat 13)
  | 34 => Some Py.dq
  | 92 => Some Py.bs
  | _ => None
  end.

Definition cons_fst (c : ascii) (p : option (string * string)) :=
  match p with Some (v, r) => Some (String c v, r) | None => None end.

(** Body of a basic string after its opening quote: the value and the
    text after the closing quote. *)
Fixpoint basic_body (s : string) : option (string * string) :=
  match s with
  | EmptyString => None
  | String c rest =>
      if Ascii.eqb c Py.dq then Some (EmptyString, rest)
      else if Ascii.eqb c Py.bs then
        match rest with
        | String e rest' =>
            match escape_char e with
            | Some x => cons_fst x (basic_body rest')
            | None => None
            end
        | EmptyString => None
        end
      else if is_control c && negb (Ascii.eqb c Py.tab) then None
      else cons_fst c (basic_body rest)
  end.

(** Body of a literal string after its opening quote. *)
Fixpoint literal_body (s : string) : option (string * string) :=
  match s with
  | EmptyString => None
  | String c rest =>
      if Ascii.eqb c Py.sq then Some (EmptyString, rest)
      else if is_control c && negb (Ascii.eqb c Py.tab) then None
      else cons_fst c (literal_body rest)
  end.

Definition string_value (s : string) : option (string * string) :=
  match s with
  | String c rest =>
      if Ascii.eqb c Py.dq then basic_body rest
      else if Ascii.eqb c Py.sq then literal_body rest
      else None
  | EmptyString => None
  end.

Definition comment_ok (s : string) : bool :=
  forallb (fun c => negb (is_control c) || Ascii.eqb c Py.tab) (list_ascii_of_string s).

(** What may follow a value or a header on its line. *)
Definition line_end_ok (s : string) : bool :=
  match skip_ws s with
  | EmptyString => true
  | String c rest => Ascii.eqb c "#"%char && comment_ok rest
  end.

Inductive line :=
| LBlank
| LArrayHeader (name : string)
| LKeyValue (k : string) (v : string).

Definition parse_line (l : string) : option line :=
  match skip_ws l with
  | EmptyString => Some LBlank
  | String c rest =>
      if Ascii.eqb c "#"%char then
        if comment_ok rest then Some LBlank else None
      else if Ascii.eqb c "["%char then
        match rest with
        | String c2 rest2 =>
            if Ascii.eqb c2 "["%char then
              let (k, r) := bare_key (skip_ws rest2) in
              match skip_ws r with
              | String d1 (String d2 r') =>
                  if Ascii.eqb d1 "]"%char && Ascii.eqb d2 "]"%char
                     && negb (String.eqb k EmptyString) && line_end_ok r'
                  then Some (LArrayHeader k) else None
              | _ => None
              end
            else None
        | EmptyString => None
        end
      else
        let (k, r) := bare_key (skip_ws l) in
        if String.eqb k EmptyString then None else
        match skip_ws r with
        | String e r' =>
            if Ascii.eqb e "="%char then
              match string_value (skip_ws r') with
              | Some (v, after) => if line_end_ok after then Some (LKeyValue k v) else None
              | None => None
              end
            else None
        | EmptyString => None
        end
  end.

(** Document under construction: the root table and the array of tables
    the last [[name]] header opened, if any. *)
Record doc := { root : list (string * tval); current : option string }.

Definition last_table_insert (k : string) (v : tval) (t : tval) : option tval :=
  match t with
  | TArr tbls =>
      match rev tbls with
      | TTable kvs :: others =>
          match assoc k kvs with
          | Some _ => None
          | None => Some (TArr (rev others ++ [TTable (kvs ++ [(k, v)])]))
          end
      | _ => None
      end
  | _ => None
  end.

Definition is_table (t : tval) : bool :=
  match t with TTable _ => true | _ => false end.

Definition step (d : doc) (l : line) : option doc :=
  match l with
  | LBlank => Some d
  | LArrayHeader n =>
      match assoc n (root d) with
      | None => Some {| root := root d ++ [(n, TArr [TTable []])]; current := Some n |}
      | Some (TArr tbls) =>
          if forallb is_table tbls
          then Some {| root := update_assoc n (fun _ => TArr (tbls ++ [TTable []])) (root d);
                       current := Some n |}
          else None
      | Some _ => None
      end
  | LKeyValue k v =>
      match current d with
      | None =>
          match assoc k (root d) with
          | Some _ => None
          | None => Some {| root := root d ++ [(k, TStr v)]; current := None |}
          end
      | Some n =>
          match assoc n (root d) with
          | Some t =>
              match last_table_insert k (TStr v) t with
              | Some t' => Some {| root := update_assoc n (fun _ => t') (root d);
                                   current := Some n |}
              | None => None
              end
          | None => None
          end
      end
  end.

Fixpoint run (d : doc) (ls : list string) : option doc :=
  match ls with
  | [] => Some d
  | l :: rest =>
      match parse_line l with
      | Some pl => match step d pl with Some d' => run d' rest | None => None end
      | None => None
      end
  end.

(** [tomllib.loads(text)] on the fragment. *)
Definition loads (text : string) : option tval :=
  match run {| root := []; current := None |} (Py.split_char Py.nl text) with
  | Some d => Some (TTable (root d))
  | None => None
  end.

End Toml.

(* ------------------------------------------------------------------ *)
(** ** credentials.py *)

Module Credentials.

Record ClientCredential := { username : string; password : string }.

(** [_escape]: backslash first, then the double quote. *)
Definition _escape (value : string) : string :=
  Py.replace_char Py.dq (String Py.bs (String Py.dq EmptyString))
    (Py.replace_char Py.bs (String Py.bs (String Py.bs EmptyString)) value).

Definition quoted (v : string) : string :=
  String Py.dq (_escape v ++ String Py.dq EmptyString).

Definition client_lines (client : ClientCredential) : list string :=
  [ "[[client]]";
    "username = " ++ quoted (username client);
    "password = " ++ quoted (password client);
    EmptyString ].

(** [save_credentials(path, clients)]: the text written to [path]. *)
Definition save_credentials (clients : list ClientCredential) : string :=
  let lines := flat_map client_lines clients in
  match lines with
  | [] => EmptyString
  | _ => Py.rstrip (Py.join (String Py.nl EmptyString) lines) ++ String Py.nl EmptyString
  end.

(** One entry of [data.get("client", [])], checked as the loop body does. *)
Definition load_client (client : tval) : res ClientCredential :=
  match client with
  | TTable kvs =>
      let u := assoc "username" kvs in
      let p := assoc "password" kvs in
      match u, p with
      | Some uv, Some pv =>
          if truthy uv && truthy pv then
            match uv, pv with
            | TStr us, TStr ps => Ok {| username := us; password := ps |}
            (* the fragment parser only yields string values *)
            | _, _ => Err TypeError
            end
          else Err (ValueError "Each client must have username and password")
      | _, _ => Err (ValueError "Each client must have username and password")
      end
  | _ => Err AttributeError
  end.

Fixpoint load_clients (clients : list tval) : res (list ClientCredential) :=
  match clients with
  | [] => Ok []
  | c :: rest =>
      match load_client c with
      | Err e => Err e
      | Ok cred =>
          match load_clients rest with
          | Err e => Err e
          | Ok creds => Ok (cred :: creds)
          end
      end
  end.

(** Iterating over the value of [data.get("client", [])]. *)
Definition iterate_clients (v : tval) : res (list ClientCredential) :=
  match v with
  | TArr l => load_clients l
  | TStr s => if String.eqb s EmptyString then Ok [] else Err AttributeError
  | TTable kvs => match kvs with [] => Ok [] | _ => Err AttributeError end
  | TInt _ | TBool _ => Err TypeError
  end.

(** [load_credentials(path)]; [file] is the content of [path], [None]
    when it does not exist. *)
Definition load_credentials (file : option string) : res (list ClientCredential) :=
  match file with
  | None => Ok []
  | Some text =>
      match Toml.loads text with
      | None => Err TOMLDecodeError
      | Some (TTable data) =>
          iterate_clients (match assoc "client" data with Some v => v | None => TArr [] end)
      | Some _ => Err TOMLDecodeError
      end
  end.

(** No ASCII control character (code below 32, or 127). *)
Definition no_control (s : string) : bool :=
  forallb (fun c => let n := nat_of_ascii c in (32 <=? n)%nat && negb (n =? 127)%nat)
    (list_ascii_of_string s).

(** A username or password that is non-empty and free of control characters. *)
Definition plain_field (s : string) : bool :=
  negb (String.eqb s EmptyString) && no_control s.

Definition plain_client (client : ClientCredential) : bool :=
  plain_field (username client) && plain_field (password client).

(** The table a saved client is read back as. *)
Definition client_table (client : ClientCredential) : tval :=
  TTable [("username", TStr (username client)); ("password", TStr (password client))].

(** Escaped form of one character, as [_escape] writes it. *)
Definition escape1 (c : ascii) : string :=
  if Ascii.eqb Py.bs c then String Py.bs (String Py.bs EmptyString)
  else if Ascii.eqb Py.dq c then String Py.bs (String Py.dq EmptyString)
  else String c EmptyString.

End Credentials.

(* ------------------------------------------------------------------ *)
(** ** config.py: the fields of [BotConfig] the modelled code reads *)

Record BotConfig := {
  credentials_file : string;
  admin_ids : option (list Z);
  reload_endpoint : option string;
  dns_upstreams : option (list string)
}.

(* ------------------------------------------------------------------ *)
(** ** service.py *)

Module Service.

(** The outside world the notifier talks to: what [request.urlopen] does
    for a POST to a URL (returns, or raises), and whether
    [subprocess.run(["systemctl", "restart", "trusttunnel"], check=False)]
    runs the command (any exit status) or raises (e.g. FileNotFoundError
    when there is no systemctl). *)
Record Env := {
  urlopen : string -> option exc;
  systemctl_run : option exc
}.

Inductive effect :=
| PostTo (url : string)
| RestartService.

Record ReloadResult := { used_hot_reload : bool }.

(** The exception classes of [except (error.URLError, error.HTTPError)];
    HTTPError is a subclass of URLError. *)
Definition caught (e : exc) : bool :=
  match e with URLError | HTTPError _ => true | _ => false end.

Definition restart (env : Env) (effs : list effect) : list effect * res ReloadResult :=
  match systemctl_run env with
  | None => ((effs ++ [RestartService])%list, Ok {| used_hot_reload := false |})
  | Some e => ((effs ++ [RestartService])%list, Err e)
  end.

(** [reload_credentials(reload_endpoint)]: the effects in order, and the
    result or the exception that escapes. *)
Definition reload_credentials (env : Env) (endpoint : option string)
  : list effect * res ReloadResult :=
  match endpoint with
  | Some url =>
      if negb (String.eqb url EmptyString) then
        match urlopen env url with
        | None => ([PostTo url], Ok {| used_hot_reload := true |})
        | Some e => if caught e then restart env [PostTo url] else ([PostTo url], Err e)
        end
      else restart env []
  | None => restart env []
  end.

End Service.

(* ------------------------------------------------------------------ *)
(** ** user_management.py

    The credential file is passed as its content ([None]: absent); each
    operation returns the file content afterwards, the reload effects and
    its result. *)

Module UserManagement.
Import Credentials.

Record UserChangeResult := { updated_path : string; used_hot_reload : bool }.

Definition change_result (config : BotConfig) (r : res Service.ReloadResult)
  : res UserChangeResult :=
  match r with
  | Ok rr => Ok {| updated_path := credentials_file config;
                   used_hot_reload := Service.used_hot_reload rr |}
  | Err e => Err e
  end.

Definition list_users (file : option string) : res (list string) :=
  match load_credentials file with
  | Ok creds => Ok (map username creds)
  | Err e => Err e
  end.

Definition add_user (config : BotConfig) (env : Service.Env) (file : option string)
  (user pass : string)
  : option string * list Service.effect * res UserChangeResult :=
  match load_credentials file with
  | Err e => (file, [], Err e)
  | Ok credentials =>
      if existsb (fun client => String.eqb (username client) user) credentials then
        (file, [], Err (ValueError ("User '" ++ user ++ "' already exists")))
      else
        let credentials' := (credentials ++ [{| username := user; password := pass |}])%list in
        let file' := Some (save_credentials credentials') in
        let (effs, result) := Service.reload_credentials env (reload_endpoint config) in
        (file', effs, change_result config result)
  end.

Definition delete_user (config : BotConfig) (env : Service.Env) (file : option string)
  (user : string)
  : option string * list Service.effect * res UserChangeResult :=
  match load_credentials file with
  | Err e => (file, [], Err e)
  | Ok credentials =>
      let remaining := List.filter (fun client => negb (String.eqb (username client) user))
                         credentials in
      if Nat.eqb (length remaining) (length credentials) then
        (file, [], Err (ValueError ("User '" ++ user ++ "' not found")))
      else
        let file' := Some (save_credentials remaining) in
        let (effs, result) := Service.reload_credentials env (reload_endpoint config) in
        (file', effs, change_result config result)
  end.

End UserManagement.

(* ------------------------------------------------------------------ *)
(** ** cli_config.py *)

Module CliConfig.

(** [s] between double quotes, as the f-strings write [\"{...}\"]. *)
Definition dquote (s : string) : string := String Py.dq (s ++ String Py.dq EmptyString).

(** [repr(v)] for the values [tomllib] produces (strings shown in single
    quotes). *)
Fixpoint py_repr (v : tval) : string :=
  match v with
  | TStr s => String Py.sq (s ++ String Py.sq EmptyString)
  | TInt z => Py.str_int z
  | TBool b => if b then "True" else "False"
  | TArr l => "[" ++ Py.join ", " (map py_repr l) ++ "]"
  | TTable kvs =>
      "{" ++ Py.join ", "
        (map (fun kv => String Py.sq (fst kv ++ String Py.sq EmptyString) ++ ": " ++ py_repr (snd kv)) kvs)
      ++ "}"
  end.

(** [str(v)] *)
Definition py_str (v : tval) : string :=
  match v with
  | TStr s => s
  | _ => py_repr v
  end.

(** [str(bool(v)).lower()] *)
Definition bool_lower (v : tval) : string := if truthy v then "true" else "false".

Definition _escape (value : string) : string :=
  Py.replace_char Py.dq (String Py.bs (String Py.dq EmptyString))
    (Py.replace_char Py.bs (String Py.bs (String Py.bs EmptyString)) value).

(** The first of [keys] present in a table. *)
Fixpoint first_key (keys : list string) (t : list (string * tval)) : option tval :=
  match keys with
  | [] => None
  | k :: ks => match assoc k t with Some v => Some v | None => first_key ks t end
  end.

Fixpoint in_sections (sections keys : list string) (data : list (string * tval))
  : option tval :=
  match sections with
  | [] => None
  | sk :: rest =>
      match assoc sk data with
      | Some (TTable section) =>
          match first_key keys section with
          | Some v => Some v
          | None => in_sections rest keys data
          end
      | _ => in_sections rest keys data
      end
  end.

(** [_get_value(data, keys)]; [None] is Python's [None] ([required] changes
    nothing). *)
Definition _get_value (data : list (string * tval)) (keys : list string) : option tval :=
  match first_key keys data with
  | Some v => Some v
  | None => in_sections ["endpoint"; "client"; "connection"] keys data
  end.

(** [value in (None, "", [])] *)
Definition is_missing (v : option tval) : bool :=
  match v with
  | None => true
  | Some (TStr EmptyString) => true
  | Some (TArr []) => true
  | _ => false
  end.

Fixpoint insert_sorted (x : string) (xs : list string) : list string :=
  match xs with
  | [] => [x]
  | y :: ys => if String.leb x y then x :: xs else y :: insert_sorted x ys
  end.

(** [sorted(xs)] on strings (code point order). *)
Fixpoint sorted (xs : list string) : list string :=
  match xs with
  | [] => []
  | x :: rest => insert_sorted x (sorted rest)
  end.

(** [_format_list(values)] *)
Definition _format_list (values : tval) : string :=
  let vs := match values with TArr l => l | v => [v] end in
  "[" ++ Py.join ", " (map (fun v => dquote (_escape (py_str v))) vs) ++ "]".

Fixpoint lstrip_nl (s : string) : string :=
  match s with
  | String c rest => if Ascii.eqb c Py.nl then lstrip_nl rest else s
  | EmptyString => EmptyString
  end.

Fixpoint rstrip_nl (s : string) : string :=
  match s with
  | EmptyString => EmptyString
  | String c rest =>
      match rstrip_nl rest with
      | EmptyString => if Ascii.eqb c Py.nl then EmptyString else String c EmptyString
      | r => String c r
      end
  end.

(** [_format_multiline_string(value)]: [value.strip("\n")] between lines of
    three double quotes. *)
Definition _format_multiline_string (value : string) : string :=
  let tq := String Py.dq (String Py.dq (String Py.dq EmptyString)) in
  let cleaned := lstrip_nl (rstrip_nl value) in
  tq ++ String Py.nl (cleaned ++ String Py.nl tq).

(** [dns_upstreams] as the Python list of strings; [None] and [[]] are both
    falsy and are both written [[]] here. *)
Definition dns_list (dns : list string) : tval := TArr (map TStr dns).

(** [lines] of [_build_client_config_from_endpoint], once validation passed. *)
Definition config_lines (dns : list string)
  (hostname addresses username password protocol : tval)
  (fallback_protocol has_ipv6 anti_dpi certificate : option tval) : list string :=
  ["vpn_mode = " ++ dquote "general"; "killswitch_enabled = true"] ++
  (match dns with [] => [] | _ => ["dns_upstreams = " ++ _format_list (dns_list dns)] end) ++
  ["[endpoint]";
   "hostname = " ++ dquote (_escape (py_str hostname));
   "addresses = " ++ _format_list addresses] ++
  (match has_ipv6 with Some v => ["has_ipv6 = " ++ bool_lower v] | None => [] end) ++
  ["username = " ++ dquote (_escape (py_str username));
   "password = " ++ dquote (_escape (py_str password));
   "upstream_protocol = " ++ dquote (_escape (py_str protocol))] ++
  (match fallback_protocol with
   | Some v => if is_missing (Some v) then []
               else ["upstream_fallback_protocol = " ++ dquote (_escape (py_str v))]
   | None => []
   end) ++
  (match anti_dpi with Some v => ["anti_dpi = " ++ bool_lower v] | None => [] end) ++
  (match certificate with
   | Some v => if truthy v then ["certificate = " ++ _format_multiline_string (py_str v)]
               else ["skip_verification = true"]
   | None => ["skip_verification = true"]
   end) ++
  ["[listener]"; "[listener.tun]"; "bound_if = " ++ dquote EmptyString;
   "included_routes = [" ++ Py.join ", " (map dquote ["0.0.0.0/0"; "2000::/3"; "10.3.2.1/32"]) ++ "]";
   "excluded_routes = [" ++ Py.join ", " (map dquote
      ["0.0.0.0/8"; "169.254.0.0/16"; "172.16.0.0/12"; "192.168.0.0/16"; "224.0.0.0/3"]) ++ "]";
   "mtu_size = 1500"; "change_system_dns = true"].

(** ["\n".join(lines).rstrip() + "\n"] *)
Definition finish (lines : list string) : string :=
  Py.rstrip (Py.join (String Py.nl EmptyString) lines) ++ String Py.nl EmptyString.

Definition missing_prefix : string := "Endpoint config is missing required fields: ".

(** The required fields in the order of the dict literal, with their values. *)
Definition required (data : list (string * tval)) : list (string * option tval) :=
  [("hostname", _get_value data ["hostname"]);
   ("addresses", _get_value data ["addresses"]);
   ("username", _get_value data ["username"]);
   ("password", _get_value data ["password"]);
   ("protocol", _get_value data ["upstream_protocol"; "protocol"])].

Definition missing (data : list (string * tval)) : list string :=
  map fst (List.filter (fun nv => is_missing (snd nv)) (required data)).

(** [_build_client_config_from_endpoint]: [data] is [tomllib.loads] of the
    endpoint file; the result is [(content, skip_verification)]. *)
Definition _build_client_config_from_endpoint (data : list (string * tval))
  (dns_upstreams : list string) : res (string * bool) :=
  let hostname := _get_value data ["hostname"] in
  let addresses := _get_value data ["addresses"] in
  let username := _get_value data ["username"] in
  let password := _get_value data ["password"] in
  let protocol := _get_value data ["upstream_protocol"; "protocol"] in
  let fallback_protocol := _get_value data ["upstream_fallback_protocol"] in
  let has_ipv6 := _get_value data ["has_ipv6"] in
  let anti_dpi := _get_value data ["anti_dpi"] in
  let certificate := _get_value data ["certificate"] in
  match missing data with
  | _ :: _ => Err (ValueError (missing_prefix ++ Py.join ", " (sorted (missing data))))
  | [] =>
      match hostname, addresses, username, password, protocol with
      | Some h, Some a, Some u, Some p, Some pr =>
          let skip_verification :=
            match certificate with Some v => negb (truthy v) | None => true end in
          Ok (finish (config_lines dns_upstreams h a u p pr
                        fallback_protocol has_ipv6 anti_dpi certificate),
              skip_verification)
      | _, _, _, _, _ => Err TypeError (* unreachable: none of them is missing *)
      end
  end.

(** The loop of [_merge_dns_upstreams]: the first line whose stripped text
    starts with [dns_upstreams] is replaced. *)
Fixpoint replace_first (rendered : string) (lines : list string) : option (list string) :=
  match lines with
  | [] => None
  | l :: rest =>
      if Py.startswith (Py.strip l) "dns_upstreams" then Some (rendered :: rest)
      else option_map (cons l) (replace_first rendered rest)
  end.

Definition rendered_dns (dns_upstreams : list string) : string :=
  "dns_upstreams = " ++ _format_list (dns_list dns_upstreams).

Definition merged_lines (content : string) (dns_upstreams : list string) : list string :=
  let lines := Py.splitlines content in
  match replace_first (rendered_dns dns_upstreams) lines with
  | Some lines' => lines'
  | None => (lines ++ [rendered_dns dns_upstreams])%list
  end.

Definition _merge_dns_upstreams (content : string) (dns_upstreams : list string) : string :=
  finish (merged_lines content dns_upstreams).

Record ClientConfigResult := {
  content : string;
  used_setup_wizard : bool;
  skip_verification : bool
}.

(** [generate_client_config]: [wizard] is the text the setup wizard wrote when
    it exited with status 0 and left the output file, [None] otherwise. *)
Definition generate_client_config (wizard : option string) (data : list (string * tval))
  (prefer_setup_wizard : bool) (dns_upstreams : list string) : res ClientConfigResult :=
  let manual :=
    match _build_client_config_from_endpoint data dns_upstreams with
    | Ok (c, skip) => Ok {| content := c; used_setup_wizard := false; skip_verification := skip |}
    | Err e => Err e
    end in
  if prefer_setup_wizard then
    match wizard with
    | Some c =>
        match dns_upstreams with
        | [] => Ok {| content := c; used_setup_wizard := true; skip_verification := false |}
        | _ => Ok {| content := _merge_dns_upstreams c dns_upstreams;
                     used_setup_wizard := true; skip_verification := false |}
        end
    | None => manual
    end
  else manual.

(** Lines whose stripped text starts with [dns_upstreams]. *)
Definition dns_lines (lines : list string) : list string :=
  List.filter (fun l => Py.startswith (Py.strip l) "dns_upstreams") lines.

End CliConfig.

(* ------------------------------------------------------------------ *)
(** ** endpoint.py: the connection profile *)

Module Endpoint.

Record ConnectionProfile := {
  server_name : string;
  address : string;
  hostname : string;
  username : string;
  password : string;
  protocol : string;
  dns : string;
  self_signed : bool
}.

(** endpoint.py repeats cli_config.py's [_get_value], its required-field
    dict and its missing-field test word for word. *)
Definition _get_value := CliConfig._get_value.

(** [s.lower()] on ASCII letters. *)
Definition lower_char (c : ascii) : ascii :=
  let n := nat_of_ascii c in
  if (65 <=? n)%nat && (n <=? 90)%nat then ascii_of_nat (n + 32) else c.

Fixpoint lower (s : string) : string :=
  match s with
  | EmptyString => EmptyString
  | String c rest => String (lower_char c) (lower rest)
  end.

Definition _pick_address (addresses : tval) : string :=
  match addresses with
  | TArr (a :: _) => CliConfig.py_str a
  | TArr [] => EmptyString
  | v => CliConfig.py_str v
  end.

Definition _format_dns (dns : option tval) : string :=
  if CliConfig.is_missing dns then "default (system)"
  else match dns with
       | Some (TArr l) => Py.join ", " (map CliConfig.py_str l)
       | Some v => CliConfig.py_str v
       | None => "default (system)"
       end.

Definition self_signed_keys : list string :=
  ["self_signed"; "selfSigned"; "certificate_is_self_signed"].

Definition _is_self_signed (data : list (string * tval)) : bool :=
  match CliConfig.first_key self_signed_keys data with
  | Some v => truthy v
  | None =>
      match CliConfig.in_sections ["endpoint"; "client"; "connection"] self_signed_keys data with
      | Some v => truthy v
      | None => false
      end
  end.

(** [build_connection_profile]: [data] is [tomllib.loads] of the endpoint
    file; [server_name] is the optional argument ([None] or a string). *)
Definition build_connection_profile (data : list (string * tval))
  (server_name : option string) : res ConnectionProfile :=
  let hostname := _get_value data ["hostname"] in
  let addresses := _get_value data ["addresses"] in
  let username := _get_value data ["username"] in
  let password := _get_value data ["password"] in
  let protocol := _get_value data ["upstream_protocol"; "protocol"] in
  let dns := _get_value data ["dns_upstreams"; "dns"] in
  match CliConfig.missing data with
  | _ :: _ =>
      Err (ValueError (CliConfig.missing_prefix ++
                       Py.join ", " (CliConfig.sorted (CliConfig.missing data))))
  | [] =>
      match hostname, addresses, username, password, protocol with
      | Some h, Some a, Some u, Some p, Some pr =>
          let resolved_server_name :=
            match server_name with
            | Some sn => if String.eqb sn EmptyString then CliConfig.py_str h ++ "-server" else sn
            | None => CliConfig.py_str h ++ "-server"
            end in
          Ok {| server_name := resolved_server_name;
                address := _pick_address a;
                hostname := CliConfig.py_str h;
                username := CliConfig.py_str u;
                password := CliConfig.py_str p;
                protocol := lower (CliConfig.py_str pr);
                dns := _format_dns dns;
                self_signed := _is_self_signed data |}
      | _, _, _, _, _ => Err TypeError (* unreachable: none of them is missing *)
      end
  end.

End Endpoint.

(* ------------------------------------------------------------------ *)
(** ** bot.py: pagination of the username lists *)

Module Pagination.

Definition USER_LIST_PAGE_SIZE : Z := 10.

(** Python's [xs[start:stop]] (step 1), negative indices counted from the end. *)
Definition py_slice {A} (xs : list A) (start stop : Z) : list A :=
  let n := Z.of_nat (length xs) in
  let norm i := if (i <? 0)%Z then Z.max 0 (i + n) else Z.min i n in
  let s := norm start in
  let e := norm stop in
  firstn (Z.to_nat (e - s)) (skipn (Z.to_nat s) xs).

(** The body of [_paginate_usernames] after [usernames = list_users(config)]:
    the page's usernames, the effective page and the number of pages. *)
Definition paginate (usernames : list string) (page : Z) : list string * Z * Z :=
  let total := Z.of_nat (length usernames) in
  if (total =? 0)%Z then ([], 0%Z, 0%Z)
  else
    let total_pages := ((total + USER_LIST_PAGE_SIZE - 1) / USER_LIST_PAGE_SIZE)%Z in
    let page := Z.max 1 (Z.min page total_pages) in
    let start := ((page - 1) * USER_LIST_PAGE_SIZE)%Z in
    let stop := (start + USER_LIST_PAGE_SIZE)%Z in
    (py_slice usernames start stop, page, total_pages).

Definition _paginate_usernames (file : option string) (page : Z)
  : res (list string * Z * Z) :=
  match UserManagement.list_users file with
  | Ok usernames => Ok (paginate usernames page)
  | Err e => Err e
  end.

(** The usernames of pages 1 .. total_pages, one after the other. *)
Definition all_pages (usernames : list string) : list string :=
  let '(_, _, total_pages) := paginate usernames 1 in
  flat_map (fun k => fst (fst (paginate usernames (Z.of_nat k))))
    (seq 1 (Z.to_nat total_pages)).

End Pagination.

(* ------------------------------------------------------------------ *)
(** ** bot.py: the callback handler *)

Module Bot.

Record ChatState := { mode : option string; pending_username : option string }.

Definition default_state : ChatState := {| mode := None; pending_username := None |}.

(** [StateStore._states]: chat id to its session. *)
Definition Store := gmap Z ChatState.

(** [get_state]: [self._states.setdefault(chat_id, ChatState())]. *)
Definition get_state (chat_id : Z) (st : Store) : ChatState * Store :=
  match st !! chat_id with
  | Some s => (s, st)
  | None => (default_state, <[chat_id := default_state]> st)
  end.

(** [clear_state]: [self._states.pop(chat_id, None)]. *)
Definition clear_state (chat_id : Z) (st : Store) : Store := delete chat_id st.

(** The fixed texts the handler sends. *)
Inductive msg :=
| MsgInsufficientRights                 (* "Недостаточно прав." *)
| MsgBadUser                            (* "Некорректный пользователь." *)
| MsgDeleted (username : string)        (* "Пользователь {username} удалён." *)
| MsgError (e : exc)                    (* str(exc) *)
| MsgAddUserPrompt                      (* "Отправьте @username ..." *)
| MsgPreparing                          (* "Подготовка конфигурации..." *)
| MsgPreparingFor (username : string)   (* "Готовлю конфиг для {username}..." *)
| MsgRules (summary : string).

(** What the handler does, in order. *)
Inductive event :=
| Answer (m : option msg)               (* callback.answer(...) *)
| ShowMenu (is_admin : bool)            (* show_menu(...) *)
| Upsert (m : msg) (is_admin : bool)    (* _upsert_message(..., _menu_keyboard(is_admin)) *)
| DeleteUserMenu (page : Z)             (* _show_delete_user_menu(..., page=page) *)
| AdminConfigMenu (page : Z)            (* _show_admin_config_menu(..., page=page) *)
| SendConfigs (username : option string)(* _send_configs(..., username) *)
| DeleteUser (username : string).       (* delete_user(config, username=username) *)

(** What the handler gets from outside: the exception [delete_user] raises,
    if any; Python's [int(...)] ([None] when it raises ValueError); what
    [_load_rules_summary(config)] returns or raises; the exception that
    escapes [_send_configs(..., username)], if any ([_send_configs] itself
    answers RuntimeError and ValueError). *)
Record Env := {
  delete_user_outcome : string -> option exc;
  parse_int : string -> option Z;
  rules_summary : res string;
  send_configs_outcome : option string -> option exc
}.

Definition _is_admin (config : BotConfig) (user_id : Z) : bool :=
  match admin_ids config with
  | None | Some [] => false
  | Some ids => existsb (Z.eqb user_id) ids
  end.

Definition _parse_page (env : Env) (action : string) : Z :=
  let page_str := if Py.contains_char ":"%char action then Py.after_colon action else EmptyString in
  match parse_int env page_str with Some n => n | None => 1%Z end.

(** [action and action.startswith(p)] *)
Definition starts (action : option string) (p : string) : bool :=
  match action with Some a => String.prefix p a | None => false end.

(** [action == s] *)
Definition is_action (action : option string) (s : string) : bool :=
  match action with Some a => String.eqb a s | None => false end.

(** [handle_callback]: the events, the sessions afterwards, and the
    exception that escapes, if any. *)
Definition handle_callback (env : Env) (config : BotConfig) (user_id : Z)
  (from_username : option string) (chat_id : Z) (action : option string) (st : Store)
  : list event * Store * option exc :=
  let is_admin := _is_admin config user_id in
  let '(state, st) := get_state chat_id st in
  let denied := ([Answer (Some MsgInsufficientRights); ShowMenu is_admin], st, None) in
  if existsb (is_action action) ["add_user"; "delete_user"; "admin_config"; "show_rules"]
     && negb is_admin then denied
  else if starts action "delete_user:" && negb is_admin then denied
  else if is_action action "add_user" then
    ([Upsert MsgAddUserPrompt is_admin; Answer None],
     <[chat_id := {| mode := Some "add_user"; pending_username := None |}]> st, None)
  else if is_action action "delete_user" then
    ([DeleteUserMenu 1; Answer None],
     <[chat_id := {| mode := None; pending_username := pending_username state |}]> st, None)
  else if is_action action "admin_config" then
    ([AdminConfigMenu 1; Answer None],
     <[chat_id := {| mode := None; pending_username := pending_username state |}]> st, None)
  else if is_action action "show_rules" then
    match rules_summary env with
    | Ok summary =>
        ([Upsert (MsgRules summary) is_admin; Answer None], clear_state chat_id st, None)
    | Err e => ([], st, Some e)
    end
  else if is_action action "my_config" then
    match send_configs_outcome env from_username with
    | None =>
        ([Upsert MsgPreparing is_admin; SendConfigs from_username; ShowMenu is_admin; Answer None],
         clear_state chat_id st, None)
    | Some e =>
        ([Upsert MsgPreparing is_admin; SendConfigs from_username],
         <[chat_id := {| mode := Some "my_config"; pending_username := pending_username state |}]> st,
         Some e)
    end
  else if starts action "delete_user:" then
    let username := match action with Some a => Py.after_colon a | None => EmptyString end in
    if String.eqb username EmptyString then
      ([Answer (Some MsgBadUser); ShowMenu is_admin], clear_state chat_id st, None)
    else
      match delete_user_outcome env username with
      | Some e =>
          if is_value_error e then
            ([DeleteUser username; Answer (Some (MsgError e)); ShowMenu is_admin],
             clear_state chat_id st, None)
          else ([DeleteUser username], st, Some e)
      | None =>
          ([DeleteUser username; Answer (Some (MsgDeleted username)); ShowMenu is_admin],
           clear_state chat_id st, None)
      end
  else if is_action action "back_to_menu" then
    ([ShowMenu is_admin], clear_state chat_id st, None)
  else if starts action "delete_user_page:" then
    let a := match action with Some a => a | None => EmptyString end in
    ([DeleteUserMenu (_parse_page env a)], st, None)
  else if starts action "admin_config_page:" then
    let a := match action with Some a => a | None => EmptyString end in
    ([AdminConfigMenu (_parse_page env a)], st, None)
  else if starts action "admin_config_select:" then
    let username := match action with Some a => Py.after_colon a | None => EmptyString end in
    if String.eqb username EmptyString then
      ([Answer (Some MsgBadUser); ShowMenu is_admin], clear_state chat_id st, None)
    else
      match send_configs_outcome env (Some username) with
      | None =>
          ([Upsert (MsgPreparingFor username) is_admin; SendConfigs (Some username);
            ShowMenu is_admin], clear_state chat_id st, None)
      | Some e => ([Upsert (MsgPreparingFor username) is_admin; SendConfigs (Some username)], st, Some e)
      end
  else ([Answer None], st, None).

(** [handle_start]: [clear_state(chat_id)], then [show_menu]. *)
Definition handle_start (config : BotConfig) (user_id : Z) (chat_id : Z) (st : Store)
  : list event * Store :=
  ([ShowMenu (_is_admin config user_id)], clear_state chat_id st).

(** The callback data of the buttons of [_menu_keyboard(is_admin)], row by
    row (the button texts are left out). *)
Definition _menu_keyboard (is_admin : bool) : list (list string) :=
  ((if is_admin then [["add_user"]; ["delete_user"]; ["admin_config"]; ["show_rules"]] else [])
   ++ [["my_config"]])%list.

(** The callback data of the buttons of [_build_paginated_user_keyboard],
    row by row. *)
Definition _build_paginated_user_keyboard (usernames : list string)
  (action_prefix page_prefix : string) (page total_pages : Z) : list (list string) :=
  let buttons := map (fun username => [action_prefix ++ ":" ++ username]) usernames in
  let navigation :=
    if (total_pages >? 1)%Z then
      ((if (page >? 1)%Z then [(page_prefix ++ ":" ++ Py.str_int (page - 1))%string] else []) ++
       (if (page <? total_pages)%Z then [(page_prefix ++ ":" ++ Py.str_int (page + 1))%string]
        else []))%list
    else [] in
  (buttons ++ (match navigation with [] => [] | _ => [navigation] end) ++ [["back_to_menu"]])%list.

(** The sender of a forwarded message: its id and username. *)
Record ForwardUser := { forward_id : Z; forward_username : option string }.

(** The fields of a [Message] the text handlers read. *)
Record Message := { text : option string; forward_from : option ForwardUser }.

(** [_normalize_username(text)] *)
Definition _normalize_username (text : string) : option string :=
  let cleaned := Py.strip text in
  let cleaned := if Py.startswith cleaned "@"
                 then match cleaned with String _ rest => rest | EmptyString => EmptyString end
                 else cleaned in
  if String.eqb cleaned EmptyString then None
  else if Py.contains_char " "%char cleaned then None
  else Some cleaned.

(** [message.text or ""] *)
Definition text_or_empty (message : Message) : string :=
  match text message with Some t => t | None => EmptyString end.

(** [_extract_username(message)] *)
Definition _extract_username (message : Message) : option string :=
  match forward_from message with
  | Some f =>
      match forward_username f with
      | Some u => if negb (String.eqb u EmptyString) then Some u
                  else Some ("user_" ++ Py.str_int (forward_id f))
      | None => Some ("user_" ++ Py.str_int (forward_id f))
      end
  | None => _normalize_username (text_or_empty message)
  end.

(** The texts the text handlers answer with. *)
Inductive text_msg :=
| TMsgNoUsername                        (* "Не удалось определить username. ..." *)
| TMsgError (e : exc)                   (* str(exc) *)
| TMsgCreated (username password : string)
                                        (* "Пользователь создан. username=... пароль=..." *)
| TMsgEnterUsername.                    (* "Введите username (без @)." *)

(** What the text handlers do, in order. *)
Inductive text_event :=
| TShowMenu (is_admin : bool)                 (* show_menu(...) *)
| TAnswer (m : text_msg)                      (* message.answer(...) *)
| TAddUser (username password : string)       (* add_user(config, username=..., password=...) *)
| TSendConfigs (username : string).           (* _send_configs(..., username) *)

(** What the text handlers get from outside: the exception [add_user]
    raises, if any; the password [_generate_password] returns; the exception
    that escapes [_send_configs(..., username)], if any. *)
Record TextEnv := {
  add_user_outcome : string -> string -> option exc;
  generated_password : string;
  text_send_configs_outcome : string -> option exc
}.

(** [_handle_add_user(message, config)] *)
Definition _handle_add_user (tenv : TextEnv) (chat_id : Z) (message : Message) (st : Store)
  : list text_event * Store * option exc :=
  match _extract_username message with
  | Some username =>
      if String.eqb username EmptyString then ([TAnswer TMsgNoUsername], st, None)
      else
        let password := generated_password tenv in
        match add_user_outcome tenv username password with
        | Some e =>
            if is_value_error e then ([TAddUser username password; TAnswer (TMsgError e)], st, None)
            else ([TAddUser username password], st, Some e)
        | None =>
            ([TAddUser username password; TAnswer (TMsgCreated username password);
              TShowMenu true], clear_state chat_id st, None)
        end
  | None => ([TAnswer TMsgNoUsername], st, None)
  end.

(** [_handle_admin_config(message, config)] *)
Definition _handle_admin_config (tenv : TextEnv) (chat_id : Z) (message : Message) (st : Store)
  : list text_event * Store * option exc :=
  match _normalize_username (text_or_empty message) with
  | Some username =>
      if String.eqb username EmptyString then ([TAnswer TMsgEnterUsername], st, None)
      else
        match text_send_configs_outcome tenv username with
        | None => ([TSendConfigs username; TShowMenu true], clear_state chat_id st, None)
        | Some e => ([TSendConfigs username], st, Some e)
        end
  | None => ([TAnswer TMsgEnterUsername], st, None)
  end.

(** [handle_text(message, config)] *)
Definition handle_text (tenv : TextEnv) (config : BotConfig) (user_id : Z) (chat_id : Z)
  (message : Message) (st : Store) : list text_event * Store * option exc :=
  let '(state, st) := get_state chat_id st in
  match mode state with
  | Some m =>
      if String.eqb m EmptyString then ([TShowMenu (_is_admin config user_id)], st, None)
      else if String.eqb m "add_user" then _handle_add_user tenv chat_id message st
      else if String.eqb m "admin_config" then _handle_admin_config tenv chat_id message st
      else ([TShowMenu (_is_admin config user_id)], st, None)
  | None => ([TShowMenu (_is_admin config user_id)], st, None)
  end.

(** No session is in the "admin_config" mode. *)
Definition admin_config_free (st : Store) : Prop :=
  map_Forall (fun _ s => mode s <> Some "admin_config") st.

(** [_send_error(bot, chat_id, text)], on [text] as a list of code points:
    the text of the message sent, and the document sent after it, if any. *)
Definition max_len : Z := 3900.

Definition ellipsis : Z := 8230.  (* U+2026 *)

Definition _send_error (text : list Z) : list Z * option (list Z) :=
  let cleaned := List.filter (fun c => negb (Z.eqb c 13)) text in
  let cleaned := if (Z.of_nat (length cleaned) >? max_len)%Z
                 then (firstn (Z.to_nat (max_len - 1)) cleaned ++ [ellipsis])%list
                 else cleaned in
  (cleaned, if (Z.of_nat (length text) >? max_len)%Z then Some text else None).

End Bot.

(* ------------------------------------------------------------------ *)
(** ** rules.py *)

Module Rules.

Record Rule := {
  cidr : option string;
  client_random_prefix : option string;
  action : string
}.

(** rules.py's own [_escape], the same body as credentials.py's. *)
Definition _escape (value : string) : string :=
  Py.replace_char Py.dq (String Py.bs (String Py.dq EmptyString))
    (Py.replace_char Py.bs (String Py.bs (String Py.bs EmptyString)) value).

Definition quoted (v : string) : string :=
  String Py.dq (_escape v ++ String Py.dq EmptyString).

(** [if rule.<key>: lines.append(f"<key> = \"{_escape(...)}\"")] *)
Definition opt_line (key : string) (value : option string) : list string :=
  match value with
  | Some v => if negb (String.eqb v EmptyString) then [key ++ " = " ++ quoted v] else []
  | None => []
  end.

(** The lines the loop body of [save_rules] appends for one rule. *)
Definition rule_lines (rule : Rule) : list string :=
  "[[rule]]" :: (opt_line "cidr" (cidr rule) ++
                 opt_line "client_random_prefix" (client_random_prefix rule) ++
                 [("action = " ++ quoted (action rule))%string; EmptyString])%list.

(** [save_rules(path, rules)]: the text written to [path]. *)
Definition save_rules (rules : list Rule) : string :=
  let lines := flat_map rule_lines rules in
  match lines with
  | [] => EmptyString
  | _ => Py.rstrip (Py.join (String Py.nl EmptyString) lines) ++ String Py.nl EmptyString
  end.

(** [str(v) if v else None] on the result of [rule.get(key)]. *)
Definition str_if (v : option tval) : option string :=
  match v with
  | Some x => if truthy x then Some (CliConfig.py_str x) else None
  | None => None
  end.

(** One entry of [data.get("rule", [])], as the loop body reads it. *)
Definition load_rule (rule : tval) : res Rule :=
  match rule with
  | TTable kvs =>
      let cidr := assoc "cidr" kvs in
      let client_random_prefix := assoc "client_random_prefix" kvs in
      match assoc "action" kvs with
      | Some a =>
          if truthy a then
            Ok {| cidr := str_if cidr; client_random_prefix := str_if client_random_prefix;
                  action := CliConfig.py_str a |}
          else Err (ValueError "Each rule must have an action")
      | None => Err (ValueError "Each rule must have an action")
      end
  | _ => Err AttributeError
  end.

Fixpoint load_rule_list (rules : list tval) : res (list Rule) :=
  match rules with
  | [] => Ok []
  | r :: rest =>
      match load_rule r with
      | Err e => Err e
      | Ok rule =>
          match load_rule_list rest with
          | Err e => Err e
          | Ok parsed => Ok (rule :: parsed)
          end
      end
  end.

(** Iterating over the value of [data.get("rule", [])]. *)
Definition iterate_rules (v : tval) : res (list Rule) :=
  match v with
  | TArr l => load_rule_list l
  | TStr s => if String.eqb s EmptyString then Ok [] else Err AttributeError
  | TTable kvs => match kvs with [] => Ok [] | _ => Err AttributeError end
  | TInt _ | TBool _ => Err TypeError
  end.

(** [load_rules(path)]; [file] is the content of [path], [None] when it
    does not exist. *)
Definition load_rules (file : option string) : res (list Rule) :=
  match file with
  | None => Ok []
  | Some text =>
      match Toml.loads text with
      | None => Err TOMLDecodeError
      | Some (TTable data) =>
          iterate_rules (match assoc "rule" data with Some v => v | None => TArr [] end)
      | Some _ => Err TOMLDecodeError
      end
  end.

(** An optional field that is absent, or free of control characters. *)
Definition opt_plain (v : option string) : bool :=
  match v with Some s => Credentials.no_control s | None => true end.

(** A rule whose fields have no control characters. *)
Definition plain_rule (rule : Rule) : bool :=
  opt_plain (cidr rule) && opt_plain (client_random_prefix rule)
  && Credentials.no_control (action rule).

(** An empty optional field read as absent. *)
Definition norm_opt (v : option string) : option string :=
  match v with
  | Some s => if String.eqb s EmptyString then None else Some s
  | None => None
  end.

Definition normalize (rule : Rule) : Rule :=
  {| cidr := norm_opt (cidr rule);
     client_random_prefix := norm_opt (client_random_prefix rule);
     action := action rule |}.

(** The table of tables [tomllib] gives for one saved rule. *)
Definition opt_kv (key : string) (value : option string) : list (string * tval) :=
  match value with
  | Some v => if negb (String.eqb v EmptyString) then [(key, TStr v)] else []
  | None => []
  end.

Definition rule_table (rule : Rule) : tval :=
  TTable (opt_kv "cidr" (cidr rule) ++ opt_kv "client_random_prefix" (client_random_prefix rule)
          ++ [("action", TStr (action rule))])%list.

End Rules.

(* ------------------------------------------------------------------ *)
(** ** config.py: loading bot.toml *)

Module Config.

Record LoadedConfig := {
  credentials_file : string;
  telegram_token : option string;
  admin_ids : option (list Z);
  reload_endpoint : option tval;
  vpn_config : option string;
  hosts_config : option string;
  endpoint_public_address : option tval;
  dns_upstreams : option (list string);
  rules_file : option string;
  endpoint_command_timeout_s : Z
}.

Section Load.

(** Python's [int(s)] on a string: the number, or [None] when it raises
    ValueError. *)
Variable parse_int : string -> option Z.

(** [int(value)] on the values [tomllib] produces. *)
Definition py_int (value : tval) : res Z :=
  match value with
  | TInt z => Ok z
  | TBool b => Ok (if b then 1%Z else 0%Z)
  | TStr s =>
      match parse_int s with
      | Some z => Ok z
      | None => Err (ValueError ("invalid literal for int() with base 10: " ++ CliConfig.py_repr value))
      end
  | TArr _ | TTable _ => Err TypeError
  end.

Fixpoint py_int_list (values : list tval) : res (list Z) :=
  match values with
  | [] => Ok []
  | v :: rest =>
      match py_int v with
      | Err e => Err e
      | Ok z => match py_int_list rest with Err e => Err e | Ok zs => Ok (z :: zs) end
      end
  end.

(** [values in (None, "")] *)
Definition none_or_empty (values : option tval) : bool :=
  match values with
  | None => true
  | Some (TStr s) => String.eqb s EmptyString
  | Some _ => false
  end.

Definition _ensure_list (values : option tval) : option (list string) :=
  if none_or_empty values then None
  else match values with
       | Some (TArr l) => Some (map CliConfig.py_str l)
       | Some v => Some [CliConfig.py_str v]
       | None => None
       end.

Definition _ensure_int_list (values : option tval) : res (option (list Z)) :=
  if none_or_empty values then Ok None
  else match values with
       | Some (TArr l) => match py_int_list l with Ok zs => Ok (Some zs) | Err e => Err e end
       | Some v => match py_int v with Ok z => Ok (Some [z]) | Err e => Err e end
       | None => Ok None
       end.

(** [Path(value)]: a string, or TypeError for the other values. *)
Definition path (value : tval) : res string :=
  match value with TStr s => Ok s | _ => Err TypeError end.

(** [Path(value) if value else None] *)
Definition opt_path (value : option tval) : res (option string) :=
  match value with
  | Some v => if truthy v then match path v with Ok p => Ok (Some p) | Err e => Err e end
              else Ok None
  | None => Ok None
  end.

(** [load_config(path)]: [data] is [tomllib.loads] of the file. The
    arguments of [BotConfig(...)] are evaluated in their order. *)
Definition load_config (data : list (string * tval)) : res LoadedConfig :=
  let credentials_file := assoc "credentials_file" data in
  match credentials_file with
  | Some cf =>
      if negb (truthy cf) then Err (ValueError "credentials_file is required in bot config")
      else
      let telegram_token := assoc "telegram_token" data in
      match _ensure_int_list (assoc "admin_ids" data) with
      | Err e => Err e
      | Ok admin_ids =>
      let dns_upstreams := _ensure_list (assoc "dns_upstreams" data) in
      let timeout := match assoc "endpoint_command_timeout_s" data with
                     | Some v => v | None => TInt 10 end in
      match path cf with
      | Err e => Err e
      | Ok cfile =>
      match opt_path (assoc "vpn_config" data) with
      | Err e => Err e
      | Ok vpn =>
      match opt_path (assoc "hosts_config" data) with
      | Err e => Err e
      | Ok hosts =>
      match opt_path (assoc "rules_file" data) with
      | Err e => Err e
      | Ok rules =>
      match py_int timeout with
      | Err e => Err e
      | Ok t =>
          Ok {| credentials_file := cfile;
                telegram_token := match telegram_token with
                                  | Some v => if truthy v then Some (CliConfig.py_str v) else None
                                  | None => None
                                  end;
                admin_ids := admin_ids;
                reload_endpoint := assoc "reload_endpoint" data;
                vpn_config := vpn;
                hosts_config := hosts;
                endpoint_public_address := assoc "endpoint_public_address" data;
                dns_upstreams := dns_upstreams;
                rules_file := rules;
                endpoint_command_timeout_s := t |}
      end end end end end end
  | None => Err (ValueError "credentials_file is required in bot config")
  end.

End Load.

(** [_ensure_bot_config(config)]: the message of the RuntimeError it
    raises, if any. *)
Definition _ensure_bot_config (config : LoadedConfig) : option string :=
  if match telegram_token config with Some t => String.eqb t EmptyString | None => true end
  then Some "telegram_token must be set in bot.toml"
  else if match admin_ids config with Some (_ :: _) => false | _ => true end
  then Some "admin_ids must be set in bot.toml"
  else None.

End Config.

(* ------------------------------------------------------------------ *)
(** ** Sample inputs *)

Definition commented_file : string :=
  "# VPN users" ++ String Py.nl ("[[client]]" ++ String Py.nl
  ("username = 'alice'" ++ String Py.nl ("password = 'secret'" ++ String Py.nl EmptyString))).

Definition sample_config : BotConfig :=
  {| credentials_file := "/etc/trusttunnel/credentials.toml"; admin_ids := Some [1%Z];
     reload_endpoint := None; dns_upstreams := None |}.

Definition quiet_env : Service.Env :=
  {| Service.urlopen := fun _ => None; Service.systemctl_run := None |}.

Definition duplicate_file : string :=
  Credentials.save_credentials
    [ {| Credentials.username := "a"; Credentials.password := "x" |};
      {| Credentials.username := "a"; Credentials.password := "y" |};
      {| Credentials.username := "b"; Credentials.password := "z" |} ].

(** An endpoint descriptor with every required field and an empty certificate. *)
Definition empty_cert_endpoint : list (string * tval) :=
  [("hostname", TStr "vpn.example.org"); ("addresses", TArr [TStr "203.0.113.7:443"]);
   ("username", TStr "alice"); ("password", TStr "secret");
   ("protocol", TStr "http2"); ("certificate", TStr EmptyString)].

(** Setup-wizard output with a top-level and an [[endpoint]] dns_upstreams line. *)
Definition two_dns_wizard_output : string :=
  "dns_upstreams = [" ++ CliConfig.dquote "1.1.1.1" ++ "]" ++ String Py.nl
  ("[endpoint]" ++ String Py.nl
  ("dns_upstreams = [" ++ CliConfig.dquote "8.8.8.8" ++ "]" ++ String Py.nl EmptyString)).

(** A descriptor whose top-level [self_signed] is false while its
    [[endpoint]] section says true. *)
Definition conflicting_self_signed_endpoint : list (string * tval) :=
  [("hostname", TStr "vpn.example.org"); ("addresses", TArr [TStr "203.0.113.7:443"]);
   ("username", TStr "alice"); ("password", TStr "secret"); ("protocol", TStr "http2");
   ("self_signed", TBool false);
   ("endpoint", TTable [("self_signed", TBool true)])].

(** A callback environment where nothing fails and no page number parses. *)
Definition sample_bot_env : Bot.Env :=
  {| Bot.delete_user_outcome := fun _ => None; Bot.parse_int := fun _ => None;
     Bot.rules_summary := Ok EmptyString;
     Bot.send_configs_outcome := fun _ => None |}.

(* ================================================================== *)
(** * Proofs *)

(** ** Lemmas on the string builtins *)

Lemma str_app_assoc (a b c : string) : (a ++ b) ++ c = a ++ (b ++ c).
Proof. induction a as [|x a IH]; simpl; [reflexivity | now rewrite IH]. Qed.

Lemma str_app_nil_r (a : string) : a ++ EmptyString = a.
Proof. induction a as [|x a IH]; simpl; [reflexivity | now rewrite IH]. Qed.

(** Normalise string concatenations: right-associated, literals unfolded. *)
Ltac str_norm := repeat (rewrite ?str_app_assoc, ?str_app_nil_r; cbn [String.append]).

Lemma replace_char_app c n a b :
  Py.replace_char c n (a ++ b) = Py.replace_char c n a ++ Py.replace_char c n b.
Proof.
  induction a as [|x a IH]; simpl; [reflexivity|].
  destruct (Ascii.eqb c x); rewrite IH; [now rewrite str_app_assoc | reflexivity].
Qed.

Lemma split_char_cons c s : exists h t, Py.split_char c s = h :: t.
Proof.
  induction s as [|d s IH]; simpl; [eauto|].
  destruct IH as (h & t & ->). destruct (Ascii.eqb c d); eauto.
Qed.

Lemma split_char_app c x y :
  Py.contains_char c x = false ->
  Py.split_char c (x ++ String c y) = x :: Py.split_char c y.
Proof.
  induction x as [|d x IH]; simpl; intros H.
  - rewrite Ascii.eqb_refl. destruct (split_char_cons c y) as (h & t & ->). reflexivity.
  - apply orb_false_iff in H as [H1 H2]. rewrite (IH H2), H1. reflexivity.
Qed.

(** An ASCII character that is not whitespace. *)
Definition ascii_nonspace (c : ascii) : bool :=
  negb (Py.is_space c) && (nat_of_ascii c <? 128)%nat.

Lemma is_space2_hi c d :
  Py.is_space2 c d = true -> (128 <= nat_of_ascii c)%nat /\ (128 <= nat_of_ascii d)%nat.
Proof.
  unfold Py.is_space2. cbv zeta. intros H.
  repeat rewrite ?orb_true_iff, ?andb_true_iff, ?Nat.eqb_eq, ?Nat.leb_le in H. lia.
Qed.

Lemma is_space3_hi c d e :
  Py.is_space3 c d e = true ->
  (128 <= nat_of_ascii c)%nat /\ (128 <= nat_of_ascii d)%nat /\ (128 <= nat_of_ascii e)%nat.
Proof.
  unfold Py.is_space3. cbv zeta. intros H.
  repeat rewrite ?orb_true_iff, ?andb_true_iff, ?Nat.eqb_eq, ?Nat.leb_le in H. lia.
Qed.

Lemma is_space2_ascii_l c d : (nat_of_ascii c < 128)%nat -> Py.is_space2 c d = false.
Proof.
  intros H. destruct (Py.is_space2 c d) eqn:E; [|reflexivity].
  apply is_space2_hi in E. lia.
Qed.

Lemma is_space2_ascii_r c d : (nat_of_ascii d < 128)%nat -> Py.is_space2 c d = false.
Proof.
  intros H. destruct (Py.is_space2 c d) eqn:E; [|reflexivity].
  apply is_space2_hi in E. lia.
Qed.

Lemma is_space3_ascii c d e :
  ((nat_of_ascii c < 128) \/ (nat_of_ascii d < 128) \/ (nat_of_ascii e < 128))%nat ->
  Py.is_space3 c d e = false.
Proof.
  intros H. destruct (Py.is_space3 c d e) eqn:E; [|reflexivity].
  apply is_space3_hi in E. lia.
Qed.

Lemma rstrip_all_space t :
  forallb Py.is_space (list_ascii_of_string t) = true -> Py.rstrip t = EmptyString.
Proof.
  induction t as [|a t IH]; intros H; [reflexivity|].
  cbn [list_ascii_of_string forallb] in H. apply andb_true_iff in H as [Ha H].
  cbn [Py.rstrip]. rewrite Ha, IH by exact H. reflexivity.
Qed.

(** [rstrip] keeps everything up to a last ASCII non-space character and
    drops the ASCII whitespace after it. *)
Lemma rstrip_end (c : ascii) (t : string) :
  ascii_nonspace c = true -> forallb Py.is_space (list_ascii_of_string t) = true ->
  forall s, Py.rstrip (s ++ String c t) = s ++ String c EmptyString.
Proof.
  intros Hc Ht. unfold ascii_nonspace in Hc. apply andb_true_iff in Hc as [Hc1 Hc2].
  apply negb_true_iff in Hc1. apply Nat.ltb_lt in Hc2.
  pose proof (rstrip_all_space t Ht) as Hrt.
  assert (H0 : Py.rstrip (String c t) = String c EmptyString).
  { cbn [Py.rstrip]. rewrite Hc1. destruct t as [|d t2]; [reflexivity|].
    rewrite is_space2_ascii_l by exact Hc2. destruct t2 as [|e t3]; [rewrite Hrt; reflexivity|].
    rewrite is_space3_ascii by (left; exact Hc2). rewrite Hrt. reflexivity. }
  intros s. remember (String.length s) as n eqn:Hn. revert s Hn.
  induction n as [n IH] using lt_wf_ind. intros s Hn.
  assert (IH' : forall s0, (String.length s0 < n)%nat ->
                Py.rstrip (s0 ++ String c t) = s0 ++ String c EmptyString)
    by (intros s0 Hs0; exact (IH _ Hs0 s0 eq_refl)).
  clear IH. subst n.
  destruct s as [|a s']; [exact H0|].
  cbn [String.append String.length] in *.
  assert (Hs' := IH' s' ltac:(lia)).
  cbn [Py.rstrip]. destruct (Py.is_space a) eqn:Ea.
  { rewrite Hs'. destruct s'; reflexivity. }
  destruct s' as [|d s''].
  { cbn [String.append] in *. rewrite is_space2_ascii_r by exact Hc2.
    destruct t as [|e t3]; [rewrite H0; reflexivity|].
    rewrite is_space3_ascii by (right; left; exact Hc2). rewrite H0. reflexivity. }
  cbn [String.append String.length] in *.
  destruct (Py.is_space2 a d) eqn:E2.
  { rewrite (IH' s'' ltac:(lia)). destruct s''; reflexivity. }
  destruct s'' as [|e s3].
  { cbn [String.append] in *. rewrite is_space3_ascii by (right; right; exact Hc2).
    rewrite Hs'. reflexivity. }
  cbn [String.append String.length] in *.
  destruct (Py.is_space3 a d e) eqn:E3.
  { rewrite (IH' s3 ltac:(lia)). destruct s3; reflexivity. }
  rewrite Hs'. reflexivity.
Qed.

Lemma escape_cons c v :
  Credentials._escape (String c v) = Credentials.escape1 c ++ Credentials._escape v.
Proof.
  unfold Credentials._escape.
  change (String c v) with (String c EmptyString ++ v).
  rewrite !replace_char_app. f_equal.
  unfold Credentials.escape1.
  destruct (Ascii.eqb Py.bs c) eqn:E1.
  - apply Ascii.eqb_eq in E1. subst c. reflexivity.
  - cbn [Py.replace_char]. rewrite E1. cbn [Py.replace_char String.append].
    destruct (Ascii.eqb Py.dq c); reflexivity.
Qed.

Lemma no_control_cons c v :
  Credentials.no_control (String c v) = true ->
  (32 <= nat_of_ascii c)%nat /\ nat_of_ascii c <> 127%nat /\ Credentials.no_control v = true.
Proof.
  unfold Credentials.no_control. cbn [list_ascii_of_string forallb]. intros H.
  apply andb_true_iff in H as [H1 H2]. apply andb_true_iff in H1 as [H1 H3].
  apply Nat.leb_le in H1. apply negb_true_iff, Nat.eqb_neq in H3. auto.
Qed.

Lemma toml_not_control c :
  (32 <= nat_of_ascii c)%nat -> nat_of_ascii c <> 127%nat -> Toml.is_control c = false.
Proof.
  intros H1 H2. unfold Toml.is_control.
  destruct (nat_of_ascii c <=? 8)%nat eqn:E1; [apply Nat.leb_le in E1; lia|].
  destruct (nat_of_ascii c <=? 31)%nat eqn:E2; [apply Nat.leb_le in E2; lia|].
  destruct (nat_of_ascii c =? 127)%nat eqn:E3; [apply Nat.eqb_eq in E3; lia|].
  rewrite andb_false_r. reflexivity.
Qed.

Lemma ascii_eqb_code a b : nat_of_ascii a <> nat_of_ascii b -> Ascii.eqb a b = false.
Proof.
  intros H. apply Ascii.eqb_neq. intros ->. auto.
Qed.

Lemma basic_body_escape v rest :
  Credentials.no_control v = true ->
  Toml.basic_body (Credentials._escape v ++ String Py.dq rest) = Some (v, rest).
Proof.
  induction v as [|c v IH]; intros H.
  - reflexivity.
  - apply no_control_cons in H as (H1 & H2 & H3).
    rewrite escape_cons, str_app_assoc. unfold Credentials.escape1.
    destruct (Ascii.eqb Py.bs c) eqn:E1; [apply Ascii.eqb_eq in E1; subst c|].
    { simpl. rewrite IH by exact H3. reflexivity. }
    destruct (Ascii.eqb Py.dq c) eqn:E2; [apply Ascii.eqb_eq in E2; subst c|].
    { simpl. rewrite IH by exact H3. reflexivity. }
    cbn [String.append Toml.basic_body].
    rewrite (Ascii.eqb_sym c Py.dq), E2, (Ascii.eqb_sym c Py.bs), E1,
      toml_not_control by assumption.
    cbn [andb]. rewrite IH by exact H3. reflexivity.
Qed.

Lemma contains_char_app c a b :
  Py.contains_char c (a ++ b) = Py.contains_char c a || Py.contains_char c b.
Proof.
  induction a as [|d a IH]; simpl; [reflexivity|]. rewrite IH. apply orb_assoc.
Qed.

Lemma escape_no_newline v :
  Credentials.no_control v = true -> Py.contains_char Py.nl (Credentials._escape v) = false.
Proof.
  induction v as [|c v IH]; intros H; [reflexivity|].
  apply no_control_cons in H as (H1 & H2 & H3).
  rewrite escape_cons, contains_char_app, IH by exact H3. rewrite orb_false_r.
  unfold Credentials.escape1.
  destruct (Ascii.eqb Py.bs c); [reflexivity|].
  destruct (Ascii.eqb Py.dq c); [reflexivity|].
  cbn [Py.contains_char]. rewrite ascii_eqb_code; [reflexivity|].
  unfold Py.nl. rewrite nat_ascii_embedding by lia. lia.
Qed.

Lemma join_cons sep x l :
  l <> [] -> Py.join sep (x :: l) = x ++ sep ++ Py.join sep l.
Proof. destruct l; [congruence | reflexivity]. Qed.

Lemma join_app sep l1 l2 :
  l1 <> [] -> l2 <> [] ->
  Py.join sep (l1 ++ l2) = Py.join sep l1 ++ sep ++ Py.join sep l2.
Proof.
  intros H1 H2. induction l1 as [|x l1 IH]; [congruence|].
  rewrite <- app_comm_cons.
  destruct l1 as [|y l1].
  - apply join_cons, H2.
  - rewrite join_cons by (destruct l2; discriminate).
    rewrite IH by discriminate. rewrite (join_cons sep x) by discriminate.
    rewrite !str_app_assoc. reflexivity.
Qed.

Lemma split_char_no c x : Py.contains_char c x = false -> Py.split_char c x = [x].
Proof.
  induction x as [|d x IH]; intros H; [reflexivity|].
  cbn [Py.contains_char] in H. apply orb_false_iff in H as [H1 H2].
  cbn [Py.split_char]. rewrite IH, H1 by exact H2. reflexivity.
Qed.

Lemma split_join c l :
  l <> [] -> Forall (fun x => Py.contains_char c x = false) l ->
  Py.split_char c (Py.join (String c EmptyString) l) = l.
Proof.
  intros Hne HF. induction HF as [|x l Hx HF IH]; [congruence|].
  destruct l as [|y l].
  - apply split_char_no, Hx.
  - change (Py.join (String c EmptyString) (x :: y :: l))
      with (x ++ String c EmptyString ++ Py.join (String c EmptyString) (y :: l)).
    cbn [String.append]. rewrite split_char_app by exact Hx.
    rewrite IH by discriminate. reflexivity.
Qed.

Lemma rstrip_trailing_nl y x c :
  y = x ++ String c EmptyString -> ascii_nonspace c = true ->
  Py.rstrip (y ++ String Py.nl EmptyString) = y.
Proof.
  intros -> Hc. rewrite str_app_assoc. cbn [String.append].
  apply (rstrip_end c (String Py.nl EmptyString) Hc eq_refl).
Qed.

Lemma flat_map_snoc {A B} (f : A -> list B) l a :
  flat_map f (l ++ [a]) = (flat_map f l ++ f a)%list.
Proof. rewrite flat_map_app. simpl. now rewrite app_nil_r. Qed.

(** The text [save_credentials] writes is the lines joined by newlines:
    the final [rstrip] only drops the separator before the last, empty line. *)
Lemma save_as_join cs :
  Credentials.save_credentials cs =
  Py.join (String Py.nl EmptyString) (flat_map Credentials.client_lines cs).
Proof.
  destruct cs as [|c0 cs0] using rev_ind; [reflexivity|].
  unfold Credentials.save_credentials.
  rewrite flat_map_snoc.
  set (F := flat_map Credentials.client_lines cs0).
  unfold Credentials.client_lines.
  set (h := "[[client]]"). set (u := "username = " ++ _).
  set (q := Credentials.quoted (Credentials.password c0)).
  set (pl := "password = " ++ q).
  replace (F ++ [h; u; pl; EmptyString])%list
    with ((F ++ [h; u; pl]) ++ [EmptyString])%list
    by (rewrite <- app_assoc; reflexivity).
  destruct ((F ++ [h; u; pl]) ++ [EmptyString])%list eqn:Enil.
  { destruct F; discriminate. }
  rewrite <- Enil.
  rewrite join_app by (try discriminate; destruct F; discriminate).
  replace (F ++ [h; u; pl])%list
    with ((F ++ [h; u]) ++ [pl])%list
    by (rewrite <- app_assoc; reflexivity).
  rewrite join_app by (try discriminate; destruct F; discriminate).
  cbn [Py.join]. rewrite str_app_nil_r.
  set (J := Py.join _ (F ++ [h; u])%list).
  unfold pl, q, Credentials.quoted.
  rewrite (rstrip_trailing_nl _
    (J ++ String Py.nl EmptyString ++ "password = " ++
       String Py.dq (Credentials._escape (Credentials.password c0))) Py.dq);
    [reflexivity | str_norm; reflexivity | reflexivity].
Qed.

(** ** Reading back what [save_credentials] writes *)

Lemma parse_line_field k kl v :
  ((k, kl) = ("username", "username = ") \/ (k, kl) = ("password", "password = ")) ->
  Credentials.no_control v = true ->
  Toml.parse_line (kl ++ Credentials.quoted v) = Some (Toml.LKeyValue k v).
Proof.
  intros Hk Hv. pose proof (basic_body_escape v EmptyString Hv) as Hb.
  unfold Credentials.quoted.
  destruct Hk as [E | E]; injection E as -> ->;
    cbv -[Credentials._escape Toml.basic_body] in Hb |- *; rewrite Hb; reflexivity.
Qed.

Lemma run_cons_ok d d' l pl rest :
  Toml.parse_line l = Some pl -> Toml.step d pl = Some d' ->
  Toml.run d (l :: rest) = Toml.run d' rest.
Proof. intros H1 H2. cbn [Toml.run]. rewrite H1, H2. reflexivity. Qed.

Lemma last_table_insert_snoc k v tbls kvs :
  assoc k kvs = None ->
  Toml.last_table_insert k v (TArr (tbls ++ [TTable kvs])) =
  Some (TArr (tbls ++ [TTable (kvs ++ [(k, v)])])).
Proof.
  intros H. unfold Toml.last_table_insert. rewrite rev_app_distr. cbn [rev app].
  rewrite H, rev_involutive. reflexivity.
Qed.

Lemma step_kv_client tbls kvs k v :
  assoc k kvs = None ->
  Toml.step {| Toml.root := [("client", TArr (tbls ++ [TTable kvs]))];
               Toml.current := Some "client" |} (Toml.LKeyValue k v) =
  Some {| Toml.root := [("client", TArr (tbls ++ [TTable (kvs ++ [(k, TStr v)])]))];
          Toml.current := Some "client" |}.
Proof.
  intros H. unfold Toml.step. cbn [Toml.current Toml.root assoc].
  rewrite String.eqb_refl, last_table_insert_snoc by exact H.
  cbn [update_assoc]. rewrite String.eqb_refl. reflexivity.
Qed.

Lemma step_header_client tbls cur :
  forallb Toml.is_table tbls = true ->
  Toml.step {| Toml.root := [("client", TArr tbls)]; Toml.current := cur |}
    (Toml.LArrayHeader "client") =
  Some {| Toml.root := [("client", TArr (tbls ++ [TTable []]))];
          Toml.current := Some "client" |}.
Proof.
  intros H. unfold Toml.step. cbn [Toml.current Toml.root assoc].
  rewrite String.eqb_refl, H. cbn [update_assoc]. rewrite String.eqb_refl. reflexivity.
Qed.

Lemma plain_no_control v :
  Credentials.plain_field v = true -> Credentials.no_control v = true.
Proof. unfold Credentials.plain_field. intros H. apply andb_true_iff in H. tauto. Qed.

Lemma run_clients tbls c cs :
  forallb Toml.is_table tbls = true ->
  Credentials.plain_client c = true ->
  forallb Credentials.plain_client cs = true ->
  Toml.run {| Toml.root := [("client", TArr (tbls ++ [TTable []]))];
              Toml.current := Some "client" |}
    (tl (Credentials.client_lines c) ++ flat_map Credentials.client_lines cs) =
  Some {| Toml.root := [("client", TArr (tbls ++ map Credentials.client_table (c :: cs)))];
          Toml.current := Some "client" |}.
Proof.
  revert tbls c. induction cs as [|c' cs IH]; intros tbls c Ht Hc Hcs;
    unfold Credentials.plain_client in Hc; apply andb_true_iff in Hc as [Hu Hp];
    apply plain_no_control in Hu, Hp;
    cbn [Credentials.client_lines tl app];
    (erewrite run_cons_ok;
      [| apply parse_line_field; [left; reflexivity | exact Hu]
       | apply (step_kv_client tbls []); reflexivity]);
    (erewrite run_cons_ok;
      [| apply parse_line_field; [right; reflexivity | exact Hp]
       | apply (step_kv_client tbls [("username", TStr (Credentials.username c))]);
         reflexivity]);
    (erewrite run_cons_ok; [| reflexivity | reflexivity]).
  - reflexivity.
  - cbn [forallb] in Hcs. apply andb_true_iff in Hcs as [Hc' Hcs].
    cbn [flat_map Credentials.client_lines app].
    erewrite run_cons_ok; [| reflexivity | apply step_header_client].
    + refine (eq_trans (IH (tbls ++ [Credentials.client_table c])%list c' _ Hc' Hcs) _).
      * rewrite forallb_app, Ht. reflexivity.
      * rewrite <- app_assoc. reflexivity.
    + rewrite forallb_app, Ht. reflexivity.
Qed.

Lemma quoted_no_newline v :
  Credentials.no_control v = true ->
  Py.contains_char Py.nl (Credentials.quoted v) = false.
Proof.
  intros H. unfold Credentials.quoted. cbn [Py.contains_char].
  rewrite contains_char_app, escape_no_newline by exact H. reflexivity.
Qed.

Lemma client_lines_no_newline c :
  Credentials.plain_client c = true ->
  Forall (fun x => Py.contains_char Py.nl x = false) (Credentials.client_lines c).
Proof.
  unfold Credentials.plain_client. intros H. apply andb_true_iff in H as [Hu Hp].
  apply plain_no_control in Hu, Hp.
  unfold Credentials.client_lines.
  repeat constructor; try reflexivity; rewrite contains_char_app, quoted_no_newline by assumption;
    reflexivity.
Qed.

Lemma load_clients_tables cs :
  forallb Credentials.plain_client cs = true ->
  Credentials.load_clients (map Credentials.client_table cs) = Ok cs.
Proof.
  induction cs as [|c cs IH]; intros H; [reflexivity|].
  cbn [forallb] in H. apply andb_true_iff in H as [Hc H].
  unfold Credentials.plain_client, Credentials.plain_field in Hc.
  apply andb_true_iff in Hc as [Hu Hp].
  apply andb_true_iff in Hu as [Hu _]. apply andb_true_iff in Hp as [Hp _].
  cbn [map Credentials.load_clients]. rewrite IH by exact H.
  unfold Credentials.load_client, Credentials.client_table. cbn [assoc truthy].
  apply negb_true_iff in Hu, Hp.
  cbn; rewrite ?Hu, ?Hp; cbn; rewrite ?Hu, ?Hp; cbn.
  destruct c; reflexivity.
Qed.

(** Shared core of the round-trip claims: the text [save_credentials]
    writes for plain credentials is read back by [load_credentials] as
    the same list. *)
Lemma load_after_save cs :
  forallb Credentials.plain_client cs = true ->
  Credentials.load_credentials (Some (Credentials.save_credentials cs)) = Ok cs.
Proof.
  destruct cs as [|c cs]; intros H; [reflexivity|].
  pose proof H as H'. cbn [forallb] in H'. apply andb_true_iff in H' as [Hc Hcs].
  rewrite save_as_join. unfold Credentials.load_credentials, Toml.loads.
  rewrite split_join.
  2: { destruct c; discriminate. }
  2: { apply List.Forall_forall. intros x Hx. apply in_flat_map in Hx as (c' & Hc' & Hx).
       apply forallb_forall with (x := c') in H; [|exact Hc'].
       exact (proj1 (List.Forall_forall _ _) (client_lines_no_newline c' H) x Hx). }
  change (flat_map Credentials.client_lines (c :: cs))
    with ("[[client]]" :: (tl (Credentials.client_lines c) ++
                           flat_map Credentials.client_lines cs))%list.
  rewrite (run_cons_ok _ {| Toml.root := [("client", TArr ([] ++ [TTable []]))];
                            Toml.current := Some "client" |} _ (Toml.LArrayHeader "client"))
    by reflexivity.
  rewrite run_clients by (reflexivity || assumption).
  cbn [assoc Toml.root]. rewrite String.eqb_refl. cbn [app Credentials.iterate_clients].
  apply load_clients_tables. exact H.
Qed.

Example save_load_example :
  Credentials.load_credentials
    (Some (Credentials.save_credentials
             [ {| Credentials.username := "a\b"; Credentials.password := String Py.dq "q" |};
               {| Credentials.username := "c"; Credentials.password := "d" |} ]))
  = Ok [ {| Credentials.username := "a\b"; Credentials.password := String Py.dq "q" |};
         {| Credentials.username := "c"; Credentials.password := "d" |} ].
Proof. vm_compute. reflexivity. Qed.

(** ** Lemmas on user management *)

Lemma existsb_username user (creds : list Credentials.ClientCredential) :
  existsb (fun client => String.eqb (Credentials.username client) user) creds = true <->
  In user (map Credentials.username creds).
Proof.
  rewrite existsb_exists, in_map_iff. split.
  - intros (c & Hc & Heq). apply String.eqb_eq in Heq. eauto.
  - intros (c & Heq & Hc). exists c. split; [exact Hc | apply String.eqb_eq, Heq].
Qed.

Lemma filter_length_eqb {A} (f : A -> bool) (l : list A) :
  Nat.eqb (length (List.filter f l)) (length l) = forallb f l.
Proof.
  induction l as [|a l IH]; [reflexivity|]. cbn [List.filter forallb length].
  destruct (f a); cbn [andb length].
  - exact IH.
  - apply Nat.eqb_neq. pose proof (List.filter_length_le f l) as Hle. lia.
Qed.

Lemma forallb_not_username user (creds : list Credentials.ClientCredential) :
  forallb (fun client => negb (String.eqb (Credentials.username client) user)) creds =
  negb (existsb (fun client => String.eqb (Credentials.username client) user) creds).
Proof.
  induction creds as [|c creds IH]; [reflexivity|]. cbn [forallb existsb].
  rewrite IH, negb_orb. reflexivity.
Qed.

Lemma filter_without_user user (creds : list Credentials.ClientCredential) :
  ~ In user (map Credentials.username creds) ->
  List.filter (fun client => negb (String.eqb (Credentials.username client) user)) creds = creds.
Proof.
  induction creds as [|c creds IH]; intros H; [reflexivity|].
  cbn [map In] in H. cbn [List.filter].
  destruct (String.eqb (Credentials.username c) user) eqn:E.
  - apply String.eqb_eq in E. tauto.
  - cbn [negb]. rewrite IH by tauto. reflexivity.
Qed.

(** ** Credential store *)

(** Claim C10: for every list of credentials whose usernames and passwords
    are non-empty and contain no control characters, loading the file that
    [save_credentials] wrote returns exactly the same list. *)
Theorem save_then_load_roundtrip (clients : list Credentials.ClientCredential) :
  forallb Credentials.plain_client clients = true ->
  Credentials.load_credentials (Some (Credentials.save_credentials clients)) = Ok clients.
Proof. apply load_after_save. Qed.

Lemma save_then_load_roundtrip_witness :
  forallb Credentials.plain_client
    [ {| Credentials.username := "alice"; Credentials.password := String Py.dq "x\y" |} ]
    = true /\
  Credentials.load_credentials
    (Some (Credentials.save_credentials
       [ {| Credentials.username := "alice"; Credentials.password := String Py.dq "x\y" |} ]))
  = Ok [ {| Credentials.username := "alice"; Credentials.password := String Py.dq "x\y" |} ].
Proof. split; [reflexivity | apply save_then_load_roundtrip; reflexivity]. Defined.

(** A credential file with a comment and literal strings that
    [load_credentials] accepts. *)
(** Claim C6 (as stated: save(path, load(path)) leaves every accepted file
    unchanged) fails: the commented file loads as one credential, and
    saving that list writes a different text. *)
Lemma save_load_rewrites_commented_file :
  Credentials.load_credentials (Some commented_file) =
    Ok [ {| Credentials.username := "alice"; Credentials.password := "secret" |} ] /\
  Credentials.save_credentials
    [ {| Credentials.username := "alice"; Credentials.password := "secret" |} ]
    <> commented_file.
Proof. split; [vm_compute; reflexivity | vm_compute; discriminate]. Qed.

(** Claim C6, amended: [save_credentials] writes a canonical text; on a
    file in that form (written by [save_credentials] for credentials that
    are non-empty and free of control characters) [save(path, load(path))]
    writes back the same text. *)
Theorem save_load_noop_on_saved_text (clients : list Credentials.ClientCredential) :
  forallb Credentials.plain_client clients = true ->
  let text := Credentials.save_credentials clients in
  match Credentials.load_credentials (Some text) with
  | Ok loaded => Credentials.save_credentials loaded = text
  | Err _ => False
  end.
Proof. intros H. cbn zeta. rewrite load_after_save by exact H. reflexivity. Qed.

Lemma save_load_noop_on_saved_text_witness :
  forallb Credentials.plain_client
    [ {| Credentials.username := "bob"; Credentials.password := "pw" |} ] = true /\
  match Credentials.load_credentials
          (Some (Credentials.save_credentials
                   [ {| Credentials.username := "bob"; Credentials.password := "pw" |} ])) with
  | Ok loaded => Credentials.save_credentials loaded =
                 Credentials.save_credentials
                   [ {| Credentials.username := "bob"; Credentials.password := "pw" |} ]
  | Err _ => False
  end.
Proof. split; [reflexivity | apply (save_load_noop_on_saved_text _); reflexivity]. Defined.

(** ** User management *)

(** Claim C1: on a credential file that loads, [add_user] with a username
    already present fails with the "already exists" ValueError (the
    DuplicateUser error) and leaves the file unchanged without reloading;
    with a new username it writes the file with the record appended, runs
    the reload hook and returns what the hook reported (its effects are the
    hook's effects; an exception of the hook propagates, see C9). *)
Theorem add_user_duplicate_or_append (config : BotConfig) (env : Service.Env)
  (file : option string) (creds : list Credentials.ClientCredential) (user pass : string) :
  Credentials.load_credentials file = Ok creds ->
  (In user (map Credentials.username creds) ->
   UserManagement.add_user config env file user pass =
   (file, [], Err (ValueError ("User '" ++ user ++ "' already exists")))) /\
  (~ In user (map Credentials.username creds) ->
   UserManagement.add_user config env file user pass =
   (Some (Credentials.save_credentials
            (creds ++ [{| Credentials.username := user; Credentials.password := pass |}])%list),
    fst (Service.reload_credentials env (reload_endpoint config)),
    UserManagement.change_result config
      (snd (Service.reload_credentials env (reload_endpoint config))))).
Proof.
  intros Hload. unfold UserManagement.add_user. rewrite Hload. split; intros Hin.
  - apply existsb_username in Hin. rewrite Hin. reflexivity.
  - destruct (existsb _ creds) eqn:E; [apply existsb_username in E; contradiction|].
    destruct (Service.reload_credentials env (reload_endpoint config)). reflexivity.
Qed.

Lemma add_user_duplicate_or_append_witness :
  Credentials.load_credentials None = Ok [] /\
  UserManagement.add_user sample_config quiet_env None "alice" "pw" =
  (Some (Credentials.save_credentials
           ([] ++ [{| Credentials.username := "alice"; Credentials.password := "pw" |}])%list),
   fst (Service.reload_credentials quiet_env (reload_endpoint sample_config)),
   UserManagement.change_result sample_config
     (snd (Service.reload_credentials quiet_env (reload_endpoint sample_config)))).
Proof.
  split; [reflexivity|].
  apply (add_user_duplicate_or_append sample_config quiet_env None []); [reflexivity | simpl; tauto].
Defined.

(** A file in which two records share the username "a". *)
(** Claim C2 (as stated: deleting a present username removes exactly one
    record) fails on a file with a repeated username: both records go. *)
Lemma delete_user_removes_every_duplicate :
  Credentials.load_credentials (Some duplicate_file) =
    Ok [ {| Credentials.username := "a"; Credentials.password := "x" |};
         {| Credentials.username := "a"; Credentials.password := "y" |};
         {| Credentials.username := "b"; Credentials.password := "z" |} ] /\
  Credentials.load_credentials
    (fst (fst (UserManagement.delete_user sample_config quiet_env (Some duplicate_file) "a"))) =
    Ok [ {| Credentials.username := "b"; Credentials.password := "z" |} ].
Proof. split; vm_compute; reflexivity. Qed.

(** Claim C2, amended: on a credential file that loads, [delete_user] with
    an absent username fails with the "not found" ValueError (UserNotFound)
    and leaves the file unchanged without reloading; with a present
    username it writes the file with every record of that username removed,
    the others in their order, and runs the reload hook; when usernames are
    unique (as [add_user] keeps them) exactly that one record is removed. *)
Theorem delete_user_removes_matching_records (config : BotConfig) (env : Service.Env)
  (file : option string) (creds : list Credentials.ClientCredential) (user : string) :
  Credentials.load_credentials file = Ok creds ->
  (~ In user (map Credentials.username creds) ->
   UserManagement.delete_user config env file user =
   (file, [], Err (ValueError ("User '" ++ user ++ "' not found")))) /\
  (In user (map Credentials.username creds) ->
   UserManagement.delete_user config env file user =
   (Some (Credentials.save_credentials
            (List.filter (fun client => negb (String.eqb (Credentials.username client) user)) creds)),
    fst (Service.reload_credentials env (reload_endpoint config)),
    UserManagement.change_result config
      (snd (Service.reload_credentials env (reload_endpoint config)))) /\
   (List.NoDup (map Credentials.username creds) ->
    exists pre c post, creds = (pre ++ c :: post)%list /\ Credentials.username c = user /\
      List.filter (fun client => negb (String.eqb (Credentials.username client) user)) creds =
      (pre ++ post)%list)).
Proof.
  intros Hload. unfold UserManagement.delete_user. rewrite Hload.
  rewrite filter_length_eqb, forallb_not_username. split; intros Hin.
  - destruct (existsb _ creds) eqn:E; [apply existsb_username in E; contradiction|].
    reflexivity.
  - pose proof Hin as Hex. apply existsb_username in Hex. rewrite Hex. cbn [negb]. split.
    + destruct (Service.reload_credentials env (reload_endpoint config)). reflexivity.
    + intros Hnd. apply in_map_iff in Hin as (c & Hc & Hmem).
      apply in_split in Hmem as (pre & post & ->).
      exists pre, c, post. split; [reflexivity | split; [exact Hc|]].
      rewrite map_app in Hnd. cbn [map] in Hnd. rewrite Hc in Hnd.
      apply NoDup_remove_2 in Hnd. rewrite in_app_iff in Hnd.
      rewrite List.filter_app. cbn [List.filter]. rewrite Hc, String.eqb_refl. cbn [negb].
      rewrite !filter_without_user by tauto. reflexivity.
Qed.

Lemma delete_user_removes_matching_records_witness :
  Credentials.load_credentials (Some duplicate_file) =
    Ok [ {| Credentials.username := "a"; Credentials.password := "x" |};
         {| Credentials.username := "a"; Credentials.password := "y" |};
         {| Credentials.username := "b"; Credentials.password := "z" |} ] /\
  ~ In "c" ["a"; "a"; "b"] /\
  UserManagement.delete_user sample_config quiet_env (Some duplicate_file) "c" =
  (Some duplicate_file, [], Err (ValueError ("User '" ++ "c" ++ "' not found"))).
Proof.
  split; [vm_compute; reflexivity|]. split; [simpl; intuition discriminate|].
  apply (delete_user_removes_matching_records sample_config quiet_env _
           [ {| Credentials.username := "a"; Credentials.password := "x" |};
             {| Credentials.username := "a"; Credentials.password := "y" |};
             {| Credentials.username := "b"; Credentials.password := "z" |} ]).
  - vm_compute. reflexivity.
  - simpl. intuition discriminate.
Defined.

(** ** Reload notifier *)

(** Claim C9 fails: a POST that times out waiting for the response raises
    TimeoutError, which [except (URLError, HTTPError)] does not catch, so it
    escapes without the restart fallback; and a missing systemctl raises
    FileNotFoundError out of the restart. *)
Lemma reload_timeout_and_missing_systemctl_escape :
  Service.reload_credentials
    {| Service.urlopen := fun _ => Some TimeoutError; Service.systemctl_run := None |}
    (Some "http://127.0.0.1:8080/reload") =
    ([Service.PostTo "http://127.0.0.1:8080/reload"], Err TimeoutError) /\
  Service.reload_credentials
    {| Service.urlopen := fun _ => None; Service.systemctl_run := Some FileNotFoundError |}
    None =
    ([Service.RestartService], Err FileNotFoundError).
Proof. split; reflexivity. Qed.

(** ** Pagination *)

Lemma firstn_add {A} (a b : nat) (l : list A) :
  firstn (a + b) l = (firstn a l ++ firstn b (skipn a l))%list.
Proof.
  revert l. induction a as [|a IH]; intros l; [reflexivity|].
  destruct l as [|x l]; cbn [firstn skipn Nat.add].
  - rewrite firstn_nil. reflexivity.
  - rewrite IH. reflexivity.
Qed.

Lemma pages_concat (l : list string) (m n : nat) :
  flat_map (fun k => firstn 10 (skipn (10 * (k - 1)) l)) (seq (S n) m) =
  firstn (10 * m) (skipn (10 * n) l).
Proof.
  revert n. induction m as [|m IH]; intros n; [reflexivity|].
  cbn [seq flat_map]. rewrite IH. replace (S n - 1) with n by lia.
  replace (10 * S m) with (10 + 10 * m) by lia. rewrite firstn_add, skipn_skipn.
  replace (10 + 10 * n) with (10 * S n) by lia. reflexivity.
Qed.

Lemma paginate_page (l : list string) (k : nat) :
  l <> [] -> (1 <= k)%nat -> (Z.of_nat k <= (Z.of_nat (length l) + 9) / 10)%Z ->
  fst (fst (Pagination.paginate l (Z.of_nat k))) = firstn 10 (skipn (10 * (k - 1)) l).
Proof.
  intros Hne Hk Hkt. unfold Pagination.paginate, Pagination.py_slice,
    Pagination.USER_LIST_PAGE_SIZE.
  destruct l as [|x l']; [congruence|]. set (l := x :: l') in *.
  set (N := Z.of_nat (length l)) in *.
  assert (HN : (1 <= N)%Z) by (unfold N, l; cbn [length]; lia).
  destruct (N =? 0)%Z eqn:E0; [apply Z.eqb_eq in E0; lia|]. cbn [fst].
  replace (N + 10 - 1)%Z with (N + 9)%Z by lia.
  assert (Hmax : Z.max 1 (Z.min (Z.of_nat k) ((N + 9) / 10)) = Z.of_nat k) by lia.
  rewrite Hmax.
  assert (Hlt : (10 * (Z.of_nat k - 1) < N)%Z).
  { pose proof (Z.mul_div_le (N + 9) 10 ltac:(lia)) as Hd. lia. }
  destruct ((Z.of_nat k - 1) * 10 <? 0)%Z eqn:Es; [apply Z.ltb_lt in Es; lia|].
  destruct ((Z.of_nat k - 1) * 10 + 10 <? 0)%Z eqn:Ee; [apply Z.ltb_lt in Ee; lia|].
  rewrite (Z.min_l ((Z.of_nat k - 1) * 10)) by lia.
  replace (Z.to_nat ((Z.of_nat k - 1) * 10)) with (10 * (k - 1))%nat by lia.
  assert (Hlen : length (skipn (10 * (k - 1)) l) = (length l - 10 * (k - 1))%nat)
    by apply length_skipn.
  destruct (Z.le_gt_cases ((Z.of_nat k - 1) * 10 + 10) N) as [Hle | Hgt].
  - rewrite Z.min_l by exact Hle.
    replace (Z.to_nat ((Z.of_nat k - 1) * 10 + 10 - (Z.of_nat k - 1) * 10)) with 10%nat by lia.
    reflexivity.
  - rewrite Z.min_r by lia.
    rewrite firstn_all2 by (unfold N in *; lia).
    rewrite firstn_all2 by (unfold N in *; lia). reflexivity.
Qed.

(** The number of pages is the ceiling of N / 10 (0 for no usernames). *)
Lemma paginate_total_pages (l : list string) (page : Z) :
  let '(_, _, total_pages) := Pagination.paginate l page in
  (l = [] /\ total_pages = 0%Z) \/
  (l <> [] /\ (10 * (total_pages - 1) < Z.of_nat (length l) <= 10 * total_pages)%Z).
Proof.
  unfold Pagination.paginate, Pagination.USER_LIST_PAGE_SIZE.
  destruct l as [|x l']; [left; split; reflexivity|]. right.
  set (N := Z.of_nat (length (x :: l'))).
  assert (HN : (1 <= N)%Z) by (unfold N; cbn [length]; lia).
  destruct (N =? 0)%Z eqn:E0; [apply Z.eqb_eq in E0; lia|].
  split; [discriminate|].
  replace (N + 10 - 1)%Z with (N + 9)%Z by lia.
  pose proof (Z.mul_div_le (N + 9) 10 ltac:(lia)) as Hd.
  pose proof (Z.mod_pos_bound (N + 9) 10 ltac:(lia)) as Hm.
  pose proof (Z.div_mod (N + 9) 10 ltac:(lia)) as Hdm. lia.
Qed.

Lemma all_pages_id (l : list string) : Pagination.all_pages l = l.
Proof.
  unfold Pagination.all_pages.
  destruct l as [|x l'] eqn:El; [reflexivity|]. rewrite <- El.
  assert (Hne : l <> []) by (rewrite El; discriminate).
  pose proof (paginate_total_pages l 1) as Htp.
  destruct (Pagination.paginate l 1) as [[s0 p0] tp] eqn:Ep.
  destruct Htp as [[Hnil _] | [_ Hb]]; [contradiction|].
  assert (Htp : tp = ((Z.of_nat (length l) + 9) / 10)%Z).
  { unfold Pagination.paginate, Pagination.USER_LIST_PAGE_SIZE in Ep.
    destruct (Z.of_nat (length l) =? 0)%Z eqn:E0.
    - apply Z.eqb_eq in E0. rewrite El in E0. cbn [length] in E0. lia.
    - injection Ep as _ _ <-. f_equal. lia. }
  rewrite flat_map_concat_map.
  rewrite (map_ext_in _ (fun k => firstn 10 (skipn (10 * (k - 1)) l))).
  - rewrite <- flat_map_concat_map.
    rewrite (pages_concat l (Z.to_nat tp) 0). cbn [Nat.mul skipn].
    apply firstn_all2. lia.
  - intros k Hk. apply in_seq in Hk. apply paginate_page; [exact Hne | lia | lia].
Qed.

(** C4 (counterexample): with no usernames the effective page is 0, which lies
    outside [1, total_pages] = [1, 0]; the slice is empty and there are 0 pages. *)
Lemma paginate_empty_page_zero :
  Pagination.paginate [] 5 = ([], 0%Z, 0%Z) /\ ~ (1 <= 0 <= 0)%Z.
Proof. split; [reflexivity | lia]. Qed.

(** C4: with page size 10 and N usernames: for N = 0 the result is the empty
    page, page 0 and 0 pages; for N >= 1 there are ceil(N/10) pages, the
    requested page (any integer) is clamped into [1, total_pages] and kept when
    already there; and the pages 1 .. total_pages concatenated give back the
    list, in order, with nothing repeated or left out. *)
Theorem paginate_clamps_and_covers (l : list string) (page : Z) :
  (let '(slice, p, tp) := Pagination.paginate l page in
   (l = [] /\ slice = [] /\ p = 0%Z /\ tp = 0%Z) \/
   (l <> [] /\
    (10 * (tp - 1) < Z.of_nat (length l) <= 10 * tp)%Z /\
    (1 <= p <= tp)%Z /\
    ((1 <= page <= tp)%Z -> p = page) /\
    ((page < 1)%Z -> p = 1%Z) /\
    ((tp < page)%Z -> p = tp))) /\
  Pagination.all_pages l = l.
Proof.
  split; [|apply all_pages_id].
  pose proof (paginate_total_pages l page) as Htp.
  destruct l as [|x l'].
  - left. repeat split; reflexivity.
  - right. unfold Pagination.paginate, Pagination.USER_LIST_PAGE_SIZE in *.
    set (N := Z.of_nat (length (x :: l'))) in *.
    assert (HN : (1 <= N)%Z) by (unfold N; cbn [length]; lia).
    destruct (N =? 0)%Z eqn:E0; [apply Z.eqb_eq in E0; lia|].
    destruct Htp as [[Hc _] | [_ Hb]]; [discriminate|].
    assert (H1 : (1 <= (N + 10 - 1) / 10)%Z).
    { apply Z.div_le_lower_bound; lia. }
    split; [discriminate|]. split; [exact Hb|]. lia.
Qed.

(** ** Client-config validation *)

Lemma insert_sorted_in (x y : string) (xs : list string) :
  In y (CliConfig.insert_sorted x xs) <-> x = y \/ In y xs.
Proof.
  induction xs as [|z zs IH]; cbn [CliConfig.insert_sorted].
  - cbn [In]. intuition.
  - destruct (String.leb x z); cbn [In]; [tauto|]. rewrite IH. tauto.
Qed.

Lemma sorted_in (y : string) (xs : list string) :
  In y (CliConfig.sorted xs) <-> In y xs.
Proof.
  induction xs as [|x xs IH]; cbn [CliConfig.sorted]; [reflexivity|].
  rewrite insert_sorted_in, IH. cbn [In]. intuition.
Qed.

Lemma missing_in (data : list (string * tval)) (name : string) :
  In name (CliConfig.missing data) <->
  exists v, In (name, v) (CliConfig.required data) /\ CliConfig.is_missing v = true.
Proof.
  unfold CliConfig.missing. rewrite in_map_iff. split.
  - intros [[n v] [Hn Hin]]. cbn [fst] in Hn. subst n.
    apply List.filter_In in Hin. exists v. exact Hin.
  - intros [v Hv]. exists (name, v). split; [reflexivity|].
    apply List.filter_In. exact Hv.
Qed.

Lemma is_missing_false (v : option tval) :
  CliConfig.is_missing v = false -> exists t, v = Some t.
Proof. destruct v as [t|]; [eauto | discriminate]. Qed.

(** With no required field missing, the five values are all present. *)
Lemma no_missing_values (data : list (string * tval)) :
  CliConfig.missing data = [] ->
  exists h a u p pr,
    CliConfig._get_value data ["hostname"] = Some h /\
    CliConfig._get_value data ["addresses"] = Some a /\
    CliConfig._get_value data ["username"] = Some u /\
    CliConfig._get_value data ["password"] = Some p /\
    CliConfig._get_value data ["upstream_protocol"; "protocol"] = Some pr.
Proof.
  unfold CliConfig.missing, CliConfig.required. cbn [List.filter snd].
  destruct (CliConfig.is_missing (CliConfig._get_value data ["hostname"])) eqn:E1;
    [discriminate|].
  destruct (CliConfig.is_missing (CliConfig._get_value data ["addresses"])) eqn:E2;
    [discriminate|].
  destruct (CliConfig.is_missing (CliConfig._get_value data ["username"])) eqn:E3;
    [discriminate|].
  destruct (CliConfig.is_missing (CliConfig._get_value data ["password"])) eqn:E4;
    [discriminate|].
  destruct (CliConfig.is_missing (CliConfig._get_value data ["upstream_protocol"; "protocol"]))
    eqn:E5; [discriminate|].
  intros _.
  apply is_missing_false in E1 as [h Eh]. apply is_missing_false in E2 as [a Ea].
  apply is_missing_false in E3 as [u Eu]. apply is_missing_false in E4 as [p Ep].
  apply is_missing_false in E5 as [pr Epr].
  exists h, a, u, p, pr. repeat split; assumption.
Qed.

Lemma build_ok (data : list (string * tval)) (dns : list string) :
  CliConfig.missing data = [] ->
  exists h a u p pr,
    CliConfig._build_client_config_from_endpoint data dns =
    Ok (CliConfig.finish (CliConfig.config_lines dns h a u p pr
          (CliConfig._get_value data ["upstream_fallback_protocol"])
          (CliConfig._get_value data ["has_ipv6"])
          (CliConfig._get_value data ["anti_dpi"])
          (CliConfig._get_value data ["certificate"])),
        match CliConfig._get_value data ["certificate"] with
        | Some v => negb (truthy v)
        | None => true
        end).
Proof.
  intros Hm. destruct (no_missing_values data Hm) as (h & a & u & p & pr & Eh & Ea & Eu & Ep & Epr).
  exists h, a, u, p, pr. unfold CliConfig._build_client_config_from_endpoint.
  rewrite Hm, Eh, Ea, Eu, Ep, Epr. reflexivity.
Qed.

Ltac opt_cases :=
  repeat match goal with
  | |- context [match ?o with Some _ => _ | None => _ end] => destruct o
  | |- context [if truthy ?v then _ else _] => destruct (truthy v)
  | |- context [if CliConfig.is_missing ?v then _ else _] => destruct (CliConfig.is_missing v)
  | |- context [match ?l with [] => _ | _ :: _ => _ end] => destruct l
  end.

(** No line of the rendered config, other than the certificate line itself,
    starts with [certificate]. *)
Lemma config_lines_no_certificate dns h a u p pr fb ip ad :
  forall l, In l (CliConfig.config_lines dns h a u p pr fb ip ad None) ->
  Py.startswith l "certificate" = false.
Proof.
  unfold CliConfig.config_lines. opt_cases; intros l Hl;
  cbn [In app] in Hl; repeat destruct Hl as [<- | Hl]; try reflexivity; contradiction.
Qed.

Lemma config_lines_falsy_certificate dns h a u p pr fb ip ad v :
  truthy v = false ->
  CliConfig.config_lines dns h a u p pr fb ip ad (Some v) =
  CliConfig.config_lines dns h a u p pr fb ip ad None.
Proof. intros Hv. unfold CliConfig.config_lines. rewrite Hv. reflexivity. Qed.

Lemma config_lines_skip_in dns h a u p pr fb ip ad :
  In "skip_verification = true" (CliConfig.config_lines dns h a u p pr fb ip ad None).
Proof.
  unfold CliConfig.config_lines. apply in_or_app; right. apply in_or_app; right.
  apply in_or_app; right. apply in_or_app; right. apply in_or_app; right.
  apply in_or_app; right. apply in_or_app; right. apply in_or_app; left. left. reflexivity.
Qed.

Lemma config_lines_cert dns h a u p pr fb ip ad v :
  truthy v = true ->
  In ("certificate = " ++ CliConfig._format_multiline_string (CliConfig.py_str v))
    (CliConfig.config_lines dns h a u p pr fb ip ad (Some v)) /\
  ~ In "skip_verification = true" (CliConfig.config_lines dns h a u p pr fb ip ad (Some v)).
Proof.
  intros Hv. unfold CliConfig.config_lines. rewrite Hv. split.
  - apply in_or_app; right. apply in_or_app; right.
    apply in_or_app; right. apply in_or_app; right. apply in_or_app; right.
    apply in_or_app; right. apply in_or_app; right. apply in_or_app; left. left. reflexivity.
  - opt_cases; intros Hl; cbn [In app] in Hl;
    repeat destruct Hl as [Hl | Hl]; try discriminate Hl; contradiction.
Qed.

(** C5 (counterexample): a descriptor whose certificate key is present but
    holds the empty string is treated as having no certificate: generation
    succeeds with skip_verification = true. *)
Lemma empty_certificate_skips_verification :
  CliConfig._get_value empty_cert_endpoint ["certificate"] = Some (TStr EmptyString) /\
  exists content,
    CliConfig._build_client_config_from_endpoint empty_cert_endpoint [] = Ok (content, true).
Proof. split; [reflexivity | eexists; reflexivity]. Qed.

(** C5: manual generation fails with the ValueError
    "Endpoint config is missing required fields: ..." listing, sorted, exactly
    the required fields (hostname, addresses, username, password, protocol)
    whose value is absent, "" or []. With none missing it succeeds; when the
    certificate value is absent or falsy (e.g. "") skip_verification is true,
    the lines contain "skip_verification = true" and none starts with
    "certificate"; when it is truthy skip_verification is false, the lines
    contain the certificate line and no skip_verification line. *)
Theorem build_client_config_fields_and_certificate
  (data : list (string * tval)) (dns : list string) :
  (CliConfig.missing data <> [] ->
   CliConfig._build_client_config_from_endpoint data dns =
   Err (ValueError (CliConfig.missing_prefix ++
                    Py.join ", " (CliConfig.sorted (CliConfig.missing data))))) /\
  (forall name, In name (CliConfig.sorted (CliConfig.missing data)) <->
   exists v, In (name, v) (CliConfig.required data) /\ CliConfig.is_missing v = true) /\
  (CliConfig.missing data = [] ->
   exists lines,
     ((forall v, CliConfig._get_value data ["certificate"] = Some v -> truthy v = false) ->
      CliConfig._build_client_config_from_endpoint data dns =
        Ok (CliConfig.finish lines, true) /\
      In "skip_verification = true" lines /\
      (forall l, In l lines -> Py.startswith l "certificate" = false)) /\
     (forall v, CliConfig._get_value data ["certificate"] = Some v -> truthy v = true ->
      CliConfig._build_client_config_from_endpoint data dns =
        Ok (CliConfig.finish lines, false) /\
      In ("certificate = " ++ CliConfig._format_multiline_string (CliConfig.py_str v)) lines /\
      ~ In "skip_verification = true" lines)).
Proof.
  split; [|split].
  - intros Hm. unfold CliConfig._build_client_config_from_endpoint.
    destruct (CliConfig.missing data); [contradiction | reflexivity].
  - intros name. rewrite sorted_in. apply missing_in.
  - intros Hm. destruct (build_ok data dns Hm) as (h & a & u & p & pr & Eb).
    rewrite Eb. clear Eb.
    exists (CliConfig.config_lines dns h a u p pr
              (CliConfig._get_value data ["upstream_fallback_protocol"])
              (CliConfig._get_value data ["has_ipv6"])
              (CliConfig._get_value data ["anti_dpi"])
              (CliConfig._get_value data ["certificate"])).
    split.
    + intros Hf.
      destruct (CliConfig._get_value data ["certificate"]) as [c|] eqn:Ec.
      * rewrite (Hf c eq_refl), config_lines_falsy_certificate by exact (Hf c eq_refl).
        split; [reflexivity|]. split; [apply config_lines_skip_in | apply config_lines_no_certificate].
      * split; [reflexivity|]. split; [apply config_lines_skip_in | apply config_lines_no_certificate].
    + intros v Ev Hv. rewrite Ev, Hv. split; [reflexivity|]. apply config_lines_cert. exact Hv.
Qed.

Lemma build_client_config_fields_and_certificate_witness :
  CliConfig.missing empty_cert_endpoint = [] /\
  exists lines,
    CliConfig._build_client_config_from_endpoint empty_cert_endpoint [] =
      Ok (CliConfig.finish lines, true) /\
    In "skip_verification = true" lines.
Proof.
  assert (Hm : CliConfig.missing empty_cert_endpoint = []) by reflexivity.
  split; [exact Hm|].
  destruct (proj2 (proj2 (build_client_config_fields_and_certificate empty_cert_endpoint []))
              Hm) as [lines [Hf _]].
  assert (Hc : forall v, CliConfig._get_value empty_cert_endpoint ["certificate"] = Some v ->
                         truthy v = false).
  { intros v Hv. vm_compute in Hv. injection Hv as <-. reflexivity. }
  destruct (Hf Hc) as [H1 [H2 _]]. exists lines. split; assumption.
Defined.

(** ** DNS override merge *)

Lemma rstrip_cons_nonspace (c : ascii) (s : string) :
  ascii_nonspace c = true -> Py.rstrip (String c s) = String c (Py.rstrip s).
Proof.
  intros Hc. unfold ascii_nonspace in Hc. apply andb_true_iff in Hc as [Hc1 Hc2].
  apply negb_true_iff in Hc1. apply Nat.ltb_lt in Hc2.
  cbn [Py.rstrip]. rewrite Hc1. destruct s as [|d s2]; [reflexivity|].
  rewrite is_space2_ascii_l by exact Hc2. destruct s2 as [|e s3]; [reflexivity|].
  rewrite is_space3_ascii by (left; exact Hc2). reflexivity.
Qed.

Lemma lstrip_ascii_head c s : ascii_nonspace c = true -> Py.lstrip (String c s) = String c s.
Proof.
  intros Hc. unfold ascii_nonspace in Hc. apply andb_true_iff in Hc as [Hc1 Hc2].
  apply negb_true_iff in Hc1. apply Nat.ltb_lt in Hc2.
  cbn [Py.lstrip]. rewrite Hc1. destruct s as [|d s2]; [reflexivity|].
  rewrite is_space2_ascii_l by exact Hc2. destruct s2 as [|e s3]; [reflexivity|].
  rewrite is_space3_ascii by (left; exact Hc2). reflexivity.
Qed.

Lemma strip_cons_nonspace (c : ascii) (s : string) :
  ascii_nonspace c = true -> Py.strip (String c s) = String c (Py.rstrip s).
Proof.
  intros Hc. unfold Py.strip. rewrite rstrip_cons_nonspace by exact Hc.
  apply lstrip_ascii_head, Hc.
Qed.

Ltac strip_lits :=
  cbn [String.append];
  repeat (rewrite strip_cons_nonspace by reflexivity);
  repeat (rewrite rstrip_cons_nonspace by reflexivity).

Lemma prefix_app (p s : string) : String.prefix p (p ++ s) = true.
Proof.
  induction p as [|c p IH]; [destruct s; reflexivity|].
  cbn [String.append String.prefix]. destruct (ascii_dec c c); [exact IH | congruence].
Qed.

Lemma rendered_dns_is_dns_line (dns : list string) :
  Py.startswith (Py.strip (CliConfig.rendered_dns dns)) "dns_upstreams" = true.
Proof. unfold CliConfig.rendered_dns. strip_lits. unfold Py.startswith. apply (prefix_app "dns_upstreams"). Qed.

Lemma dns_lines_single (dns : list string) :
  CliConfig.dns_lines [CliConfig.rendered_dns dns] = [CliConfig.rendered_dns dns].
Proof. unfold CliConfig.dns_lines. cbn [List.filter]. rewrite rendered_dns_is_dns_line. reflexivity. Qed.

(** The manual renderer writes the override list on exactly one line. *)
Lemma config_lines_dns dns h a u p pr fb ip ad cert :
  dns <> [] ->
  CliConfig.dns_lines (CliConfig.config_lines dns h a u p pr fb ip ad cert) =
  [CliConfig.rendered_dns dns].
Proof.
  intros Hd. destruct dns as [|d ds]; [congruence|].
  unfold CliConfig.dns_lines, CliConfig.config_lines.
  fold (CliConfig.rendered_dns (d :: ds)).
  rewrite !List.filter_app.
  cbn [List.filter]. rewrite rendered_dns_is_dns_line.
  opt_cases; cbn [List.filter]; strip_lits; reflexivity.
Qed.

Lemma replace_first_none (r : string) (ls : list string) :
  CliConfig.dns_lines ls = [] -> CliConfig.replace_first r ls = None.
Proof.
  unfold CliConfig.dns_lines. induction ls as [|l ls IH]; [reflexivity|].
  cbn [List.filter CliConfig.replace_first].
  destruct (Py.startswith (Py.strip l) "dns_upstreams"); [discriminate|].
  intros H. rewrite (IH H). reflexivity.
Qed.

Lemma replace_first_one (dns : list string) (ls : list string) (x : string) :
  CliConfig.dns_lines ls = [x] ->
  exists ls', CliConfig.replace_first (CliConfig.rendered_dns dns) ls = Some ls' /\
    In (CliConfig.rendered_dns dns) ls' /\
    CliConfig.dns_lines ls' = [CliConfig.rendered_dns dns].
Proof.
  induction ls as [|l ls IH]; [discriminate|].
  unfold CliConfig.dns_lines in *. cbn [List.filter CliConfig.replace_first].
  destruct (Py.startswith (Py.strip l) "dns_upstreams") eqn:El.
  - intros H. injection H as _ Hrest. eexists. split; [reflexivity|]. split; [left; reflexivity|].
    cbn [List.filter]. rewrite rendered_dns_is_dns_line, Hrest. reflexivity.
  - intros H. destruct (IH H) as (ls' & E & Hin & Hd). rewrite E.
    exists (l :: ls'). split; [reflexivity|]. split; [right; exact Hin|].
    cbn [List.filter]. rewrite El, Hd. reflexivity.
Qed.

(** Merging always leaves the rendered override among the lines, and leaves
    it as the only dns_upstreams line when the input had at most one. *)
Lemma merged_lines_dns (content : string) (dns : list string) :
  In (CliConfig.rendered_dns dns) (CliConfig.merged_lines content dns) /\
  (length (CliConfig.dns_lines (Py.splitlines content)) <= 1 ->
   CliConfig.dns_lines (CliConfig.merged_lines content dns) = [CliConfig.rendered_dns dns]).
Proof.
  unfold CliConfig.merged_lines.
  destruct (CliConfig.replace_first (CliConfig.rendered_dns dns) (Py.splitlines content))
    as [ls'|] eqn:E.
  - destruct (CliConfig.dns_lines (Py.splitlines content)) as [|x [|y rest]] eqn:Hd.
    + rewrite (replace_first_none _ _ Hd) in E. discriminate.
    + destruct (replace_first_one dns _ x Hd) as (ls'' & E' & Hin & Hd').
      rewrite E in E'. injection E' as <-. split; [exact Hin|]. intros _. exact Hd'.
    + split; [|cbn [length]; lia].
      clear Hd. revert ls' E. induction (Py.splitlines content) as [|l ls IH]; intros ls' E;
        [discriminate|].
      cbn [CliConfig.replace_first] in E.
      destruct (Py.startswith (Py.strip l) "dns_upstreams").
      * injection E as <-. left. reflexivity.
      * destruct (CliConfig.replace_first (CliConfig.rendered_dns dns) ls) as [m|]; [|discriminate].
        injection E as <-. right. apply IH. reflexivity.
  - split; [apply in_or_app; right; left; reflexivity|]. intros Hle.
    unfold CliConfig.dns_lines in *. rewrite List.filter_app.
    destruct (List.filter (fun l => Py.startswith (Py.strip l) "dns_upstreams")
                (Py.splitlines content)) as [|x [|y rest]] eqn:Hd.
    + apply dns_lines_single.
    + destruct (replace_first_one dns (Py.splitlines content) x Hd) as (ls' & E' & _).
      congruence.
    + cbn [length] in Hle. lia.
Qed.

Lemma manual_dns_lines (data : list (string * tval)) (dns : list string) (c : string) (skip : bool) :
  dns <> [] ->
  CliConfig._build_client_config_from_endpoint data dns = Ok (c, skip) ->
  exists lines, c = CliConfig.finish lines /\ In (CliConfig.rendered_dns dns) lines /\
    CliConfig.dns_lines lines = [CliConfig.rendered_dns dns].
Proof.
  intros Hd Hb. destruct (CliConfig.missing data) as [|m ms] eqn:Hm.
  - destruct (build_ok data dns Hm) as (h & a & u & p & pr & E). rewrite E in Hb.
    injection Hb as <- _. eexists. split; [reflexivity|].
    rewrite config_lines_dns by exact Hd. split; [|reflexivity].
    assert (Hin : In (CliConfig.rendered_dns dns) [CliConfig.rendered_dns dns]) by (left; reflexivity).
    rewrite <- config_lines_dns with (h := h) (a := a) (u := u) (p := p) (pr := pr)
      (fb := CliConfig._get_value data ["upstream_fallback_protocol"])
      (ip := CliConfig._get_value data ["has_ipv6"])
      (ad := CliConfig._get_value data ["anti_dpi"])
      (cert := CliConfig._get_value data ["certificate"]) in Hin by exact Hd.
    unfold CliConfig.dns_lines in Hin. apply List.filter_In in Hin. apply Hin.
  - unfold CliConfig._build_client_config_from_endpoint in Hb. rewrite Hm in Hb. discriminate.
Qed.

Lemma replace_first_some (r : string) (ls ls' : list string) :
  CliConfig.replace_first r ls = Some ls' ->
  exists pre l post, ls = (pre ++ l :: post)%list /\ CliConfig.dns_lines pre = [] /\
    Py.startswith (Py.strip l) "dns_upstreams" = true /\ ls' = (pre ++ r :: post)%list.
Proof.
  revert ls'. induction ls as [|l ls IH]; intros ls' E; [discriminate|].
  cbn [CliConfig.replace_first] in E.
  destruct (Py.startswith (Py.strip l) "dns_upstreams") eqn:El.
  - injection E as <-. exists [], l, ls. auto.
  - destruct (CliConfig.replace_first r ls) as [m|] eqn:Em; [|discriminate].
    injection E as <-. destruct (IH m eq_refl) as (pre & l' & post & -> & Hp & Hl' & ->).
    exists (l :: pre), l', post. split; [reflexivity|]. split; [|auto].
    unfold CliConfig.dns_lines in *. cbn [List.filter]. rewrite El. exact Hp.
Qed.

Lemma replace_first_none_inv (r : string) (ls : list string) :
  CliConfig.replace_first r ls = None -> CliConfig.dns_lines ls = [].
Proof.
  induction ls as [|l ls IH]; intros E; [reflexivity|].
  cbn [CliConfig.replace_first] in E. unfold CliConfig.dns_lines in *. cbn [List.filter].
  destruct (Py.startswith (Py.strip l) "dns_upstreams"); [discriminate|].
  apply IH. destruct (CliConfig.replace_first r ls); [discriminate | reflexivity].
Qed.

(** C7 (counterexample): the setup wizard's output has two dns_upstreams
    lines; with an override only the first is replaced, and the final output
    still has two. *)
Lemma wizard_output_keeps_second_dns_line :
  exists r,
    CliConfig.generate_client_config (Some two_dns_wizard_output) [] true ["9.9.9.9"] = Ok r /\
    length (CliConfig.dns_lines (Py.splitlines (CliConfig.content r))) = 2.
Proof. eexists. split; [reflexivity | vm_compute; reflexivity]. Qed.

(** C7: with a non-empty DNS override list, the generated content is the
    joined list of lines that contains the rendered line
    [dns_upstreams = [...]]: the manual renderer adds it, and on the setup
    wizard's output it replaces the first line whose stripped text starts
    with dns_upstreams (the lines before and after it are kept, later
    dns_upstreams lines included), or is appended when there is none. It is
    the only dns_upstreams line when the manual renderer produced the
    config, or when the wizard's output had at most one such line. *)
Theorem dns_override_merged (wizard : option string) (data : list (string * tval))
  (prefer : bool) (dns : list string) (r : CliConfig.ClientConfigResult) :
  dns <> [] ->
  CliConfig.generate_client_config wizard data prefer dns = Ok r ->
  exists lines,
    CliConfig.content r = CliConfig.finish lines /\
    In (CliConfig.rendered_dns dns) lines /\
    (CliConfig.used_setup_wizard r = false ->
     CliConfig.dns_lines lines = [CliConfig.rendered_dns dns]) /\
    (forall c, wizard = Some c -> length (CliConfig.dns_lines (Py.splitlines c)) <= 1 ->
     CliConfig.dns_lines lines = [CliConfig.rendered_dns dns]) /\
    (forall c, prefer = true -> wizard = Some c ->
     (exists pre l post,
        Py.splitlines c = (pre ++ l :: post)%list /\ CliConfig.dns_lines pre = [] /\
        Py.startswith (Py.strip l) "dns_upstreams" = true /\
        lines = (pre ++ CliConfig.rendered_dns dns :: post)%list) \/
     (CliConfig.dns_lines (Py.splitlines c) = [] /\
      lines = (Py.splitlines c ++ [CliConfig.rendered_dns dns])%list)).
Proof.
  intros Hd Hg. unfold CliConfig.generate_client_config in Hg.
  assert (Hmanual :
    match CliConfig._build_client_config_from_endpoint data dns with
    | Ok (c, skip) => Ok {| CliConfig.content := c; CliConfig.used_setup_wizard := false;
                            CliConfig.skip_verification := skip |}
    | Err e => Err e
    end = Ok r ->
    exists lines,
      CliConfig.content r = CliConfig.finish lines /\
      In (CliConfig.rendered_dns dns) lines /\
      (CliConfig.used_setup_wizard r = false ->
       CliConfig.dns_lines lines = [CliConfig.rendered_dns dns]) /\
      (forall c, wizard = Some c -> length (CliConfig.dns_lines (Py.splitlines c)) <= 1 ->
       CliConfig.dns_lines lines = [CliConfig.rendered_dns dns]) /\
      (forall c, prefer = true -> wizard = Some c ->
       (exists pre l post,
          Py.splitlines c = (pre ++ l :: post)%list /\ CliConfig.dns_lines pre = [] /\
          Py.startswith (Py.strip l) "dns_upstreams" = true /\
          lines = (pre ++ CliConfig.rendered_dns dns :: post)%list) \/
       (CliConfig.dns_lines (Py.splitlines c) = [] /\
        lines = (Py.splitlines c ++ [CliConfig.rendered_dns dns])%list))).
  { destruct (CliConfig._build_client_config_from_endpoint data dns) as [[c skip]|e] eqn:Eb;
      [|discriminate].
    intros H. injection H as <-.
    destruct (manual_dns_lines data dns c skip Hd Eb) as (lines & Ec & Hin & Hl).
    exists lines. split; [exact Ec|]. split; [exact Hin|]. split; [intros _; exact Hl|].
    split; [intros _ _ _; exact Hl|]. intros c' Hp Hw. rewrite Hp, Hw in Hg.
    destruct dns as [|d0 ds0]; [congruence|]. injection Hg as Hg. congruence. }
  destruct prefer; [|exact (Hmanual Hg)].
  destruct wizard as [w|]; [|exact (Hmanual Hg)].
  destruct dns as [|d ds]; [congruence|].
  injection Hg as <-. cbn [CliConfig.content CliConfig.used_setup_wizard].
  exists (CliConfig.merged_lines w (d :: ds)).
  destruct (merged_lines_dns w (d :: ds)) as [Hin Hone].
  split; [reflexivity|]. split; [exact Hin|]. split; [discriminate|].
  split; [intros c Ec Hle; injection Ec as <-; exact (Hone Hle)|].
  intros c _ Ec. injection Ec as ->. unfold CliConfig.merged_lines.
  destruct (CliConfig.replace_first (CliConfig.rendered_dns (d :: ds)) (Py.splitlines c))
    as [ls'|] eqn:E.
  - left. exact (replace_first_some _ _ _ E).
  - right. split; [exact (replace_first_none_inv _ _ E) | reflexivity].
Qed.

Lemma dns_override_merged_witness :
  exists r,
    CliConfig.generate_client_config None empty_cert_endpoint true ["9.9.9.9"] = Ok r /\
    exists lines, CliConfig.content r = CliConfig.finish lines /\
      CliConfig.dns_lines lines = [CliConfig.rendered_dns ["9.9.9.9"]].
Proof.
  eexists. split; [reflexivity|].
  destruct (dns_override_merged None empty_cert_endpoint true ["9.9.9.9"] _
              ltac:(discriminate) eq_refl) as (lines & Ec & _ & Hm & _ & _).
  exists lines. split; [exact Ec | apply Hm; reflexivity].
Defined.

(** ** Connection profile *)

(** [_is_self_signed] is the truthiness of what [_get_value] finds under the
    accepted spellings. *)
Lemma is_self_signed_get_value (data : list (string * tval)) :
  Endpoint._is_self_signed data =
  match Endpoint._get_value data Endpoint.self_signed_keys with
  | Some v => truthy v
  | None => false
  end.
Proof.
  unfold Endpoint._is_self_signed, Endpoint._get_value, CliConfig._get_value.
  destruct (CliConfig.first_key Endpoint.self_signed_keys data); [reflexivity|].
  destruct (CliConfig.in_sections _ _ data); reflexivity.
Qed.

(** C8 (counterexample): the top-level [self_signed = false] is found first,
    so the profile is not flagged although the [[endpoint]] section carries
    an accepted spelling with a truthy value. *)
Lemma self_signed_first_key_wins :
  exists p,
    Endpoint.build_connection_profile conflicting_self_signed_endpoint None = Ok p /\
    Endpoint.self_signed p = false /\
    CliConfig.in_sections ["endpoint"] Endpoint.self_signed_keys
      conflicting_self_signed_endpoint = Some (TBool true).
Proof. eexists. split; [reflexivity|]. split; reflexivity. Qed.

(** C8: for a descriptor with no required field missing, the profile's
    address is the first entry when addresses is a non-empty array; its DNS
    is "default (system)" when the dns_upstreams/dns value is absent, "" or
    [], the entries joined with ", " when it is a non-empty array, and the
    string itself when it is a non-empty string; and self_signed is the
    truthiness of the value of the first accepted spelling found (self_signed,
    selfSigned, certificate_is_self_signed at top level, then in the
    endpoint, client, connection sections), false when there is none. *)
Theorem connection_profile_fields (data : list (string * tval)) (server_name : option string) :
  CliConfig.missing data = [] ->
  exists p,
    Endpoint.build_connection_profile data server_name = Ok p /\
    (forall a rest, Endpoint._get_value data ["addresses"] = Some (TArr (a :: rest)) ->
       Endpoint.address p = CliConfig.py_str a) /\
    (CliConfig.is_missing (Endpoint._get_value data ["dns_upstreams"; "dns"]) = true ->
       Endpoint.dns p = "default (system)") /\
    (forall l, Endpoint._get_value data ["dns_upstreams"; "dns"] = Some (TArr l) -> l <> [] ->
       Endpoint.dns p = Py.join ", " (map CliConfig.py_str l)) /\
    (forall s, Endpoint._get_value data ["dns_upstreams"; "dns"] = Some (TStr s) ->
       s <> EmptyString -> Endpoint.dns p = s) /\
    Endpoint.self_signed p =
      match Endpoint._get_value data Endpoint.self_signed_keys with
      | Some v => truthy v
      | None => false
      end.
Proof.
  intros Hm. destruct (no_missing_values data Hm) as (h & a & u & pw & pr & Eh & Ea & Eu & Ep & Epr).
  unfold Endpoint.build_connection_profile. unfold Endpoint._get_value at 1 2 3 4 5.
  rewrite Hm, Eh, Ea, Eu, Ep, Epr.
  eexists. split; [reflexivity|]. cbn [Endpoint.address Endpoint.dns Endpoint.self_signed].
  split; [|split; [|split; [|split]]].
  - intros a' rest E. unfold Endpoint._get_value in E. rewrite Ea in E.
    injection E as ->. reflexivity.
  - intros Hd. unfold Endpoint._format_dns. rewrite Hd. reflexivity.
  - intros l E Hl. unfold Endpoint._format_dns. rewrite E.
    destruct l; [congruence | reflexivity].
  - intros s E Hs. unfold Endpoint._format_dns. rewrite E.
    destruct s; [congruence | reflexivity].
  - apply is_self_signed_get_value.
Qed.

Lemma connection_profile_fields_witness :
  exists p,
    Endpoint.build_connection_profile empty_cert_endpoint None = Ok p /\
    Endpoint.address p = "203.0.113.7:443" /\
    Endpoint.dns p = "default (system)" /\
    Endpoint.self_signed p = false.
Proof.
  destruct (connection_profile_fields empty_cert_endpoint None eq_refl)
    as (p & E & Ha & Hd & _ & _ & Hs).
  exists p. split; [exact E|]. split; [apply (Ha (TStr "203.0.113.7:443") []); reflexivity|].
  split; [apply Hd; reflexivity|]. rewrite Hs. reflexivity.
Defined.

(** ** Callback admin gating *)

Lemma starts_app (p s : string) : Bot.starts (Some (p ++ s)) p = true.
Proof. apply prefix_app. Qed.

(** C3 (code bug): for a user who is not an admin, the four admin buttons and
    every [delete_user:<name>] press are refused with "insufficient rights"
    and the menu, the sessions staying as [get_state] left them; but
    [admin_config_select:<name>] with a non-empty name goes through and sends
    the configuration of [<name>] (its endpoint file, client file and
    connection profile with the password) to this user (an exception that
    escapes [_send_configs] stops the handler after that), and
    [delete_user_page:<n>] and [admin_config_page:<n>] open the admin
    user-list menus. *)
Theorem non_admin_callback_gating (env : Bot.Env) (config : BotConfig) (user_id : Z)
  (from_username : option string) (chat_id : Z) (st : Bot.Store) :
  Bot._is_admin config user_id = false ->
  (forall a, (In a ["add_user"; "delete_user"; "admin_config"; "show_rules"] \/
              String.prefix "delete_user:" a = true) ->
   Bot.handle_callback env config user_id from_username chat_id (Some a) st =
   ([Bot.Answer (Some Bot.MsgInsufficientRights); Bot.ShowMenu false],
    snd (Bot.get_state chat_id st), None)) /\
  (forall u, u <> EmptyString ->
   Bot.handle_callback env config user_id from_username chat_id
     (Some ("admin_config_select:" ++ u)) st =
   match Bot.send_configs_outcome env (Some u) with
   | None =>
       ([Bot.Upsert (Bot.MsgPreparingFor u) false; Bot.SendConfigs (Some u); Bot.ShowMenu false],
        Bot.clear_state chat_id (snd (Bot.get_state chat_id st)), None)
   | Some e =>
       ([Bot.Upsert (Bot.MsgPreparingFor u) false; Bot.SendConfigs (Some u)],
        snd (Bot.get_state chat_id st), Some e)
   end) /\
  (forall n,
   Bot.handle_callback env config user_id from_username chat_id
     (Some ("delete_user_page:" ++ n)) st =
   ([Bot.DeleteUserMenu (Bot._parse_page env ("delete_user_page:" ++ n))],
    snd (Bot.get_state chat_id st), None)) /\
  (forall n,
   Bot.handle_callback env config user_id from_username chat_id
     (Some ("admin_config_page:" ++ n)) st =
   ([Bot.AdminConfigMenu (Bot._parse_page env ("admin_config_page:" ++ n))],
    snd (Bot.get_state chat_id st), None)).
Proof.
  intros Hadm. unfold Bot.handle_callback. rewrite Hadm.
  destruct (Bot.get_state chat_id st) as [state st'] eqn:Eg. cbn [snd].
  split; [|split; [|split]].
  - intros a [Hin | Hp].
    + cbn [In] in Hin. repeat destruct Hin as [<- | Hin]; try reflexivity. contradiction.
    + destruct (existsb (Bot.is_action (Some a)) ["add_user"; "delete_user"; "admin_config"; "show_rules"]);
        [reflexivity|].
      assert (Hs : Bot.starts (Some a) "delete_user:" = true) by exact Hp.
      rewrite Hs. reflexivity.
  - intros u Hu. rewrite starts_app.
    destruct u as [|c u']; [congruence|]. cbn -[Bot.send_configs_outcome].
    destruct (Bot.send_configs_outcome env (Some (String c u'))); reflexivity.
  - intros n. rewrite starts_app. reflexivity.
  - intros n. rewrite starts_app. reflexivity.
Qed.

Lemma non_admin_callback_gating_witness :
  Bot._is_admin sample_config 2 = false /\
  Bot.handle_callback sample_bot_env sample_config 2 None 7
    (Some "admin_config_select:alice") ∅ =
  ([Bot.Upsert (Bot.MsgPreparingFor "alice") false; Bot.SendConfigs (Some "alice");
    Bot.ShowMenu false],
   Bot.clear_state 7 (snd (Bot.get_state 7 ∅)), None).
Proof.
  split; [reflexivity|].
  exact (proj1 (proj2 (non_admin_callback_gating sample_bot_env sample_config 2 None 7 ∅
                         eq_refl)) "alice" ltac:(discriminate)).
Defined.

(* ================================================================== *)
(** * Further properties of the code *)

(** ** User management, composed with the credential store *)

Lemma map_username_filter user (creds : list Credentials.ClientCredential) :
  map Credentials.username
    (List.filter (fun client => negb (String.eqb (Credentials.username client) user)) creds) =
  List.filter (fun n => negb (String.eqb n user)) (map Credentials.username creds).
Proof.
  induction creds as [|c creds IH]; [reflexivity|]. cbn [List.filter map].
  destruct (negb (String.eqb (Credentials.username c) user)); cbn [map]; rewrite IH; reflexivity.
Qed.

Lemma forallb_plain_filter f (creds : list Credentials.ClientCredential) :
  forallb Credentials.plain_client creds = true ->
  forallb Credentials.plain_client (List.filter f creds) = true.
Proof.
  intros H. apply forallb_forall. intros x Hx. apply List.filter_In in Hx as [Hx _].
  exact (proj1 (forallb_forall _ _) H x Hx).
Qed.

Lemma add_user_file (config : BotConfig) (env : Service.Env) (file : option string)
  (creds : list Credentials.ClientCredential) (user pass : string) :
  Credentials.load_credentials file = Ok creds ->
  ~ In user (map Credentials.username creds) ->
  fst (fst (UserManagement.add_user config env file user pass)) =
  Some (Credentials.save_credentials
          (creds ++ [{| Credentials.username := user; Credentials.password := pass |}])%list).
Proof.
  intros Hload Hin. unfold UserManagement.add_user. rewrite Hload.
  destruct (existsb _ creds) eqn:E; [apply existsb_username in E; contradiction|].
  destruct (Service.reload_credentials env (reload_endpoint config)). reflexivity.
Qed.

(** [add_user] with a new username writes a file that lists the old users
    followed by the new one, whatever the reload hook then does (the file is
    written before the hook runs). *)
Theorem add_user_then_list_users (config : BotConfig) (env : Service.Env)
  (file : option string) (creds : list Credentials.ClientCredential) (user pass : string) :
  Credentials.load_credentials file = Ok creds ->
  ~ In user (map Credentials.username creds) ->
  forallb Credentials.plain_client creds = true ->
  Credentials.plain_client {| Credentials.username := user; Credentials.password := pass |} = true ->
  Credentials.load_credentials (fst (fst (UserManagement.add_user config env file user pass))) =
    Ok (creds ++ [{| Credentials.username := user; Credentials.password := pass |}])%list /\
  UserManagement.list_users (fst (fst (UserManagement.add_user config env file user pass))) =
    Ok (map Credentials.username creds ++ [user])%list.
Proof.
  intros Hload Hin Hp Hu. rewrite (add_user_file config env file creds user pass Hload Hin).
  assert (Hl : Credentials.load_credentials
      (Some (Credentials.save_credentials
        (creds ++ [{| Credentials.username := user; Credentials.password := pass |}])%list)) =
      Ok (creds ++ [{| Credentials.username := user; Credentials.password := pass |}])%list).
  { apply load_after_save. rewrite forallb_app, Hp. cbn [forallb]. rewrite Hu. reflexivity. }
  split; [exact Hl|]. unfold UserManagement.list_users. rewrite Hl, map_app. reflexivity.
Qed.

Lemma add_user_then_list_users_witness :
  UserManagement.list_users
    (fst (fst (UserManagement.add_user sample_config quiet_env (Some duplicate_file) "c" "pw"))) =
  Ok ["a"; "a"; "b"; "c"].
Proof.
  refine (proj2 (add_user_then_list_users sample_config quiet_env (Some duplicate_file)
    [ {| Credentials.username := "a"; Credentials.password := "x" |};
      {| Credentials.username := "a"; Credentials.password := "y" |};
      {| Credentials.username := "b"; Credentials.password := "z" |} ] "c" "pw" _ _ _ _)).
  - vm_compute. reflexivity.
  - simpl. intuition discriminate.
  - reflexivity.
  - reflexivity.
Defined.

(** [delete_user] of a present username writes a file that lists the other
    users, in their order, when every stored username and password is
    non-empty and free of control characters (a password read from an
    escape such as \n is written back raw, and the file would no longer
    load). *)
Theorem delete_user_then_list_users (config : BotConfig) (env : Service.Env)
  (file : option string) (creds : list Credentials.ClientCredential) (user : string) :
  Credentials.load_credentials file = Ok creds ->
  In user (map Credentials.username creds) ->
  forallb Credentials.plain_client creds = true ->
  UserManagement.list_users (fst (fst (UserManagement.delete_user config env file user))) =
    Ok (List.filter (fun n => negb (String.eqb n user)) (map Credentials.username creds)).
Proof.
  intros Hload Hin Hp. unfold UserManagement.delete_user. rewrite Hload.
  rewrite filter_length_eqb, forallb_not_username.
  pose proof Hin as Hex. apply existsb_username in Hex. rewrite Hex. cbn [negb].
  destruct (Service.reload_credentials env (reload_endpoint config)). cbn [fst].
  unfold UserManagement.list_users. rewrite load_after_save by (apply forallb_plain_filter, Hp).
  rewrite map_username_filter. reflexivity.
Qed.

Lemma delete_user_then_list_users_witness :
  UserManagement.list_users
    (fst (fst (UserManagement.delete_user sample_config quiet_env (Some duplicate_file) "a"))) =
  Ok ["b"].
Proof.
  exact (delete_user_then_list_users sample_config quiet_env (Some duplicate_file)
    [ {| Credentials.username := "a"; Credentials.password := "x" |};
      {| Credentials.username := "a"; Credentials.password := "y" |};
      {| Credentials.username := "b"; Credentials.password := "z" |} ] "a"
    ltac:(vm_compute; reflexivity) ltac:(simpl; tauto) eq_refl).
Defined.

(** Adding a new user and then deleting the same user gives back a file
    that loads as the original list of credentials, when the stored
    usernames and passwords and the new ones are non-empty and free of
    control characters. *)
Theorem add_then_delete_restores (config : BotConfig) (env env' : Service.Env)
  (file : option string) (creds : list Credentials.ClientCredential) (user pass : string) :
  Credentials.load_credentials file = Ok creds ->
  ~ In user (map Credentials.username creds) ->
  forallb Credentials.plain_client creds = true ->
  Credentials.plain_client {| Credentials.username := user; Credentials.password := pass |} = true ->
  Credentials.load_credentials
    (fst (fst (UserManagement.delete_user config env'
                 (fst (fst (UserManagement.add_user config env file user pass))) user))) =
  Ok creds.
Proof.
  intros Hload Hin Hp Hu. rewrite (add_user_file config env file creds user pass Hload Hin).
  unfold UserManagement.delete_user.
  rewrite load_after_save by (rewrite forallb_app, Hp; cbn [forallb]; rewrite Hu; reflexivity).
  rewrite List.filter_app, filter_without_user by exact Hin.
  cbn [List.filter Credentials.username]. rewrite String.eqb_refl.
  cbn [negb]. rewrite app_nil_r, length_app. cbn [length].
  replace (Nat.eqb (length creds) (length creds + 1)) with false
    by (symmetry; apply Nat.eqb_neq; lia).
  destruct (Service.reload_credentials env' (reload_endpoint config)). cbn [fst].
  apply load_after_save, Hp.
Qed.

Lemma add_then_delete_restores_witness :
  Credentials.load_credentials
    (fst (fst (UserManagement.delete_user sample_config quiet_env
       (fst (fst (UserManagement.add_user sample_config quiet_env None "alice" "pw"))) "alice"))) =
  Ok [].
Proof.
  exact (add_then_delete_restores sample_config quiet_env quiet_env None [] "alice" "pw"
           eq_refl ltac:(simpl; tauto) eq_refl eq_refl).
Defined.

Lemma load_client_nonempty (t : tval) (c : Credentials.ClientCredential) :
  Credentials.load_client t = Ok c ->
  Credentials.username c <> EmptyString /\ Credentials.password c <> EmptyString.
Proof.
  unfold Credentials.load_client. destruct t as [| | | |kvs]; try discriminate.
  destruct (assoc "username" kvs) as [uv|]; [|discriminate].
  destruct (assoc "password" kvs) as [pv|]; [|discriminate].
  destruct (truthy uv && truthy pv) eqn:Et; [|discriminate].
  apply andb_true_iff in Et as [Eu Ep].
  destruct uv as [us| | | |]; try discriminate; destruct pv as [ps| | | |]; try discriminate.
  intros H. injection H as <-. cbn [Credentials.username Credentials.password].
  cbn [truthy] in Eu, Ep. apply negb_true_iff in Eu, Ep.
  split; intros ->; discriminate.
Qed.

(** Every credential [load_credentials] returns has a non-empty username and
    a non-empty password. *)
Theorem load_credentials_nonempty (file : option string)
  (creds : list Credentials.ClientCredential) :
  Credentials.load_credentials file = Ok creds ->
  Forall (fun c => Credentials.username c <> EmptyString /\
                   Credentials.password c <> EmptyString) creds.
Proof.
  assert (Hcl : forall l cs, Credentials.load_clients l = Ok cs ->
    Forall (fun c => Credentials.username c <> EmptyString /\
                     Credentials.password c <> EmptyString) cs).
  { induction l as [|t l IH]; intros cs H; cbn [Credentials.load_clients] in H.
    - injection H as <-. constructor.
    - destruct (Credentials.load_client t) as [c|e] eqn:Ec; [|discriminate].
      destruct (Credentials.load_clients l) as [cs'|e] eqn:El; [|discriminate].
      injection H as <-. constructor; [exact (load_client_nonempty t c Ec)|].
      apply IH. reflexivity. }
  unfold Credentials.load_credentials. destruct file as [text|];
    [|intros H; injection H as <-; constructor].
  destruct (Toml.loads text) as [[| | | |data]|]; try discriminate.
  unfold Credentials.iterate_clients.
  destruct (match assoc "client" data with Some v => v | None => TArr [] end) as [s0| | |l|kvs];
    intros H.
  - destruct (String.eqb s0 EmptyString); [injection H as <-; constructor | discriminate].
  - discriminate.
  - discriminate.
  - exact (Hcl l creds H).
  - destruct kvs; [injection H as <-; constructor | discriminate].
Qed.

Lemma load_credentials_nonempty_witness :
  Forall (fun c => Credentials.username c <> EmptyString /\
                   Credentials.password c <> EmptyString)
    [ {| Credentials.username := "a"; Credentials.password := "x" |};
      {| Credentials.username := "a"; Credentials.password := "y" |};
      {| Credentials.username := "b"; Credentials.password := "z" |} ].
Proof.
  exact (load_credentials_nonempty (Some duplicate_file) _ ltac:(vm_compute; reflexivity)).
Defined.

(** ** Reload notifier *)

(** [reload_credentials] reports a hot reload only when a POST to a
    non-empty endpoint returned, and then restarts nothing; it reports no hot
    reload only after the restart command ran, preceded either by nothing
    (no endpoint, or an empty one) or by one POST that raised URLError or
    HTTPError. *)
Theorem reload_credentials_outcomes (env : Service.Env) (endpoint : option string) :
  (snd (Service.reload_credentials env endpoint) = Ok {| Service.used_hot_reload := true |} ->
   exists url, endpoint = Some url /\ url <> EmptyString /\ Service.urlopen env url = None /\
     fst (Service.reload_credentials env endpoint) = [Service.PostTo url]) /\
  (snd (Service.reload_credentials env endpoint) = Ok {| Service.used_hot_reload := false |} ->
   Service.systemctl_run env = None /\
   ((fst (Service.reload_credentials env endpoint) = [Service.RestartService] /\
     (endpoint = None \/ endpoint = Some EmptyString)) \/
    (exists url e, endpoint = Some url /\ url <> EmptyString /\
       Service.urlopen env url = Some e /\ Service.caught e = true /\
       fst (Service.reload_credentials env endpoint) = [Service.PostTo url; Service.RestartService]))).
Proof.
  unfold Service.reload_credentials, Service.restart.
  destruct endpoint as [url|].
  - destruct (String.eqb url EmptyString) eqn:Eu; cbn [negb].
    + apply String.eqb_eq in Eu. subst url.
      destruct (Service.systemctl_run env) eqn:Es; cbn [fst snd]; split; intros H;
        try discriminate.
      split; [reflexivity|]. left. split; [reflexivity | right; reflexivity].
    + apply String.eqb_neq in Eu.
      destruct (Service.urlopen env url) as [e|] eqn:Eo.
      * destruct (Service.caught e) eqn:Ec;
          [destruct (Service.systemctl_run env) eqn:Es|]; cbn [fst snd]; split; intros H;
          try discriminate.
        split; [reflexivity|]. right. exists url, e. repeat split; assumption.
      * cbn [fst snd]. split; intros H; [|discriminate].
        exists url. repeat split; assumption.
  - destruct (Service.systemctl_run env) eqn:Es; cbn [fst snd]; split; intros H;
      try discriminate.
    split; [reflexivity|]. left. split; [reflexivity | left; reflexivity].
Qed.

(** ** Client-config generation *)



(** [generate_client_config] uses the setup wizard exactly when it is
    preferred and produced a file; the result then always reports
    skip_verification = false, whatever the certificate, and its content is
    the wizard's file, with the DNS override merged in when one is given. *)
Theorem generate_wizard_result (wizard : option string) (data : list (string * tval))
  (prefer : bool) (dns : list string) (r : CliConfig.ClientConfigResult) :
  CliConfig.generate_client_config wizard data prefer dns = Ok r ->
  (CliConfig.used_setup_wizard r = true <-> prefer = true /\ wizard <> None) /\
  (forall c, prefer = true -> wizard = Some c ->
   CliConfig.skip_verification r = false /\
   CliConfig.content r = match dns with [] => c | _ => CliConfig._merge_dns_upstreams c dns end).
Proof.
  unfold CliConfig.generate_client_config.
  assert (Hm : forall r',
    match CliConfig._build_client_config_from_endpoint data dns with
    | Ok (c, skip) => Ok {| CliConfig.content := c; CliConfig.used_setup_wizard := false;
                            CliConfig.skip_verification := skip |}
    | Err e => Err e
    end = Ok r' -> CliConfig.used_setup_wizard r' = false).
  { intros r'. destruct (CliConfig._build_client_config_from_endpoint data dns) as [[c s]|e];
      [|discriminate]. intros H. injection H as <-. reflexivity. }
  destruct prefer.
  - destruct wizard as [w|].
    + intros H. assert (Hr : r = {| CliConfig.content :=
          match dns with [] => w | _ => CliConfig._merge_dns_upstreams w dns end;
          CliConfig.used_setup_wizard := true; CliConfig.skip_verification := false |})
        by (destruct dns; injection H as <-; reflexivity).
      subst r. cbn [CliConfig.used_setup_wizard CliConfig.skip_verification CliConfig.content].
      split; [split; [intros _; split; [reflexivity | discriminate] | reflexivity]|].
      intros c _ Hc. injection Hc as <-. split; reflexivity.
    + intros H. rewrite (Hm r H). split; [split; [discriminate | intros [_ []]; reflexivity]|].
      intros c _ Hc. discriminate.
  - intros H. rewrite (Hm r H). split; [split; [discriminate | intros [Hf _]; discriminate]|].
    intros c Hf. discriminate.
Qed.

Lemma generate_wizard_result_witness :
  CliConfig.skip_verification
    {| CliConfig.content := CliConfig._merge_dns_upstreams two_dns_wizard_output ["9.9.9.9"];
       CliConfig.used_setup_wizard := true; CliConfig.skip_verification := false |} = false.
Proof.
  exact (proj1 (proj2 (generate_wizard_result (Some two_dns_wizard_output) [] true ["9.9.9.9"]
    _ eq_refl) two_dns_wizard_output eq_refl eq_refl)).
Defined.

(** ** Rules file *)

Lemma rules_quoted v : Rules.quoted v = Credentials.quoted v.
Proof. reflexivity. Qed.

Lemma parse_line_rule_field k v :
  In k ["cidr"; "client_random_prefix"; "action"] ->
  Credentials.no_control v = true ->
  Toml.parse_line (k ++ " = " ++ Rules.quoted v) = Some (Toml.LKeyValue k v).
Proof.
  intros Hk Hv. pose proof (basic_body_escape v EmptyString Hv) as Hb.
  rewrite rules_quoted. unfold Credentials.quoted.
  destruct Hk as [<- | [<- | [<- | []]]];
    cbv -[Credentials._escape Toml.basic_body] in Hb |- *; rewrite Hb; reflexivity.
Qed.

Lemma step_kv_arr n tbls kvs k v :
  assoc k kvs = None ->
  Toml.step {| Toml.root := [(n, TArr (tbls ++ [TTable kvs]))]; Toml.current := Some n |}
    (Toml.LKeyValue k v) =
  Some {| Toml.root := [(n, TArr (tbls ++ [TTable (kvs ++ [(k, TStr v)])]))];
          Toml.current := Some n |}.
Proof.
  intros H. unfold Toml.step. cbn [Toml.current Toml.root assoc].
  rewrite String.eqb_refl, last_table_insert_snoc by exact H.
  cbn [update_assoc]. rewrite String.eqb_refl. reflexivity.
Qed.

Lemma step_header_arr n tbls cur :
  forallb Toml.is_table tbls = true ->
  Toml.step {| Toml.root := [(n, TArr tbls)]; Toml.current := cur |} (Toml.LArrayHeader n) =
  Some {| Toml.root := [(n, TArr (tbls ++ [TTable []]))]; Toml.current := Some n |}.
Proof.
  intros H. unfold Toml.step. cbn [Toml.current Toml.root assoc].
  rewrite String.eqb_refl, H. cbn [update_assoc]. rewrite String.eqb_refl. reflexivity.
Qed.

Lemma run_app d l1 l2 :
  Toml.run d (l1 ++ l2) = match Toml.run d l1 with Some d' => Toml.run d' l2 | None => None end.
Proof.
  revert d. induction l1 as [|l l1 IH]; intros d; [reflexivity|].
  cbn [app Toml.run]. destruct (Toml.parse_line l); [|reflexivity].
  destruct (Toml.step d l0); [apply IH | reflexivity].
Qed.

Definition rule_doc (tbls : list tval) : Toml.doc :=
  {| Toml.root := [("rule", TArr tbls)]; Toml.current := Some "rule" |}.

Lemma run_opt_line tbls kvs k o rest :
  In k ["cidr"; "client_random_prefix"; "action"] ->
  assoc k kvs = None -> Rules.opt_plain o = true ->
  Toml.run (rule_doc (tbls ++ [TTable kvs])) (Rules.opt_line k o ++ rest) =
  Toml.run (rule_doc (tbls ++ [TTable (kvs ++ Rules.opt_kv k o)])) rest.
Proof.
  intros Hk Ha Ho. destruct o as [v|]; cbn [Rules.opt_line Rules.opt_kv].
  - destruct (negb (String.eqb v EmptyString)); cbn [app].
    + apply run_cons_ok with (pl := Toml.LKeyValue k v).
      * apply parse_line_rule_field; assumption.
      * apply step_kv_arr, Ha.
    + rewrite app_nil_r. reflexivity.
  - rewrite app_nil_r. reflexivity.
Qed.

Lemma assoc_app_none k (a b : list (string * tval)) :
  assoc k a = None -> assoc k b = None -> assoc k (a ++ b) = None.
Proof.
  induction a as [|[k' v'] a IH]; intros Ha Hb; [exact Hb|].
  cbn [app assoc] in Ha |- *. destruct (String.eqb k k'); [discriminate | auto].
Qed.

Lemma assoc_opt_kv k k' o : String.eqb k k' = false -> assoc k (Rules.opt_kv k' o) = None.
Proof.
  intros H. destruct o as [v|]; cbn [Rules.opt_kv]; [|reflexivity].
  destruct (negb (String.eqb v EmptyString)); cbn [assoc]; [rewrite H|]; reflexivity.
Qed.

Lemma run_rule_body tbls r rest :
  Rules.plain_rule r = true ->
  Toml.run (rule_doc (tbls ++ [TTable []])) (tl (Rules.rule_lines r) ++ rest) =
  Toml.run (rule_doc (tbls ++ [Rules.rule_table r])) rest.
Proof.
  unfold Rules.plain_rule. intros H.
  apply andb_true_iff in H as [H Ha]. apply andb_true_iff in H as [Hc Hp].
  cbn [tl Rules.rule_lines]. rewrite <- !app_assoc.
  rewrite run_opt_line by (simpl; tauto || reflexivity || assumption).
  rewrite run_opt_line by
    (simpl; tauto || assumption || (apply assoc_opt_kv; reflexivity)).
  cbn [app]. erewrite run_cons_ok.
  2: { apply (parse_line_rule_field "action"); [simpl; tauto | exact Ha]. }
  2: { apply step_kv_arr. apply assoc_app_none; apply assoc_opt_kv; reflexivity. }
  erewrite run_cons_ok; [| reflexivity | reflexivity].
  unfold Rules.rule_table. rewrite <- !app_assoc. reflexivity.
Qed.

Lemma run_rules tbls r rs :
  forallb Toml.is_table tbls = true ->
  forallb Rules.plain_rule (r :: rs) = true ->
  Toml.run (rule_doc (tbls ++ [TTable []]))
    (tl (Rules.rule_lines r) ++ flat_map Rules.rule_lines rs) =
  Some (rule_doc (tbls ++ map Rules.rule_table (r :: rs))).
Proof.
  revert tbls r. induction rs as [|r' rs IH]; intros tbls r Ht H;
    cbn [forallb] in H; apply andb_true_iff in H as [Hr H];
    rewrite run_rule_body by exact Hr.
  - reflexivity.
  - cbn [flat_map Rules.rule_lines app].
    erewrite run_cons_ok; [| reflexivity | apply step_header_arr].
    + refine (eq_trans (IH (tbls ++ [Rules.rule_table r])%list r' _ H) _).
      * rewrite forallb_app, Ht. reflexivity.
      * rewrite <- app_assoc. reflexivity.
    + rewrite forallb_app, Ht. reflexivity.
Qed.

Lemma rstrip_join_blank (L : list string) (x : string) (c : ascii) :
  ascii_nonspace c = true ->
  Py.rstrip (Py.join (String Py.nl EmptyString) (L ++ [(x ++ String c EmptyString)%string; EmptyString]))
     ++ String Py.nl EmptyString =
  Py.join (String Py.nl EmptyString) (L ++ [(x ++ String c EmptyString)%string; EmptyString]).
Proof.
  intros Hc.
  replace (L ++ [(x ++ String c EmptyString)%string; EmptyString])%list
    with ((L ++ [(x ++ String c EmptyString)%string]) ++ [EmptyString])%list
    by (rewrite <- app_assoc; reflexivity).
  rewrite join_app by (try discriminate; destruct L; discriminate).
  cbn [Py.join]. rewrite str_app_nil_r.
  assert (HJ : exists J', Py.join (String Py.nl EmptyString) (L ++ [(x ++ String c EmptyString)%string])%list
                          = J' ++ String c EmptyString).
  { destruct L as [|l L].
    - exists x. reflexivity.
    - rewrite join_app by discriminate. cbn [Py.join].
      exists (Py.join (String Py.nl EmptyString) (l :: L) ++ String Py.nl EmptyString ++ x).
      rewrite !str_app_assoc. reflexivity. }
  destruct HJ as [J' HJ].
  rewrite (rstrip_trailing_nl _ J' c HJ Hc). reflexivity.
Qed.

(** The text [save_rules] writes is its lines joined by newlines. *)
Lemma save_rules_as_join rs :
  Rules.save_rules rs = Py.join (String Py.nl EmptyString) (flat_map Rules.rule_lines rs).
Proof.
  destruct rs as [|r rs] using rev_ind; [reflexivity|].
  unfold Rules.save_rules. cbn zeta. rewrite flat_map_snoc.
  match goal with |- context [match ?l with [] => _ | _ :: _ => _ end] => destruct l eqn:E end;
    [destruct (flat_map Rules.rule_lines rs); discriminate|].
  rewrite <- E. set (F := flat_map Rules.rule_lines rs). unfold Rules.rule_lines.
  replace (F ++
           "[[rule]]" :: Rules.opt_line "cidr" (Rules.cidr r) ++
           Rules.opt_line "client_random_prefix" (Rules.client_random_prefix r) ++
           [("action = " ++ Rules.quoted (Rules.action r))%string; EmptyString])%list
    with ((F ++
           "[[rule]]" :: Rules.opt_line "cidr" (Rules.cidr r) ++
           Rules.opt_line "client_random_prefix" (Rules.client_random_prefix r)) ++
          [(("action = " ++ String Py.dq (Rules._escape (Rules.action r))) ++
             String Py.dq EmptyString)%string; EmptyString])%list
    by (rewrite <- !app_assoc; cbn [app]; rewrite <- !app_assoc; unfold Rules.quoted;
        rewrite !str_app_assoc; reflexivity).
  apply rstrip_join_blank. reflexivity.
Qed.

Lemma rule_lines_no_newline r :
  Rules.plain_rule r = true ->
  Forall (fun x => Py.contains_char Py.nl x = false) (Rules.rule_lines r).
Proof.
  unfold Rules.plain_rule. intros H.
  apply andb_true_iff in H as [H Ha]. apply andb_true_iff in H as [Hc Hp].
  assert (Hq : forall k v, Py.contains_char Py.nl k = false -> Credentials.no_control v = true ->
            Py.contains_char Py.nl (k ++ " = " ++ Rules.quoted v) = false).
  { intros k v Hk Hv. rewrite !contains_char_app, Hk, rules_quoted, quoted_no_newline by exact Hv.
    reflexivity. }
  assert (Ho : forall k o, Py.contains_char Py.nl k = false -> Rules.opt_plain o = true ->
            Forall (fun x => Py.contains_char Py.nl x = false) (Rules.opt_line k o)).
  { intros k [v|] Hk Hv; cbn [Rules.opt_line]; [|constructor].
    destruct (negb (String.eqb v EmptyString)); repeat constructor. apply Hq; assumption. }
  cbn [Rules.rule_lines]. constructor; [reflexivity|].
  apply Forall_app; split; [apply Ho; [reflexivity | exact Hc]|].
  apply Forall_app; split; [apply Ho; [reflexivity | exact Hp]|].
  repeat constructor. apply (Hq "action"); [reflexivity | exact Ha].
Qed.

Lemma str_if_opt_kv k k' o :
  Rules.str_if (assoc k (Rules.opt_kv k' o)) =
  if String.eqb k k' then Rules.norm_opt o else None.
Proof.
  destruct o as [v|]; cbn [Rules.opt_kv Rules.norm_opt];
    [|destruct (String.eqb k k'); reflexivity].
  destruct (String.eqb v EmptyString) eqn:Ev; cbn [negb assoc];
    [destruct (String.eqb k k'); reflexivity|].
  destruct (String.eqb k k'); [|reflexivity].
  cbn [Rules.str_if truthy]. rewrite Ev. reflexivity.
Qed.

Lemma assoc_app_l k (a b : list (string * tval)) :
  assoc k a = None -> assoc k (a ++ b) = assoc k b.
Proof.
  induction a as [|[k' v'] a IH]; intros Ha; [reflexivity|].
  cbn [app assoc] in Ha |- *. destruct (String.eqb k k'); [discriminate | auto].
Qed.

Lemma load_rule_table r :
  Rules.load_rule (Rules.rule_table r) =
  if String.eqb (Rules.action r) EmptyString
  then Err (ValueError "Each rule must have an action") else Ok (Rules.normalize r).
Proof.
  destruct r as [[c|] [p|] a]; unfold Rules.normalize, Rules.norm_opt; cbn;
    destruct (String.eqb a EmptyString) eqn:Ea; cbn;
    try destruct (String.eqb c EmptyString) eqn:Ec;
    try destruct (String.eqb p EmptyString) eqn:Ep;
    cbn; rewrite ?Ec, ?Ep, ?Ea; cbn; rewrite ?Ec, ?Ep, ?Ea;
    reflexivity.
Qed.

Lemma load_rule_list_tables rs :
  Rules.load_rule_list (map Rules.rule_table rs) =
  if existsb (fun r => String.eqb (Rules.action r) EmptyString) rs
  then Err (ValueError "Each rule must have an action") else Ok (map Rules.normalize rs).
Proof.
  induction rs as [|r rs IH]; [reflexivity|].
  cbn [map Rules.load_rule_list existsb]. rewrite load_rule_table, IH.
  destruct (String.eqb (Rules.action r) EmptyString); [reflexivity|].
  cbn [orb]. destruct (existsb _ rs); reflexivity.
Qed.


(** Reading back what [save_rules] wrote, for rules whose fields have no
    control characters: the same rules, with an empty cidr or
    client_random_prefix read back as absent; but if any rule has an empty
    action, [save_rules] still writes it and [load_rules] then raises
    ValueError. *)
Theorem save_then_load_rules (rules : list Rules.Rule) :
  forallb Rules.plain_rule rules = true ->
  Rules.load_rules (Some (Rules.save_rules rules)) =
  if existsb (fun r => String.eqb (Rules.action r) EmptyString) rules
  then Err (ValueError "Each rule must have an action")
  else Ok (map Rules.normalize rules).
Proof.
  destruct rules as [|r rs]; intros H; [reflexivity|].
  rewrite save_rules_as_join. unfold Rules.load_rules, Toml.loads.
  rewrite split_join.
  2: { cbn [flat_map Rules.rule_lines app]. discriminate. }
  2: { apply List.Forall_forall. intros x Hx. apply in_flat_map in Hx as (r' & Hr' & Hx).
       apply forallb_forall with (x := r') in H; [|exact Hr'].
       exact (proj1 (List.Forall_forall _ _) (rule_lines_no_newline r' H) x Hx). }
  change (flat_map Rules.rule_lines (r :: rs))
    with ("[[rule]]" :: (tl (Rules.rule_lines r) ++ flat_map Rules.rule_lines rs))%list.
  rewrite (run_cons_ok _ (rule_doc ([] ++ [TTable []])) _ (Toml.LArrayHeader "rule"))
    by reflexivity.
  rewrite run_rules by (reflexivity || assumption).
  cbn [rule_doc assoc Toml.root]. rewrite String.eqb_refl. cbn [app Rules.iterate_rules].
  apply load_rule_list_tables.
Qed.

Lemma save_then_load_rules_witness :
  forallb Rules.plain_rule
    [ {| Rules.cidr := Some "10.0.0.0/8"; Rules.client_random_prefix := Some EmptyString;
         Rules.action := "deny" |};
      {| Rules.cidr := None; Rules.client_random_prefix := Some "a1"; Rules.action := "allow" |} ]
    = true /\
  Rules.load_rules (Some (Rules.save_rules
    [ {| Rules.cidr := Some "10.0.0.0/8"; Rules.client_random_prefix := Some EmptyString;
         Rules.action := "deny" |};
      {| Rules.cidr := None; Rules.client_random_prefix := Some "a1"; Rules.action := "allow" |} ]))
  = Ok [ {| Rules.cidr := Some "10.0.0.0/8"; Rules.client_random_prefix := None;
            Rules.action := "deny" |};
         {| Rules.cidr := None; Rules.client_random_prefix := Some "a1"; Rules.action := "allow" |} ].
Proof.
  split; [vm_compute; reflexivity|].
  rewrite save_then_load_rules by (vm_compute; reflexivity). reflexivity.
Defined.

(** ** Chat sessions *)

Lemma store_insert_ne (st : Bot.Store) i j s : i <> j -> (<[i:=s]> st : Bot.Store) !! j = st !! j.
Proof. apply lookup_insert_ne. Qed.

Lemma store_delete_ne (st : Bot.Store) i j : i <> j -> (delete i st : Bot.Store) !! j = st !! j.
Proof. apply lookup_delete_ne. Qed.

Lemma store_insert_eq (st : Bot.Store) i s : (<[i:=s]> st : Bot.Store) !! i = Some s.
Proof. apply lookup_insert_eq. Qed.

Lemma store_delete_eq (st : Bot.Store) i : (delete i st : Bot.Store) !! i = None.
Proof. apply lookup_delete_eq. Qed.

Lemma get_state_lookup chat_id st s st' :
  Bot.get_state chat_id st = (s, st') -> st' !! chat_id = Some s.
Proof.
  unfold Bot.get_state. destruct (st !! chat_id) eqn:E; intros H; injection H as <- <-.
  - exact E.
  - apply lookup_insert_eq.
Qed.

Lemma get_state_other chat_id st s st' c :
  Bot.get_state chat_id st = (s, st') -> c <> chat_id -> st' !! c = st !! c.
Proof.
  unfold Bot.get_state. destruct (st !! chat_id); intros H Hc; injection H as <- <-;
    [reflexivity | apply lookup_insert_ne; congruence].
Qed.

Lemma get_state_free chat_id st s st' :
  Bot.get_state chat_id st = (s, st') -> Bot.admin_config_free st -> Bot.admin_config_free st'.
Proof.
  unfold Bot.get_state, Bot.admin_config_free. destruct (st !! chat_id); intros H Hf;
    injection H as <- <-; [exact Hf|].
  apply map_Forall_insert_2; [discriminate | exact Hf].
Qed.

Ltac store_cases :=
  repeat (case_match; cbn [fst snd]);
  unfold Bot.clear_state in *.

(** The handlers change the session of the chat they serve and no other:
    [handle_callback], [handle_text] and [handle_start] leave the session of
    every other chat as it was. *)
Theorem handlers_touch_only_their_chat (env : Bot.Env) (tenv : Bot.TextEnv)
  (config : BotConfig) (user_id chat_id c : Z) (from_username action : option string)
  (message : Bot.Message) (st : Bot.Store) :
  c <> chat_id ->
  snd (fst (Bot.handle_callback env config user_id from_username chat_id action st)) !! c = st !! c /\
  snd (fst (Bot.handle_text tenv config user_id chat_id message st)) !! c = st !! c /\
  snd (Bot.handle_start config user_id chat_id st) !! c = st !! c.
Proof.
  intros Hc. assert (Hc' : chat_id <> c) by congruence.
  destruct (Bot.get_state chat_id st) as [s st1] eqn:Eg.
  pose proof (get_state_other _ _ _ _ c Eg Hc) as Ho.
  split; [|split].
  - unfold Bot.handle_callback. rewrite Eg. store_cases;
      rewrite ?store_insert_ne, ?store_delete_ne by exact Hc'; exact Ho.
  - unfold Bot.handle_text, Bot._handle_add_user, Bot._handle_admin_config. rewrite Eg.
    store_cases; rewrite ?store_delete_ne by exact Hc'; exact Ho.
  - unfold Bot.handle_start, Bot.clear_state. cbn [snd]. apply store_delete_ne, Hc'.
Qed.

Lemma handlers_touch_only_their_chat_witness :
  (1%Z <> 2%Z) /\
  snd (fst (Bot.handle_callback sample_bot_env sample_config 1 None 2 (Some "add_user")
             (<[1%Z := {| Bot.mode := Some "add_user"; Bot.pending_username := None |}]> ∅)))
    !! 1%Z = Some {| Bot.mode := Some "add_user"; Bot.pending_username := None |}.
Proof.
  split; [lia|].
  rewrite (proj1 (handlers_touch_only_their_chat sample_bot_env
    {| Bot.add_user_outcome := fun _ _ => None; Bot.generated_password := "pw";
       Bot.text_send_configs_outcome := fun _ => None |}
    sample_config 1 2 1 None (Some "add_user")
    {| Bot.text := None; Bot.forward_from := None |}
    (<[1%Z := {| Bot.mode := Some "add_user"; Bot.pending_username := None |}]> ∅)
    ltac:(lia))).
  apply lookup_insert_eq.
Defined.

(** No handler ever puts a chat in the "admin_config" mode: the callback
    for "admin_config" resets the mode to None. So, from sessions where no
    chat is in that mode (such as the empty store the bot starts with),
    every handler keeps it that way, and [handle_text] never reaches
    [_handle_admin_config]: it never sends configs for a typed username and
    never asks for one. *)
Theorem admin_config_mode_unreachable (env : Bot.Env) (tenv : Bot.TextEnv)
  (config : BotConfig) (user_id chat_id : Z) (from_username action : option string)
  (message : Bot.Message) (st : Bot.Store) :
  Bot.admin_config_free st ->
  Bot.admin_config_free (snd (fst (Bot.handle_callback env config user_id from_username chat_id action st))) /\
  Bot.admin_config_free (snd (fst (Bot.handle_text tenv config user_id chat_id message st))) /\
  Bot.admin_config_free (snd (Bot.handle_start config user_id chat_id st)) /\
  (forall u, ~ In (Bot.TSendConfigs u) (fst (fst (Bot.handle_text tenv config user_id chat_id message st)))) /\
  ~ In (Bot.TAnswer Bot.TMsgEnterUsername) (fst (fst (Bot.handle_text tenv config user_id chat_id message st))).
Proof.
  intros Hf.
  destruct (Bot.get_state chat_id st) as [s st1] eqn:Eg.
  pose proof (get_state_free _ _ _ _ Eg Hf) as Hf1.
  pose proof (get_state_lookup _ _ _ _ Eg) as Hs.
  assert (Hm : Bot.mode s <> Some "admin_config") by exact (Hf1 chat_id s Hs).
  assert (Htext :
    Bot.admin_config_free (snd (fst (Bot.handle_text tenv config user_id chat_id message st))) /\
    (forall u, ~ In (Bot.TSendConfigs u) (fst (fst (Bot.handle_text tenv config user_id chat_id message st)))) /\
    ~ In (Bot.TAnswer Bot.TMsgEnterUsername) (fst (fst (Bot.handle_text tenv config user_id chat_id message st)))).
  { unfold Bot.handle_text. rewrite Eg.
    destruct (Bot.mode s) as [m|] eqn:Em.
    2: { cbn [fst snd]. split; [exact Hf1 | split; [intros u [H|[]]; discriminate | intros [H|[]]; discriminate]]. }
    destruct (String.eqb m EmptyString).
    { cbn [fst snd]. split; [exact Hf1 | split; [intros u [H|[]]; discriminate | intros [H|[]]; discriminate]]. }
    destruct (String.eqb m "add_user").
    - unfold Bot._handle_add_user.
      repeat (case_match; cbn [fst snd]); unfold Bot.clear_state;
        (split; [try apply map_Forall_delete; exact Hf1|]);
        split; intros; cbn [In]; intuition discriminate.
    - destruct (String.eqb m "admin_config") eqn:Ea.
      + apply String.eqb_eq in Ea. subst m. congruence.
      + cbn [fst snd]. split; [exact Hf1 | split; [intros u [H|[]]; discriminate | intros [H|[]]; discriminate]]. }
  destruct Htext as (Ht1 & Ht2 & Ht3).
  split; [| split; [exact Ht1 | split; [| split; [exact Ht2 | exact Ht3]]]].
  - unfold Bot.handle_callback. rewrite Eg. unfold Bot.admin_config_free in *.
    store_cases;
      try (apply map_Forall_insert_2; [cbn [Bot.mode]; discriminate | exact Hf1]);
      try (apply map_Forall_delete; exact Hf1); exact Hf1.
  - unfold Bot.handle_start, Bot.clear_state, Bot.admin_config_free. cbn [snd].
    apply map_Forall_delete, Hf.
Qed.

Lemma admin_config_mode_unreachable_witness :
  Bot.admin_config_free (∅ : Bot.Store) /\
  Bot.admin_config_free
    (snd (fst (Bot.handle_callback sample_bot_env sample_config 1 None 7 (Some "admin_config") ∅))).
Proof.
  assert (H0 : Bot.admin_config_free (∅ : Bot.Store)) by apply map_Forall_empty.
  split; [exact H0|].
  exact (proj1 (admin_config_mode_unreachable sample_bot_env
    {| Bot.add_user_outcome := fun _ _ => None; Bot.generated_password := "pw";
       Bot.text_send_configs_outcome := fun _ => None |}
    sample_config 1 7 None (Some "admin_config")
    {| Bot.text := Some "alice"; Bot.forward_from := None |} ∅ H0)).
Defined.

(** In a chat whose session is in the "add_user" mode, [handle_text] calls
    [add_user] with the username it extracts from the message and a fresh
    password, whoever sends the message: the outcome does not depend on the
    sender's id or on the configured admins. *)
Theorem add_user_mode_ignores_sender (tenv : Bot.TextEnv) (config config' : BotConfig)
  (user_id user_id' chat_id : Z) (message : Bot.Message) (st : Bot.Store)
  (s : Bot.ChatState) (username : string) :
  st !! chat_id = Some s -> Bot.mode s = Some "add_user" ->
  Bot._extract_username message = Some username -> username <> EmptyString ->
  Bot.handle_text tenv config user_id chat_id message st =
  Bot.handle_text tenv config' user_id' chat_id message st /\
  exists rest, fst (fst (Bot.handle_text tenv config user_id chat_id message st)) =
               Bot.TAddUser username (Bot.generated_password tenv) :: rest.
Proof.
  intros Hs Hm Hu Hne.
  unfold Bot.handle_text, Bot.get_state. rewrite Hs, Hm.
  cbn [String.eqb Ascii.eqb Bool.eqb andb]. cbv zeta.
  split; [reflexivity|].
  unfold Bot._handle_add_user. rewrite Hu.
  apply String.eqb_neq in Hne. rewrite Hne.
  destruct (Bot.add_user_outcome tenv username (Bot.generated_password tenv)) as [[]|];
    cbn [fst]; eexists; reflexivity.
Qed.

Lemma add_user_mode_ignores_sender_witness :
  exists rest,
  fst (fst (Bot.handle_text
    {| Bot.add_user_outcome := fun _ _ => None; Bot.generated_password := "pw";
       Bot.text_send_configs_outcome := fun _ => None |}
    {| credentials_file := "c"; admin_ids := Some [1%Z]; reload_endpoint := None;
       dns_upstreams := None |} 99 5 {| Bot.text := Some " @mallory "; Bot.forward_from := None |}
    (<[5%Z := {| Bot.mode := Some "add_user"; Bot.pending_username := None |}]> ∅))) =
  Bot.TAddUser "mallory" "pw" :: rest.
Proof.
  exact (proj2 (add_user_mode_ignores_sender
    {| Bot.add_user_outcome := fun _ _ => None; Bot.generated_password := "pw";
       Bot.text_send_configs_outcome := fun _ => None |}
    {| credentials_file := "c"; admin_ids := Some [1%Z]; reload_endpoint := None;
       dns_upstreams := None |} sample_config 99 1 5
    {| Bot.text := Some " @mallory "; Bot.forward_from := None |}
    (<[5%Z := {| Bot.mode := Some "add_user"; Bot.pending_username := None |}]> ∅)
    {| Bot.mode := Some "add_user"; Bot.pending_username := None |} "mallory"
    (lookup_insert_eq _ _ _) eq_refl (eq_refl : _ = Some "mallory") ltac:(discriminate))).
Defined.

(** ** Usernames typed or forwarded *)

(** [s] has no whitespace character ([str.isspace]) starting at any of its
    bytes. *)
Fixpoint no_ws (s : string) : bool :=
  match s with
  | EmptyString => true
  | String c rest =>
      negb (Py.is_space c) &&
      match rest with
      | String d rest2 =>
          negb (Py.is_space2 c d) &&
          match rest2 with
          | String e _ => negb (Py.is_space3 c d e)
          | EmptyString => true
          end
      | EmptyString => true
      end && no_ws rest
  end.

Lemma no_ws_cons c s :
  no_ws (String c s) = true ->
  Py.is_space c = false /\
  (forall d rest2, s = String d rest2 -> Py.is_space2 c d = false /\
     forall e rest3, rest2 = String e rest3 -> Py.is_space3 c d e = false) /\
  no_ws s = true.
Proof.
  cbn [no_ws]. intros H. apply andb_true_iff in H as [H Hs].
  apply andb_true_iff in H as [Hc H]. apply negb_true_iff in Hc.
  split; [exact Hc|]. split; [|exact Hs].
  intros d rest2 ->. apply andb_true_iff in H as [H2 H].
  split; [apply negb_true_iff, H2|]. intros e rest3 ->. apply negb_true_iff, H.
Qed.

Lemma no_ws_rstrip s : no_ws s = true -> Py.rstrip s = s.
Proof.
  induction s as [|c s IH]; intros H; [reflexivity|].
  apply no_ws_cons in H as (Hc & Hn & Hs).
  cbn [Py.rstrip]. rewrite Hc. destruct s as [|d s2]; [reflexivity|].
  destruct (Hn d s2 eq_refl) as [H2 H3]. rewrite H2.
  destruct s2 as [|e s3]; [rewrite IH by exact Hs; reflexivity|].
  rewrite (H3 e s3 eq_refl), IH by exact Hs. reflexivity.
Qed.

Lemma no_ws_lstrip s : no_ws s = true -> Py.lstrip s = s.
Proof.
  destruct s as [|c s]; intros H; [reflexivity|].
  apply no_ws_cons in H as (Hc & Hn & _).
  cbn [Py.lstrip]. rewrite Hc. destruct s as [|d s2]; [reflexivity|].
  destruct (Hn d s2 eq_refl) as [H2 H3]. rewrite H2.
  destruct s2 as [|e s3]; [reflexivity|]. rewrite (H3 e s3 eq_refl). reflexivity.
Qed.

Lemma no_ws_contains s : no_ws s = true -> Py.contains_char " "%char s = false.
Proof.
  induction s as [|c s IH]; intros H; [reflexivity|].
  apply no_ws_cons in H as (Hc & _ & Hs).
  cbn [Py.contains_char]. rewrite IH by exact Hs.
  destruct (Ascii.eqb " "%char c) eqn:E; [|reflexivity].
  apply Ascii.eqb_eq in E. subst c. discriminate.
Qed.

Lemma no_ws_at u : no_ws u = true -> no_ws ("@" ++ u) = true.
Proof.
  intros H. cbn [String.append no_ws]. rewrite H.
  destruct u as [|d [|e r]]; reflexivity.
Qed.

(** [_normalize_username] only yields non-empty names without a space;
    and a name with no whitespace character, typed with or without one
    leading @, is read back as itself. *)
Theorem normalize_username_spec (text u : string) :
  (Bot._normalize_username text = Some u ->
   u <> EmptyString /\ Py.contains_char " "%char u = false) /\
  (u <> EmptyString -> no_ws u = true ->
   Bot._normalize_username ("@" ++ u) = Some u /\
   (Py.startswith u "@" = false -> Bot._normalize_username u = Some u)).
Proof.
  split.
  - unfold Bot._normalize_username. cbv zeta.
    set (c := if Py.startswith _ _ then _ else _).
    destruct (String.eqb c EmptyString) eqn:E1; [discriminate|].
    destruct (Py.contains_char " "%char c) eqn:E2; [discriminate|].
    intros H. injection H as <-. split; [apply String.eqb_neq, E1 | exact E2].
  - intros Hne Hs.
    assert (Hsp : forall v, no_ws v = true -> Py.strip v = v).
    { intros v Hv. unfold Py.strip. rewrite (no_ws_rstrip v Hv). apply no_ws_lstrip, Hv. }
    assert (Hne' : String.eqb u EmptyString = false) by (apply String.eqb_neq, Hne).
    split.
    + unfold Bot._normalize_username. cbv zeta.
      rewrite (Hsp _ (no_ws_at u Hs)). unfold Py.startswith. rewrite (prefix_app "@" u).
      cbn [String.append].
      rewrite Hne', no_ws_contains by exact Hs. reflexivity.
    + intros Hat. unfold Bot._normalize_username. cbv zeta.
      rewrite (Hsp u Hs), Hat, Hne', no_ws_contains by exact Hs. reflexivity.
Qed.

Lemma normalize_username_spec_witness :
  Bot._normalize_username ("@" ++ "alice") = Some "alice" /\
  Bot._normalize_username "alice" = Some "alice".
Proof.
  destruct (proj2 (normalize_username_spec EmptyString "alice") ltac:(discriminate)
    ltac:(vm_compute; reflexivity)) as [H1 H2].
  split; [exact H1 | apply H2; reflexivity].
Defined.

(** ** Paginated user keyboards *)

Lemma prefix_nil s : String.prefix EmptyString s = true.
Proof. destruct s; reflexivity. Qed.

Lemma paginated_keyboard_buttons usernames ap pp page total b :
  In b (concat (Bot._build_paginated_user_keyboard usernames ap pp page total)) ->
  (exists u, In u usernames /\ b = ap ++ ":" ++ u) \/
  ((total > 1)%Z /\ (page > 1)%Z /\ b = pp ++ ":" ++ Py.str_int (page - 1)) \/
  ((total > 1)%Z /\ (page < total)%Z /\ b = pp ++ ":" ++ Py.str_int (page + 1)) \/
  b = "back_to_menu".
Proof.
  unfold Bot._build_paginated_user_keyboard. cbv zeta.
  rewrite !concat_app. intros H. apply in_app_or in H as [H | H].
  { left. apply in_concat in H as (row & Hrow & Hb).
    apply in_map_iff in Hrow as (u & <- & Hu). destruct Hb as [<- | []]. eauto. }
  apply in_app_or in H as [H | H].
  2: { cbn in H. destruct H as [<- | []]. right; right; right. reflexivity. }
  destruct (total >? 1)%Z eqn:Et; [|cbn in H; contradiction].
  apply Z.gtb_lt in Et.
  assert (Hn : In b ((if (page >? 1)%Z then [(pp ++ ":" ++ Py.str_int (page - 1))%string] else []) ++
                     (if (page <? total)%Z then [(pp ++ ":" ++ Py.str_int (page + 1))%string] else []))%list).
  { destruct (_ ++ _)%list; cbn in H; [contradiction|]. rewrite app_nil_r in H. exact H. }
  apply in_app_or in Hn as [Hn | Hn].
  - destruct (page >? 1)%Z eqn:Ep; [|contradiction]. apply Z.gtb_lt in Ep.
    destruct Hn as [<- | []]. right; left. repeat split; lia.
  - destruct (page <? total)%Z eqn:Ep; [|contradiction]. apply Z.ltb_lt in Ep.
    destruct Hn as [<- | []]. right; right; left. repeat split; lia.
Qed.

(** Every button of the delete-user menu, pressed by an admin, does what it
    shows: a username button deletes that username, the page buttons open
    the previous or next page (which exists), and the last one goes back to
    the menu; [parse_int] is Python's [int] on the page number. *)
Theorem delete_menu_buttons (env : Bot.Env) (config : BotConfig) (user_id chat_id : Z)
  (from_username : option string) (st : Bot.Store) (usernames : list string)
  (page total_pages : Z) (b : string) :
  Bot._is_admin config user_id = true ->
  (forall n, (0 <= n)%Z -> Bot.parse_int env (Py.str_int n) = Some n) ->
  (1 <= page <= total_pages)%Z ->
  Forall (fun u => u <> EmptyString) usernames ->
  In b (concat (Bot._build_paginated_user_keyboard usernames "delete_user" "delete_user_page"
                  page total_pages)) ->
  let events := fst (fst (Bot.handle_callback env config user_id from_username chat_id (Some b) st)) in
  (exists u rest, In u usernames /\ b = "delete_user:" ++ u /\ events = Bot.DeleteUser u :: rest) \/
  (exists n, (1 <= n <= total_pages)%Z /\ (n = page - 1 \/ n = page + 1)%Z /\
             events = [Bot.DeleteUserMenu n]) \/
  events = [Bot.ShowMenu true].
Proof.
  intros Ha Henv Hp Hu Hb. cbv zeta.
  unfold Bot.handle_callback. rewrite Ha.
  destruct (Bot.get_state chat_id st) as [s st1].
  apply paginated_keyboard_buttons in Hb as [(u & Hin & ->) | [(Ht & Hg & ->) | [(Ht & Hl & ->) | ->]]].
  - left. exists u.
    assert (Hne : String.eqb u EmptyString = false)
      by (apply String.eqb_neq; exact (proj1 (List.Forall_forall _ _) Hu u Hin)).
    cbn -[Py.str_int]. rewrite prefix_nil, Hne.
    destruct (Bot.delete_user_outcome env u) as [[]|]; eexists; (split; [exact Hin | split; reflexivity]).
  - right; left. exists (page - 1)%Z. split; [lia|]. split; [left; reflexivity|].
    cbn -[Py.str_int]. unfold Bot._parse_page. cbn -[Py.str_int].
    rewrite ?prefix_nil, Henv by lia. rewrite ?prefix_nil. reflexivity.
  - right; left. exists (page + 1)%Z. split; [lia|]. split; [right; reflexivity|].
    cbn -[Py.str_int]. unfold Bot._parse_page. cbn -[Py.str_int].
    rewrite ?prefix_nil, Henv by lia. rewrite ?prefix_nil. reflexivity.
  - right; right. reflexivity.
Qed.

(** Python's [int] on the decimal numerals [str] prints. *)
Definition decimal_env : Bot.Env :=
  {| Bot.delete_user_outcome := fun _ => None;
     Bot.parse_int := fun s => option_map Z.of_int (NilEmpty.int_of_string s);
     Bot.rules_summary := Ok EmptyString;
     Bot.send_configs_outcome := fun _ => None |}.

Lemma delete_menu_buttons_witness :
  exists rest,
  fst (fst (Bot.handle_callback decimal_env sample_config 1 None 7 (Some "delete_user:bob") ∅)) =
  Bot.DeleteUser "bob" :: rest.
Proof.
  assert (Henv : forall n, (0 <= n)%Z -> Bot.parse_int decimal_env (Py.str_int n) = Some n).
  { intros n _. cbn [Bot.parse_int decimal_env]. unfold Py.str_int.
    rewrite NilEmpty.isi. cbn [option_map]. rewrite DecimalZ.of_to. reflexivity. }
  destruct (delete_menu_buttons decimal_env sample_config 1 7 None ∅ ["alice"; "bob"] 1 1
    "delete_user:bob" eq_refl Henv ltac:(lia) ltac:(repeat constructor; discriminate)
    ltac:(vm_compute; tauto)) as [(u & rest & Hin & Hb & He) | [(n & _ & _ & He) | He]].
  - exists rest. cbn [String.append] in Hb. injection Hb as Hb. subst u. exact He.
  - vm_compute in He. discriminate.
  - vm_compute in He. discriminate.
Defined.

(** ** Error reports *)

(** [_send_error] sends at most 3900 characters, without carriage
    returns; if the text had to be shortened, the full text follows as a
    document; a text of at most 3900 characters is sent as it is, minus its
    carriage returns, with no document. *)
Theorem send_error_bounds (text : list Z) :
  (length (fst (Bot._send_error text)) <= 3900)%nat /\
  ~ In 13%Z (fst (Bot._send_error text)) /\
  (fst (Bot._send_error text) <> List.filter (fun c => negb (Z.eqb c 13)) text ->
   snd (Bot._send_error text) = Some text) /\
  ((length text <= 3900)%nat ->
   Bot._send_error text = (List.filter (fun c => negb (Z.eqb c 13)) text, None)).
Proof.
  unfold Bot._send_error, Bot.max_len, Bot.ellipsis. cbv zeta.
  set (cleaned := List.filter (fun c => negb (Z.eqb c 13)) text).
  assert (Hle : (length cleaned <= length text)%nat) by apply List.filter_length_le.
  assert (Hno : ~ In 13%Z cleaned).
  { intros H. apply List.filter_In in H as [_ H]. rewrite Z.eqb_refl in H. discriminate. }
  destruct (Z.of_nat (length cleaned) >? 3900)%Z eqn:Ec; cbn [fst snd].
  - apply Z.gtb_lt in Ec.
    assert (Ht : (Z.of_nat (length text) >? 3900)%Z = true) by (apply Z.gtb_lt; lia).
    rewrite Ht. split; [|split; [|split]].
    + rewrite length_app, length_firstn. cbn [length]. lia.
    + intros H. apply in_app_or in H as [H | [H | []]]; [|discriminate].
      apply Hno. rewrite <- (firstn_skipn (Z.to_nat (3900 - 1)) cleaned).
      apply in_or_app. left. exact H.
    + reflexivity.
    + intros H. lia.
  - rewrite Z.gtb_ltb in Ec. apply Z.ltb_ge in Ec. split; [lia | split; [exact Hno | split]].
    + intros H. congruence.
    + intros H. destruct (Z.of_nat (length text) >? 3900)%Z eqn:Ht; [apply Z.gtb_lt in Ht; lia|].
      reflexivity.
Qed.

(** ** Main menu *)

(** Every button of the menu shown to a user is accepted when that user
    presses it: a non-admin only gets the "my_config" button, and the
    callback never answers "insufficient rights" to a button of the menu. *)
Theorem menu_buttons_accepted (env : Bot.Env) (config : BotConfig) (user_id chat_id : Z)
  (from_username : option string) (st : Bot.Store) (b : string) :
  In b (concat (Bot._menu_keyboard (Bot._is_admin config user_id))) ->
  hd_error (fst (fst (Bot.handle_callback env config user_id from_username chat_id (Some b) st)))
    <> Some (Bot.Answer (Some Bot.MsgInsufficientRights)).
Proof.
  unfold Bot.handle_callback. cbv zeta. destruct (Bot.get_state chat_id st) as [s st1].
  destruct (Bot._is_admin config user_id); cbn [Bot._menu_keyboard app concat];
    intros H; repeat (destruct H as [<- | H]; [cbn; repeat case_match; discriminate|]); destruct H.
Qed.

Lemma menu_buttons_accepted_witness :
  hd_error (fst (fst (Bot.handle_callback sample_bot_env sample_config 2 None 7
                        (Some "my_config") ∅)))
    <> Some (Bot.Answer (Some Bot.MsgInsufficientRights)).
Proof.
  apply (menu_buttons_accepted sample_bot_env sample_config 2 7 None ∅ "my_config").
  vm_compute. tauto.
Defined.

(** ** Adding a user through the chat *)

(** An admin presses "add_user", then a message naming a user arrives in
    the same chat: [add_user] is called with that username and a fresh
    password. On success the bot reports the new account, shows the admin
    menu and ends the chat's session. If [add_user] raises a ValueError
    (e.g. the username exists, or TOMLDecodeError, its subclass, on a
    malformed credentials file), the bot answers with the error text and
    the chat stays in the "add_user" mode, so the next message is another
    try. Any other exception escapes after the call. *)
Theorem add_user_flow (env : Bot.Env) (tenv : Bot.TextEnv) (config : BotConfig)
  (user_id sender_id chat_id : Z) (from_username : option string) (message : Bot.Message)
  (st : Bot.Store) (username : string) :
  Bot._is_admin config user_id = true ->
  Bot._extract_username message = Some username -> username <> EmptyString ->
  let st1 := snd (fst (Bot.handle_callback env config user_id from_username chat_id
                         (Some "add_user") st)) in
  let r := Bot.handle_text tenv config sender_id chat_id message st1 in
  let password := Bot.generated_password tenv in
  match Bot.add_user_outcome tenv username password with
  | None =>
      fst (fst r) = [Bot.TAddUser username password; Bot.TAnswer (Bot.TMsgCreated username password);
                     Bot.TShowMenu true] /\
      snd (fst r) !! chat_id = None /\ snd r = None
  | Some e =>
      if is_value_error e then
        fst (fst r) = [Bot.TAddUser username password; Bot.TAnswer (Bot.TMsgError e)] /\
        snd (fst r) !! chat_id =
          Some {| Bot.mode := Some "add_user"; Bot.pending_username := None |} /\
        snd r = None
      else fst (fst r) = [Bot.TAddUser username password] /\ snd r = Some e
  end.
Proof.
  intros Ha Hu Hne. cbv zeta.
  assert (H1 : snd (fst (Bot.handle_callback env config user_id from_username chat_id
                           (Some "add_user") st)) =
               <[chat_id := {| Bot.mode := Some "add_user"; Bot.pending_username := None |}]>
                 (snd (Bot.get_state chat_id st))).
  { unfold Bot.handle_callback. rewrite Ha. destruct (Bot.get_state chat_id st). reflexivity. }
  rewrite H1. clear H1. remember (snd (Bot.get_state chat_id st)) as st0 eqn:Est0.
  unfold Bot.handle_text, Bot.get_state.
  rewrite store_insert_eq. cbn [Bot.mode String.eqb Ascii.eqb Bool.eqb andb].
  unfold Bot._handle_add_user. rewrite Hu.
  apply String.eqb_neq in Hne. rewrite Hne.
  destruct (Bot.add_user_outcome tenv username (Bot.generated_password tenv)) as [e|].
  - destruct (is_value_error e); cbn [fst snd]; [|split; reflexivity].
    split; [reflexivity | split; [apply store_insert_eq | reflexivity]].
  - cbn [fst snd].
    split; [reflexivity | split; [unfold Bot.clear_state; apply store_delete_eq | reflexivity]].
Qed.

Lemma add_user_flow_witness :
  fst (fst (Bot.handle_text
    {| Bot.add_user_outcome := fun _ _ => None; Bot.generated_password := "pw";
       Bot.text_send_configs_outcome := fun _ => None |}
    sample_config 1 7 {| Bot.text := Some "@bob"; Bot.forward_from := None |}
    (snd (fst (Bot.handle_callback sample_bot_env sample_config 1 None 7 (Some "add_user") ∅)))))
  = [Bot.TAddUser "bob" "pw"; Bot.TAnswer (Bot.TMsgCreated "bob" "pw"); Bot.TShowMenu true].
Proof.
  exact (proj1 (add_user_flow sample_bot_env
    {| Bot.add_user_outcome := fun _ _ => None; Bot.generated_password := "pw";
       Bot.text_send_configs_outcome := fun _ => None |}
    sample_config 1 1 7 None {| Bot.text := Some "@bob"; Bot.forward_from := None |} ∅ "bob"
    eq_refl eq_refl ltac:(discriminate))).
Defined.

(** ** Bot configuration *)

Lemma load_config_admin_ids parse_int data cfg :
  Config.load_config parse_int data = Ok cfg ->
  Config._ensure_int_list parse_int (assoc "admin_ids" data) = Ok (Config.admin_ids cfg).
Proof.
  intros H. unfold Config.load_config in H. cbv zeta in H.
  repeat case_match; try discriminate; injection H as <-; reflexivity.
Qed.

Lemma py_int_list_ints parse_int ids :
  Config.py_int_list parse_int (map TInt ids) = Ok ids.
Proof. induction ids as [|z ids IH]; [reflexivity|]. cbn. rewrite IH. reflexivity. Qed.

Lemma is_admin_ids (c : BotConfig) ids u :
  admin_ids c = Some ids -> Bot._is_admin c u = existsb (Z.eqb u) ids.
Proof. intros H. unfold Bot._is_admin. rewrite H. destruct ids; reflexivity. Qed.

(** How [admin_ids] of bot.toml decides who is an admin, for a
    configuration [load_config] returned: absent, "" or [] makes nobody an
    admin and [_ensure_bot_config] refuse to start; a list of integers makes
    exactly those users admins; a single integer n, exactly user n; and a
    boolean is read as [int(b)], so true makes user 1 the admin and false
    user 0. *)
Theorem load_config_admins (parse_int : string -> option Z) (data : list (string * tval))
  (cfg : Config.LoadedConfig) (c : BotConfig) :
  Config.load_config parse_int data = Ok cfg ->
  admin_ids c = Config.admin_ids cfg ->
  ((assoc "admin_ids" data = None \/ assoc "admin_ids" data = Some (TStr EmptyString) \/
    assoc "admin_ids" data = Some (TArr [])) ->
   (forall u, Bot._is_admin c u = false) /\ Config._ensure_bot_config cfg <> None) /\
  (forall ids, assoc "admin_ids" data = Some (TArr (map TInt ids)) ->
   forall u, Bot._is_admin c u = existsb (Z.eqb u) ids) /\
  (forall n, assoc "admin_ids" data = Some (TInt n) -> forall u, Bot._is_admin c u = Z.eqb u n) /\
  (forall b, assoc "admin_ids" data = Some (TBool b) ->
   forall u, Bot._is_admin c u = Z.eqb u (if b then 1 else 0)).
Proof.
  intros H Hc. apply load_config_admin_ids in H.
  split; [|split; [|split]].
  - intros Hv.
    assert (Ha : Config.admin_ids cfg = None \/ Config.admin_ids cfg = Some []).
    { destruct Hv as [Hv | [Hv | Hv]]; rewrite Hv in H; cbn in H; injection H as <-; auto. }
    split.
    + intros u. unfold Bot._is_admin. rewrite Hc. destruct Ha as [-> | ->]; reflexivity.
    + unfold Config._ensure_bot_config.
      destruct (match Config.telegram_token cfg with Some t => _ | None => true end);
        [discriminate|].
      destruct Ha as [-> | ->]; discriminate.
  - intros ids Hv u. rewrite Hv in H. cbn [Config._ensure_int_list Config.none_or_empty] in H.
    rewrite py_int_list_ints in H. injection H as H. apply is_admin_ids. congruence.
  - intros n Hv u. rewrite Hv in H. cbn in H. injection H as H.
    rewrite (is_admin_ids c [n]) by congruence. cbn. apply orb_false_r.
  - intros b Hv u. rewrite Hv in H. cbn in H. injection H as H.
    rewrite (is_admin_ids c [if b then 1%Z else 0%Z]) by congruence. cbn. apply orb_false_r.
Qed.

Lemma load_config_admins_witness :
  Bot._is_admin {| credentials_file := "/etc/trusttunnel/credentials.toml";
                   admin_ids := Some [1%Z]; reload_endpoint := None; dns_upstreams := None |} 1
  = true.
Proof.
  rewrite (proj2 (proj2 (proj2 (load_config_admins (fun _ => None)
    [("credentials_file", TStr "/etc/trusttunnel/credentials.toml"); ("admin_ids", TBool true)]
    {| Config.credentials_file := "/etc/trusttunnel/credentials.toml";
       Config.telegram_token := None; Config.admin_ids := Some [1%Z];
       Config.reload_endpoint := None; Config.vpn_config := None; Config.hosts_config := None;
       Config.endpoint_public_address := None; Config.dns_upstreams := None;
       Config.rules_file := None; Config.endpoint_command_timeout_s := 10 |}
    {| credentials_file := "/etc/trusttunnel/credentials.toml";
       admin_ids := Some [1%Z]; reload_endpoint := None; dns_upstreams := None |}
    eq_refl eq_refl))) true eq_refl 1%Z).
  reflexivity.
Defined.
